(** * bintable: a directory-based binary layout for astropy tables

    A shallow embedding of [write] and [read] of [bintable.py], together
    with the properties of the on-disk format: offset bookkeeping, the
    commit protocol of the manifest, mask handling, selective reads and
    the reader's cache of backing files.

    The program talks to three libraries: the file system ([os], [open]),
    [json] and [numpy]/[astropy].  They are modelled at their interface:
    - a file holds either a JSON document, a numpy array or raw bytes that
      parse as neither ([CJson], [CNpy], [CRaw]); [np.save] followed by
      [np.load] gives back the array, [json.dumps] followed by [json.load]
      the JSON image of the value: tuples come back as lists, dictionary
      keys as strings, every NaN as the quiet NaN;
    - Python values are the tree type [pyval]; [json.dumps] raises
      [TypeError] on the values JSON cannot hold ([bytes], arrays);
    - every file-system call that can fail for reasons outside the program
      (disk full, permissions) consults an oracle carried by the world. *)

From stdpp Require Import gmap strings list fin_maps pretty.
From Stdlib Require Import ZArith Ascii.

Set Warnings "-register-all,-clear-no-such-hyp".

Open Scope string_scope.
Open Scope list_scope.

(** ** Python values and exceptions *)

(** The keys of a dictionary: strings, and the other keys [json.dumps]
    accepts and turns into strings (a float key is outside the model). *)
Inductive pykey :=
| KStr (s : string)
| KInt (z : Z)
| KBool (b : bool)
| KNone.

Inductive pyval :=
| PNone
| PBool (b : bool)
| PInt (z : Z)
| PFloat (bits : Z)                      (* a binary64, by its bit pattern *)
| PStr (s : string)
| PBytes (s : string)
| PList (l : list pyval)
| PTuple (l : list pyval)
| PDict (kv : list (pykey * pyval))      (* items in insertion order *)
| PArr (a : list pyval).                 (* a one-dimensional ndarray / buffer *)

Inductive exn :=
| AssertionError
| FileExistsError
| FileNotFoundError
| OSError
| KeyError
| TypeError
| ValueError
| OverflowError
| MaskError.

Inductive result (A : Type) :=
| Ok (a : A)
| Raise (e : exn).
Arguments Ok {A} a.
Arguments Raise {A} e.

Definition rbind {A B} (r : result A) (k : A → result B) : result B :=
  match r with
  | Ok a => k a
  | Raise e => Raise e
  end.

Notation "'let?' x ':=' r 'in' k" := (rbind r (fun x => k))
  (at level 10, x pattern, r at level 100, k at level 200).

Definition assert (b : bool) : result unit :=
  if b then Ok tt else Raise AssertionError.

(** ** Strings: [in], [endswith], [startswith], [os.path.join] *)

(** [c in s] for a one-character needle. *)
Fixpoint str_in (c : ascii) (s : string) : bool :=
  match s with
  | EmptyString => false
  | String a s' => if Ascii.eqb a c then true else str_in c s'
  end.

Fixpoint endswith (s suffix : string) : bool :=
  if String.eqb s suffix then true
  else match s with
       | EmptyString => false
       | String _ s' => endswith s' suffix
       end.

Fixpoint startswith (s pre : string) {struct pre} : bool :=
  match pre with
  | EmptyString => true
  | String a pre' =>
      match s with
      | EmptyString => false
      | String b s' => Ascii.eqb a b && startswith s' pre'
      end
  end.

Definition os_path_join (a b : string) : string :=
  if startswith b "/" then b
  else if String.eqb a "" || endswith a "/" then a +:+ b
  else a +:+ "/" +:+ b.

(** ** Dictionaries held in [pyval] *)

(** The key [k'] is the string [k]. *)
Definition key_is (k : string) (k' : pykey) : bool :=
  match k' with
  | KStr s => String.eqb s k
  | _ => false
  end.

Definition key_val (k : pykey) : pyval :=
  match k with
  | KStr s => PStr s
  | KInt z => PInt z
  | KBool b => PBool b
  | KNone => PNone
  end.

Fixpoint dict_get (k : string) (kv : list (pykey * pyval)) : option pyval :=
  match kv with
  | [] => None
  | (k', v) :: kv' => if key_is k k' then Some v else dict_get k kv'
  end.

(** [d[k] = v] for a string key. *)
Fixpoint dict_set (k : string) (v : pyval) (kv : list (pykey * pyval))
  : list (pykey * pyval) :=
  match kv with
  | [] => [(KStr k, v)]
  | (k', v') :: kv' =>
      if key_is k k' then (k', v) :: kv' else (k', v') :: dict_set k v kv'
  end.

(** [v[k]] for a string key. *)
Definition py_getitem (v : pyval) (k : string) : result pyval :=
  match v with
  | PDict kv =>
      match dict_get k kv with
      | Some x => Ok x
      | None => Raise KeyError
      end
  | _ => Raise TypeError
  end.

(** [k in v] for a dictionary [v]. *)
Definition py_haskey (v : pyval) (k : string) : result bool :=
  match v with
  | PDict kv => Ok (bool_decide (is_Some (dict_get k kv)))
  | _ => Raise TypeError
  end.

(** [for x in v]. *)
Definition py_iter (v : pyval) : result (list pyval) :=
  match v with
  | PList l | PTuple l => Ok l
  | PDict kv => Ok (map (fun p => key_val (fst p)) kv)
  | PStr s => Ok (map (fun c => PStr (String c EmptyString)) (String.list_ascii_of_string s))
  | _ => Raise TypeError
  end.

Definition as_str (v : pyval) : result string :=
  match v with
  | PStr s => Ok s
  | _ => Raise TypeError
  end.

(** An integer usable as a slice bound ([bool] is a subclass of [int]). *)
Definition as_index (v : pyval) : result Z :=
  match v with
  | PInt z => Ok z
  | PBool b => Ok (if b then 1 else 0)%Z
  | _ => Raise TypeError
  end.

Fixpoint hashable (v : pyval) : bool :=
  match v with
  | PList _ | PDict _ | PArr _ => false
  | PTuple l => forallb hashable l
  | _ => true
  end.

Definition truthy (v : pyval) : bool :=
  match v with
  | PNone => false
  | PBool b => b
  | PInt z => negb (z =? 0)%Z
  | PFloat bits => negb ((bits =? 0)%Z || (bits =? 2 ^ 63)%Z)
  | PStr s | PBytes s => negb (String.eqb s "")
  | PList l | PTuple l | PArr l => match l with [] => false | _ => true end
  | PDict kv => match kv with [] => false | _ => true end
  end.

(** [a[lo:hi]] on a sequence. *)
Definition slice_bound (len i : Z) : Z :=
  if (i <? 0)%Z then Z.max 0 (i + len) else Z.min i len.

Definition py_slice {A} (a : list A) (lo hi : Z) : list A :=
  let len := Z.of_nat (length a) in
  let lo' := slice_bound len lo in
  let hi' := slice_bound len hi in
  take (Z.to_nat (hi' - lo')) (drop (Z.to_nat lo') a).

(** ** json and numpy at their interface *)

Fixpoint json_ok (v : pyval) : bool :=
  match v with
  | PBytes _ | PArr _ => false
  | PList l | PTuple l => forallb json_ok l
  | PDict kv => forallb (fun p => json_ok (snd p)) kv
  | _ => true
  end.

(** The string [json.dumps] writes for a dictionary key. *)
Definition json_key (k : pykey) : string :=
  match k with
  | KStr s => s
  | KInt z => pretty z
  | KBool b => if b then "true" else "false"
  | KNone => "null"
  end.

(** The bit pattern of a NaN: exponent all ones, mantissa not zero. *)
Definition is_nan (bits : Z) : bool :=
  (9218868437227405312 <? bits mod 2 ^ 63)%Z.

(** [json.dumps] writes every NaN as [NaN], which [json.load] reads as
    the quiet NaN [0x7FF8000000000000]; any other float is written with
    digits enough to be read back bit for bit. *)
Definition json_float (bits : Z) : Z :=
  if is_nan bits then 9221120237041090560%Z else bits.

(** What [json.load] gives back for the document of [v]: a tuple has
    become a list, every key a string, and of two keys with the same
    string the later value is kept. *)
Fixpoint json_image (v : pyval) : pyval :=
  match v with
  | PFloat bits => PFloat (json_float bits)
  | PList l | PTuple l => PList (map json_image l)
  | PDict kv =>
      PDict (fold_left (fun acc p => dict_set (json_key (fst p)) (json_image (snd p)) acc)
               kv [])
  | _ => v
  end.

(** [json.dumps(v)]: the document of [v], named by the value that
    [json.load] reads from it. *)
Definition json_dumps (v : pyval) : result pyval :=
  if json_ok v then Ok (json_image v) else Raise TypeError.

Definition is_KStr (k : pykey) : bool :=
  match k with
  | KStr _ => true
  | _ => false
  end.

#[global] Instance pykey_eq_dec : EqDecision pykey.
Proof. solve_decision. Defined.

(** The values that are their own JSON image: no tuple, no bytes, no
    array, no NaN but the quiet one, and dictionaries with distinct
    string keys. *)
Fixpoint json_native (v : pyval) : bool :=
  match v with
  | PBytes _ | PArr _ | PTuple _ => false
  | PFloat bits => (json_float bits =? bits)%Z
  | PList l => forallb json_native l
  | PDict kv =>
      forallb (fun p => is_KStr (fst p) && json_native (snd p)) kv
      && bool_decide (NoDup (map fst kv))
  | _ => true
  end.

(** Induction on values, through the lists they hold. *)
Section pyval_induction.
Variable P : pyval → Prop.
Hypothesis HNone : P PNone.
Hypothesis HBool : ∀ b, P (PBool b).
Hypothesis HInt : ∀ z, P (PInt z).
Hypothesis HFloat : ∀ bits, P (PFloat bits).
Hypothesis HStr : ∀ s, P (PStr s).
Hypothesis HBytes : ∀ s, P (PBytes s).
Hypothesis HList : ∀ l, Forall P l → P (PList l).
Hypothesis HTuple : ∀ l, Forall P l → P (PTuple l).
Hypothesis HDict : ∀ kv, Forall (fun p => P (snd p)) kv → P (PDict kv).
Hypothesis HArr : ∀ a, P (PArr a).

Fixpoint pyval_nested_ind (v : pyval) : P v :=
    match v with
    | PNone => HNone
    | PBool b => HBool b
    | PInt z => HInt z
    | PFloat bits => HFloat bits
    | PStr s => HStr s
    | PBytes s => HBytes s
    | PList l =>
        HList l ((fix go (l : list pyval) : Forall P l :=
                    match l with
                    | [] => @List.Forall_nil _ P
                    | x :: l' => @List.Forall_cons _ P x l' (pyval_nested_ind x) (go l')
                    end) l)
    | PTuple l =>
        HTuple l ((fix go (l : list pyval) : Forall P l :=
                     match l with
                     | [] => @List.Forall_nil _ P
                     | x :: l' => @List.Forall_cons _ P x l' (pyval_nested_ind x) (go l')
                     end) l)
    | PDict kv =>
        HDict kv ((fix go (kv : list (pykey * pyval))
                     : Forall (fun p => P (snd p)) kv :=
                     match kv with
                     | [] => @List.Forall_nil _ _
                     | p :: kv' =>
                         @List.Forall_cons _ (fun p => P (snd p)) p kv'
                           (pyval_nested_ind (snd p)) (go kv')
                     end) kv)
    | PArr a => HArr a
    end.
End pyval_induction.

(** [np.concatenate(arrays)]. *)
Fixpoint concat_arrays (arrays : list pyval) : result (list pyval) :=
  match arrays with
  | [] => Ok []
  | PArr a :: rest => let? r := concat_arrays rest in Ok (a ++ r)
  | _ :: _ => Raise ValueError
  end.

Definition np_concatenate (arrays : list pyval) : result (list pyval) :=
  match arrays with
  | [] => Raise ValueError
  | _ => concat_arrays arrays
  end.

(** The elements of the arrays [np.save(..., allow_pickle=False)]
    accepts.  It also refuses every array of dtype [object], whatever it
    holds; the arrays of the model carry no dtype, and [column_ok] leaves
    such columns out. *)
Definition is_scalar (v : pyval) : bool :=
  match v with
  | PBool _ | PInt _ | PFloat _ | PStr _ | PBytes _ => true
  | _ => false
  end.

(** [np.ma.masked_array(a, m)]: a mask of one element is broadcast. *)
Definition masked_array (a : list pyval) (m : list pyval) : result (list pyval * list bool) :=
  if (length m =? length a)%nat then Ok (a, map truthy m)
  else match m with
       | [b] => Ok (a, replicate (length a) (truthy b))
       | _ => Raise MaskError
       end.

(** ** The file system *)

Inductive content :=
| CJson (v : pyval)
| CNpy (a : list pyval)
| CRaw.

Inductive node :=
| Dir
| File (c : content).

Inductive event :=
| EMkdir (p : string)
| EOpenW (p : string)
| EWrite (p : string)
| EOpenR (p : string)
| ERename (src dst : string).

(** [oracle]: one bit per call that can fail from outside, [true] for a
    failure; an exhausted oracle means no further failure. *)
Record world := World {
  files : gmap string node;
  oracle : list bool;
  trace : list event
}.

Definition M (A : Type) : Type := world → result A * world.

Definition ret {A} (a : A) : M A := fun w => (Ok a, w).
Definition raise {A} (e : exn) : M A := fun w => (Raise e, w).
Definition bind {A B} (m : M A) (k : A → M B) : M B :=
  fun w => match m w with
           | (Ok a, w') => k a w'
           | (Raise e, w') => (Raise e, w')
           end.
Definition lift {A} (r : result A) : M A := fun w => (r, w).

Notation "'let!' x ':=' m 'in' k" := (bind m (fun x => k))
  (at level 10, x pattern, m at level 100, k at level 200).
Notation "m ';;' k" := (bind m (fun _ => k))
  (at level 100, k at level 200, right associativity).

Definition log (e : event) : M unit :=
  fun w => (Ok tt, World (files w) (oracle w) (trace w ++ [e])).

Definition fault : M bool :=
  fun w => match oracle w with
           | [] => (Ok false, w)
           | b :: o => (Ok b, World (files w) o (trace w))
           end.

Definition set_node (p : string) (n : node) : M unit :=
  fun w => (Ok tt, World (<[p := n]> (files w)) (oracle w) (trace w)).

Definition os_path_exists (p : string) : M bool :=
  fun w => (Ok (bool_decide (is_Some (files w !! p))), w).

Definition os_mkdir (p : string) : M unit :=
  log (EMkdir p);;
  let! ex := os_path_exists p in
  if ex : bool then raise FileExistsError
  else let! f := fault in
       if f : bool then raise OSError else set_node p Dir.

(** [open(p, "w")]: creates or truncates the file. *)
Definition open_w (p : string) : M unit :=
  log (EOpenW p);;
  let! f := fault in
  if f : bool then raise OSError
  else fun w => match files w !! p with
                | Some Dir => (Raise OSError, w)
                | _ => set_node p (File CRaw) w
                end.

(** [fp.write(...)] of a whole document, then close. *)
Definition fp_write (p : string) (c : content) : M unit :=
  log (EWrite p);;
  let! f := fault in
  if f : bool then raise OSError else set_node p (File c).

(** [open(p)] for reading. *)
Definition open_r (p : string) : M content :=
  log (EOpenR p);;
  let! f := fault in
  if f : bool then raise OSError
  else fun w => match files w !! p with
                | Some (File c) => (Ok c, w)
                | Some Dir => (Raise OSError, w)
                | None => (Raise FileNotFoundError, w)
                end.

Definition os_rename (src dst : string) : M unit :=
  log (ERename src dst);;
  let! f := fault in
  if f : bool then raise OSError
  else fun w => match files w !! src, files w !! dst with
                | None, _ => (Raise FileNotFoundError, w)
                | Some (File _), Some Dir => (Raise OSError, w)
                | Some Dir, Some (File _) => (Raise OSError, w)
                | Some n, _ =>
                    (Ok tt, World (<[dst := n]> (delete src (files w))) (oracle w) (trace w))
                end.

(** [np.save(p, arr, allow_pickle=False)]. *)
Definition np_save (p : string) (arr : list pyval) : M unit :=
  open_w p;;
  if forallb is_scalar arr then fp_write p (CNpy arr) else raise ValueError.

(** [np.load(p, mmap_mode="r", allow_pickle=False)]. *)
Definition np_load (p : string) : M (list pyval) :=
  let! c := open_r p in
  match c with
  | CNpy a => ret a
  | _ => raise ValueError
  end.

(** [with open(p) as fp: json.load(fp)]. *)
Definition json_load (p : string) : M pyval :=
  let! c := open_r p in
  match c with
  | CJson v => ret v
  | _ => raise ValueError
  end.

(** ** Tables

    What [write] observes of an [astropy.table.Table]: the columns in the
    order of [table.colnames], each a one-dimensional array with
    [col.dtype.char], [str(col.dtype)], [col.data], [col.mask] (all false
    for a column without a mask) and [col.unit]; [table.masked];
    [table.meta]. *)

Inductive unit_obj :=
| UnitOf (s : string)       (* astropy.units.Unit(s) *)
| DefUnit (s : string).     (* astropy.units.def_unit(s) *)

Definition unit_str (u : unit_obj) : string :=
  match u with
  | UnitOf s | DefUnit s => s
  end.

Record Column := {
  col_name : string;
  col_dtype_char : string;
  col_dtype_str : string;
  col_data : list pyval;
  col_mask : list bool;
  col_unit : option unit_obj
}.

Record Table := {
  tbl_columns : list Column;
  tbl_masked : bool;
  tbl_meta : pyval
}.

Definition colnames (table : Table) : list string := map col_name (tbl_columns table).

(** [col.data.tolist()]: a masked element comes out as [None]. *)
Fixpoint tolist (data : list pyval) (mask : list bool) : list pyval :=
  match data, mask with
  | [], _ => []
  | v :: d, [] => v :: tolist d []
  | v :: d, m :: ms => (if m : bool then PNone else v) :: tolist d ms
  end.

(** ** The writer: layout planning *)

Record datafile := {
  df_name : string;
  df_datas : list pyval;
  df_length : nat
}.

(** A manifest entry, the dictionary [column] of [write]. *)
Record ColumnEntry := {
  ce_name : string;
  ce_file : string;
  ce_offset : nat;
  ce_length : nat;
  ce_maskoffset : option nat;
  ce_unit : option string
}.

Fixpoint df_lookup (k : string) (d : list (string * datafile)) : option datafile :=
  match d with
  | [] => None
  | (k', v) :: d' => if String.eqb k' k then Some v else df_lookup k d'
  end.

(** [d[k] = v] on a dictionary kept in insertion order. *)
Fixpoint df_store (k : string) (v : datafile) (d : list (string * datafile))
  : list (string * datafile) :=
  match d with
  | [] => [(k, v)]
  | (k', v') :: d' =>
      if String.eqb k' k then (k', v) :: d' else (k', v') :: df_store k v d'
  end.

Definition setdefault (k : string) (default : datafile) (d : list (string * datafile))
  : datafile * list (string * datafile) :=
  match df_lookup k d with
  | Some v => (v, d)
  | None => (default, df_store k default d)
  end.

Record plan_state := {
  datafiles : list (string * datafile);
  columns : list ColumnEntry;
  maskdatas : list pyval;
  masklength : nat
}.

Definition plan_init : plan_state :=
  {| datafiles := []; columns := []; maskdatas := []; masklength := 0 |}.

Definition is_text (col : Column) : bool :=
  String.eqb (col_dtype_char col) "S" || String.eqb (col_dtype_char col) "U".

(** The key of [datafiles] a column is filed under. *)
Definition storage_key (col : Column) : string :=
  if is_text col then "text" else col_dtype_str col.

(** A [datetime64] or [timedelta64] column. *)
Definition is_datetime (col : Column) : bool :=
  String.eqb (col_dtype_char col) "M" || String.eqb (col_dtype_char col) "m".

(** [col.data.data]: in a masked table the array under the masked array;
    in a table that is not masked the buffer of the array, which numpy
    refuses to export, with [ValueError], for [datetime64] and
    [timedelta64]. *)
Definition data_buffer (table_masked : bool) (col : Column) : result pyval :=
  if negb table_masked && is_datetime col then Raise ValueError
  else Ok (PArr (col_data col)).

(** One iteration of [for k in table.colnames]. *)
Definition plan_column (table_masked : bool) (col : Column) (st : plan_state)
  : result plan_state :=
  let? default :=
    if is_text col then
      Ok {| df_name := "data.text.json"; df_datas := []; df_length := 0 |}
    else
      let dt := col_dtype_str col in
      let? _ := assert (negb (str_in "<" dt)) in
      Ok {| df_name := "data." +:+ dt +:+ ".npy"; df_datas := []; df_length := 0 |} in
  let '(datafile, dfs) := setdefault (storage_key col) default (datafiles st) in
  let i := df_length datafile in
  let n := length (col_data col) in
  let? datas :=
    if endswith (df_name datafile) ".json"
    then Ok (df_datas datafile ++ tolist (col_data col) (col_mask col))
    else let? buffer := data_buffer table_masked col in
         Ok (df_datas datafile ++ [buffer]) in
  let datafile :=
    {| df_name := df_name datafile;
       df_datas := datas;
       df_length := df_length datafile + n |} in
  let dfs := df_store (storage_key col) datafile dfs in
  let? (maskoffset, maskdatas', masklength') :=
    if table_masked && existsb id (col_mask col) then
      let? _ := assert (length (col_mask col) =? n)%nat in
      Ok (Some (masklength st),
          maskdatas st ++ [PArr (map PBool (col_mask col))],
          masklength st + n)
    else Ok (None, maskdatas st, masklength st) in
  let column :=
    {| ce_name := col_name col;
       ce_file := df_name datafile;
       ce_offset := i;
       ce_length := n;
       ce_maskoffset := maskoffset;
       ce_unit := option_map unit_str (col_unit col) |} in
  Ok {| datafiles := dfs;
        columns := columns st ++ [column];
        maskdatas := maskdatas';
        masklength := masklength' |}.

Fixpoint plan_columns (table_masked : bool) (cols : list Column) (st : plan_state)
  : result plan_state :=
  match cols with
  | [] => Ok st
  | col :: rest =>
      let? st' := plan_column table_masked col st in
      plan_columns table_masked rest st'
  end.

Definition plan (table : Table) : result plan_state :=
  plan_columns (tbl_masked table) (tbl_columns table) plan_init.

(** ** The writer: the manifest and the files *)

Definition opt_item (k : string) (v : option pyval) : list (pykey * pyval) :=
  match v with
  | Some x => [(KStr k, x)]
  | None => []
  end.

Definition entry_json (c : ColumnEntry) : pyval :=
  PDict ([(KStr "name", PStr (ce_name c));
          (KStr "file", PStr (ce_file c));
          (KStr "offset", PInt (Z.of_nat (ce_offset c)));
          (KStr "length", PInt (Z.of_nat (ce_length c)))]
         ++ opt_item "maskoffset" (option_map (fun o => PInt (Z.of_nat o)) (ce_maskoffset c))
         ++ opt_item "unit" (option_map PStr (ce_unit c))).

(** The dictionary [write] hands to [json.dumps]. *)
Definition manifest_obj (table : Table) (cols : list ColumnEntry) : pyval :=
  PDict [(KStr "meta", tbl_meta table);
         (KStr "masked", PBool (tbl_masked table));
         (KStr "columns", PList (map entry_json cols))].

(** The manifest document: the metadata is there as its JSON image. *)
Definition manifest_json (table : Table) (cols : list ColumnEntry) : pyval :=
  PDict [(KStr "meta", json_image (tbl_meta table));
         (KStr "masked", PBool (tbl_masked table));
         (KStr "columns", PList (map entry_json cols))].

Definition tmp_manifest (path : string) : string := os_path_join path "bintable.json_".
Definition final_manifest (path : string) : string := os_path_join path "bintable.json".
Definition mask_file (path : string) : string := os_path_join path "mask.npy".

(** [for dt, df in datafiles.items()]. *)
Fixpoint write_datafiles (path : string) (dfs : list (string * datafile)) : M unit :=
  match dfs with
  | [] => ret tt
  | (_, df) :: rest =>
      (if endswith (df_name df) ".json" then
         open_w (os_path_join path (df_name df));;
         let! doc := lift (json_dumps (PList (df_datas df))) in
         fp_write (os_path_join path (df_name df)) (CJson doc)
       else
         let! arr := lift (np_concatenate (df_datas df)) in
         np_save (os_path_join path (df_name df)) arr);;
      write_datafiles path rest
  end.

(** The directory check of [write]. *)
Definition check_directory (path : string) : M unit :=
  let! ex := os_path_exists path in
  if ex : bool then
    let! t1 := os_path_exists (tmp_manifest path) in
    if negb t1 then
      let! t2 := os_path_exists (tmp_manifest path) in
      if negb t2 then raise FileExistsError else ret tt
    else ret tt
  else os_mkdir path.

Definition write_manifest (table : Table) (path : string) (cols : list ColumnEntry) : M unit :=
  open_w (tmp_manifest path);;
  let! doc := lift (json_dumps (manifest_obj table cols)) in
  fp_write (tmp_manifest path) (CJson doc).

Definition write_mask (path : string) (maskdatas : list pyval) : M unit :=
  match maskdatas with
  | [] => ret tt
  | _ =>
      let! arr := lift (np_concatenate maskdatas) in
      np_save (mask_file path) arr
  end.

Definition write (table : Table) (path : string) : M unit :=
  let! st := lift (plan table) in
  check_directory path;;
  write_manifest table path (columns st);;
  write_mask path (maskdatas st);;
  write_datafiles path (datafiles st);;
  os_rename (tmp_manifest path) (final_manifest path).

(** ** The reader

    The table [read] returns, as its caller observes it: per column the
    name, the values, the mask of a masked array ([None] for a plain
    array) and the unit; the metadata and the masked flag of the manifest.

    The manifest is untyped JSON.  Its schema gives ["name"], ["file"] and
    ["unit"] as strings, and so does every manifest [write] produces.
    Where a manifest made by hand holds another kind of value there,
    astropy's own conversions decide what becomes of it; the model goes
    no further and stops with [TypeError].  The statements that compare
    the table of one [read] with a table written or with the table of
    another [read] are therefore made for manifests that [write]
    produced, from tables whose columns have names. *)

Record RColumn := {
  rc_name : string;
  rc_values : list pyval;
  rc_mask : option (list bool);
  rc_unit : option unit_obj
}.

Record RTable := {
  rt_columns : list RColumn;
  rt_meta : pyval;
  rt_masked : pyval
}.

Record read_state := {
  names : list string;
  data : list (list pyval * option (list bool));
  backing : gmap string pyval;
  maskedbacking : option (list pyval);
  units : list (string * unit_obj);
  unitcache : gmap string unit_obj
}.

Definition read_init : read_state :=
  {| names := []; data := []; backing := ∅; maskedbacking := None;
     units := []; unitcache := ∅ |}.

(** [a[lo:hi]] on a loaded buffer. *)
Definition buffer_slice (a : pyval) (lo hi : Z) : result (list pyval) :=
  match a with
  | PArr l | PList l => Ok (py_slice l lo hi)
  | _ => Raise TypeError
  end.

(** [units[k] = u]. *)
Fixpoint units_set (k : string) (u : unit_obj) (d : list (string * unit_obj))
  : list (string * unit_obj) :=
  match d with
  | [] => [(k, u)]
  | (k', u') :: d' =>
      if String.eqb k' k then (k', u) :: d' else (k', u') :: units_set k u d'
  end.

(** [{c["name"]: c for c in columns}], as far as string keys can see it:
    a name that is not a string is a key no string equals; a list or a
    dictionary is no key at all. *)
Fixpoint build_coldict (cs : list pyval) (d : gmap string pyval)
  : result (gmap string pyval) :=
  match cs with
  | [] => Ok d
  | c :: rest =>
      let? v := py_getitem c "name" in
      match v with
      | PStr n => build_coldict rest (<[n := c]> d)
      | _ => if hashable v then build_coldict rest d else Raise TypeError
      end
  end.

(** [[coldict[n] for n in only_columns]]. *)
Fixpoint select_columns (coldict : gmap string pyval) (only : list string)
  : result (list pyval) :=
  match only with
  | [] => Ok []
  | n :: rest =>
      match coldict !! n with
      | None => Raise KeyError
      | Some c =>
          let? cs := select_columns coldict rest in
          Ok (c :: cs)
      end
  end.

Definition requested_columns (bintable : pyval) (only_columns : option (list string))
  : result (list pyval) :=
  let? columns := py_getitem bintable "columns" in
  match only_columns with
  | None => py_iter columns
  | Some only =>
      let? cs := py_iter columns in
      let? coldict := build_coldict cs ∅ in
      select_columns coldict only
  end.

(** [astropy.table.Table(names=..., meta=..., masked=..., data=...)]:
    refuses a masked flag other than [True], [False] or [None] (by [==]),
    duplicate names, columns of different lengths, and metadata that is
    neither a mapping nor [None]; without metadata the table gets an
    empty mapping.  The names are taken as they are given: an empty
    name, for which astropy puts a default name ([col0], [col1], ...),
    is not modelled. *)
Definition masked_flag_ok (masked : pyval) : bool :=
  match masked with
  | PNone | PBool _ => true
  | PInt z => (z =? 0)%Z || (z =? 1)%Z
  | PFloat bits =>
      (bits =? 0)%Z || (bits =? 2 ^ 63)%Z || (bits =? 4607182418800017408)%Z
  | _ => false
  end.

Definition table_meta (meta : pyval) : result pyval :=
  match meta with
  | PNone => Ok (PDict [])
  | PDict kv => Ok (PDict kv)
  | _ => Raise TypeError
  end.

Definition same_lengths (data : list (list pyval * option (list bool))) : bool :=
  match data with
  | [] => true
  | d :: rest => forallb (fun x => (length (fst x) =? length (fst d))%nat) rest
  end.

Definition new_table (names : list string) (meta masked : pyval)
    (data : list (list pyval * option (list bool))) : result RTable :=
  if masked_flag_ok masked && bool_decide (NoDup names) && same_lengths data then
    let? meta := table_meta meta in
    Ok {| rt_columns :=
            zip_with (fun n d => {| rc_name := n; rc_values := fst d;
                                    rc_mask := snd d; rc_unit := None |}) names data;
          rt_meta := meta;
          rt_masked := masked |}
  else Raise ValueError.

(** [table.columns[k].unit = u]. *)
Definition set_unit (k : string) (u : unit_obj) (cols : list RColumn) : list RColumn :=
  map (fun c => if String.eqb (rc_name c) k
                then {| rc_name := rc_name c; rc_values := rc_values c;
                        rc_mask := rc_mask c; rc_unit := Some u |}
                else c) cols.

(** [for k, u in units.items(): assert k in names; ...]. *)
Fixpoint attach_units (names : list string) (us : list (string * unit_obj))
    (cols : list RColumn) : result (list RColumn) :=
  match us with
  | [] => Ok cols
  | (k, u) :: rest =>
      let? _ := assert (bool_decide (k ∈ names)) in
      attach_units names rest (set_unit k u cols)
  end.

Section Reader.

(** The unit strings [astropy.units.Unit] parses; on the others it raises
    [ValueError] and [read] falls back to [def_unit]. *)
Variable known_unit : string → bool.

Definition resolve_unit (unit_string : string) : unit_obj :=
  if known_unit unit_string then UnitOf unit_string else DefUnit unit_string.

(** The [if column["file"] not in backing] block. *)
Definition open_backing (path file : string) (backing : gmap string pyval)
  : M (gmap string pyval) :=
  match backing !! file with
  | Some _ => ret backing
  | None =>
      lift (assert (negb (str_in "/" file)));;
      if endswith file ".npy" then
        let! a := np_load (os_path_join path file) in
        ret (<[file := PArr a]> backing)
      else if endswith file ".json" then
        let! v := json_load (os_path_join path file) in
        ret (<[file := v]> backing)
      else ret backing
  end.

(** One iteration of [for column in columns]. *)
Definition read_column (path : string) (column : pyval) (st : read_state)
  : M read_state :=
  let! name := lift (let? v := py_getitem column "name" in as_str v) in
  let! file := lift (let? v := py_getitem column "file" in as_str v) in
  let! backing' := open_backing path file (backing st) in
  let! a := lift (match backing' !! file with
                  | Some a => Ok a
                  | None => Raise KeyError
                  end) in
  let! offset := lift (py_getitem column "offset") in
  let! length := lift (py_getitem column "length") in
  let! lo := lift (as_index offset) in
  let! len := lift (as_index length) in
  let! a := lift (buffer_slice a lo (lo + len)) in
  let! has_mask := lift (py_haskey column "maskoffset") in
  let! (a, maskedbacking') :=
    if has_mask : bool then
      let! mb :=
        match maskedbacking st with
        | None => np_load (mask_file path)
        | Some mb => ret mb
        end in
      let! maskoffset := lift (py_getitem column "maskoffset") in
      let! mlo := lift (as_index maskoffset) in
      let! ma := lift (masked_array a (py_slice mb mlo (mlo + len))) in
      ret ((fst ma, Some (snd ma)), Some mb)
    else ret ((a, None), maskedbacking st) in
  let! has_unit := lift (py_haskey column "unit") in
  let! (units', unitcache') :=
    if has_unit : bool then
      let! unit_string := lift (let? v := py_getitem column "unit" in as_str v) in
      let '(unit, cache) :=
        match unitcache st !! unit_string with
        | Some u => (u, unitcache st)
        | None =>
            let u := resolve_unit unit_string in
            (u, <[unit_string := u]> (unitcache st))
        end in
      ret (units_set name unit (units st), cache)
    else ret (units st, unitcache st) in
  ret {| names := names st ++ [name];
         data := data st ++ [a];
         backing := backing';
         maskedbacking := maskedbacking';
         units := units';
         unitcache := unitcache' |}.

Fixpoint read_columns (path : string) (columns : list pyval) (st : read_state)
  : M read_state :=
  match columns with
  | [] => ret st
  | column :: rest =>
      let! st' := read_column path column st in
      read_columns path rest st'
  end.

Definition read (path : string) (only_columns : option (list string)) : M RTable :=
  let! bintable := json_load (final_manifest path) in
  let! meta := lift (py_getitem bintable "meta") in
  let! masked := lift (py_getitem bintable "masked") in
  let! columns := lift (requested_columns bintable only_columns) in
  let! st := read_columns path columns read_init in
  let! table := lift (new_table (names st) meta masked (data st)) in
  let! cols := lift (attach_units (names st) (units st) (rt_columns table)) in
  ret {| rt_columns := cols; rt_meta := rt_meta table; rt_masked := rt_masked table |}.

End Reader.

(** ** Auxiliary notions used in the statements and proofs *)

Fixpoint str_last (s : string) : option ascii :=
  match s with
  | EmptyString => None
  | String c EmptyString => Some c
  | String _ s' => str_last s'
  end.

(** A name that [os.path.join] keeps below the directory. *)
Definition relative (b : string) : Prop := startswith b "/" = false.

(** *** The layout, as a function of the columns planned so far *)

Definition col_length (c : Column) : nat := length (col_data c).

(** The file name a column would create for its key. *)
Definition default_name (c : Column) : string :=
  if is_text c then "data.text.json" else "data." +:+ col_dtype_str c +:+ ".npy".

(** The columns filed under key [k], in write order. *)
Definition key_cols (k : string) (cols : list Column) : list Column :=
  filter (fun c => storage_key c = k) cols.

Definition key_length (k : string) (cols : list Column) : nat :=
  sum_list_with col_length (key_cols k cols).

(** The column gets a range of the mask buffer. *)
Definition has_invalid (table_masked : bool) (c : Column) : bool :=
  table_masked && existsb id (col_mask c).

Definition mask_cols (table_masked : bool) (cols : list Column) : list Column :=
  filter (fun c => has_invalid table_masked c = true) cols.

Definition mask_length (table_masked : bool) (cols : list Column) : nat :=
  sum_list_with col_length (mask_cols table_masked cols).

(** What a column contributes to its backing file. *)
Definition payload (json : bool) (c : Column) : list pyval :=
  if json then tolist (col_data c) (col_mask c) else col_data c.

Definition layout_datafile (k : string) (pre : list Column) : option datafile :=
  match key_cols k pre with
  | [] => None
  | c0 :: _ =>
      Some {| df_name := default_name c0;
              df_datas :=
                if endswith (default_name c0) ".json"
                then concat (map (payload true) (key_cols k pre))
                else map (fun c => PArr (col_data c)) (key_cols k pre);
              df_length := key_length k pre |}
  end.

Definition layout_file (pre : list Column) (c : Column) : string :=
  match key_cols (storage_key c) (pre ++ [c]) with
  | c0 :: _ => default_name c0
  | [] => ""
  end.

Definition layout_entry (table_masked : bool) (pre : list Column) (c : Column)
  : ColumnEntry :=
  {| ce_name := col_name c;
     ce_file := layout_file pre c;
     ce_offset := key_length (storage_key c) pre;
     ce_length := col_length c;
     ce_maskoffset :=
       if has_invalid table_masked c then Some (mask_length table_masked pre) else None;
     ce_unit := option_map unit_str (col_unit c) |}.

Fixpoint layout_entries (table_masked : bool) (pre cols : list Column)
  : list ColumnEntry :=
  match cols with
  | [] => []
  | c :: rest =>
      layout_entry table_masked pre c :: layout_entries table_masked (pre ++ [c]) rest
  end.

(** The state of the planning loop after the columns [pre]. *)
Record planned (table_masked : bool) (pre : list Column) (st : plan_state) : Prop := {
  planned_columns : columns st = layout_entries table_masked [] pre;
  planned_datafiles : ∀ k, df_lookup k (datafiles st) = layout_datafile k pre;
  planned_keys : NoDup (map fst (datafiles st));
  planned_maskdatas :
    maskdatas st = map (fun c => PArr (map PBool (col_mask c))) (mask_cols table_masked pre);
  planned_masklength : masklength st = mask_length table_masked pre
}.

(** *** Ranges in the manifest *)

Definition ranges_disjoint (o1 l1 o2 l2 : nat) : Prop :=
  (o1 + l1 ≤ o2)%nat ∨ (o2 + l2 ≤ o1)%nat.

(** Total length of the entries of [es] stored in file [f]. *)
Definition file_length (f : string) (es : list ColumnEntry) : nat :=
  sum_list_with ce_length (filter (fun e => ce_file e = f) es).

(** Total length of the entries of [es] that have a mask range. *)
Definition masks_length (es : list ColumnEntry) : nat :=
  sum_list_with ce_length (filter (fun e => is_Some (ce_maskoffset e)) es).

(** The two assertions of the planning loop hold for the column. *)
Definition plannable (table_masked : bool) (c : Column) : bool :=
  (is_text c || negb (str_in "<" (col_dtype_str c)))
  && (negb (has_invalid table_masked c) || (length (col_mask c) =? col_length c)%nat).

(** The column's data can be handed over as a buffer, whatever file it
    goes to. *)
Definition buffered (table_masked : bool) (c : Column) : bool :=
  table_masked || negb (is_datetime c).

(** The column's data is taken by the loop in the state [st]: as a list
    for a JSON file, as a buffer otherwise. *)
Definition exports (table_masked : bool) (c : Column) (st : plan_state) : bool :=
  let default := {| df_name := default_name c; df_datas := []; df_length := 0 |} in
  endswith (df_name (fst (setdefault (storage_key c) default (datafiles st)))) ".json"
  || buffered table_masked c.

(** The planning state after one more column, when its assertions hold. *)
Definition plan_next (table_masked : bool) (c : Column) (st : plan_state) : plan_state :=
  let default := {| df_name := default_name c; df_datas := []; df_length := 0 |} in
  let old := fst (setdefault (storage_key c) default (datafiles st)) in
  let dfs := snd (setdefault (storage_key c) default (datafiles st)) in
  let new :=
    {| df_name := df_name old;
       df_datas :=
         if endswith (df_name old) ".json"
         then df_datas old ++ payload true c
         else df_datas old ++ [PArr (col_data c)];
       df_length := df_length old + col_length c |} in
  {| datafiles := df_store (storage_key c) new dfs;
     columns :=
       columns st ++
       [{| ce_name := col_name c;
           ce_file := df_name old;
           ce_offset := df_length old;
           ce_length := col_length c;
           ce_maskoffset :=
             if has_invalid table_masked c then Some (masklength st) else None;
           ce_unit := option_map unit_str (col_unit c) |}];
     maskdatas :=
       if has_invalid table_masked c
       then maskdatas st ++ [PArr (map PBool (col_mask c))]
       else maskdatas st;
     masklength :=
       if has_invalid table_masked c
       then masklength st + col_length c
       else masklength st |}.

(** The backing file of key [k] in a table with the columns [cols]. *)
Definition key_file (cols : list Column) (k : string) : string :=
  match key_cols k cols with
  | c0 :: _ => default_name c0
  | [] => ""
  end.

(** *** Footprints of effectful code *)

Definition is_ok {A} (r : result A) : Prop :=
  match r with
  | Ok _ => True
  | Raise _ => False
  end.

(** [m] changes no file outside [ps], and what it adds to the trace is
    [expected] when it returns and a prefix of [expected] when it raises. *)
Definition runs {A} (m : M A) (ps : list string) (expected : list event) : Prop :=
  ∀ w r w', m w = (r, w') →
    (∀ q, q ∉ ps → files w' !! q = files w !! q) ∧
    ∃ evs, trace w' = trace w ++ evs ∧ evs `prefix_of` expected ∧ (is_ok r → evs = expected).

Definition data_paths (path : string) (dfs : list (string * datafile)) : list string :=
  map (fun kd => os_path_join path (df_name (snd kd))) dfs.

Definition mask_events (path : string) (maskdatas : list pyval) : list event :=
  match maskdatas with
  | [] => []
  | _ => [EOpenW (mask_file path); EWrite (mask_file path)]
  end.

Definition data_events (path : string) (dfs : list (string * datafile)) : list event :=
  flat_map (fun p => [EOpenW p; EWrite p]) (data_paths path dfs).

(** The file-system calls of a [write] that found or made its directory,
    in order. *)
Definition write_events (path : string) (st : plan_state) : list event :=
  [EOpenW (tmp_manifest path); EWrite (tmp_manifest path)]
  ++ mask_events path (maskdatas st)
  ++ data_events path (datafiles st)
  ++ [ERename (tmp_manifest path) (final_manifest path)].

(** Steps 3 to 5 of [write]. *)
Definition write_files (table : Table) (path : string) (st : plan_state) : M unit :=
  write_manifest table path (columns st);;
  write_mask path (maskdatas st);;
  write_datafiles path (datafiles st).

(** *** Well-formed tables and fresh directories *)

(** The document or array [write_datafiles] stores for a backing file. *)
Definition df_content (df : datafile) : result content :=
  if endswith (df_name df) ".json" then
    let? doc := json_dumps (PList (df_datas df)) in
    Ok (CJson doc)
  else
    let? arr := np_concatenate (df_datas df) in
    if forallb is_scalar arr then Ok (CNpy arr) else Raise ValueError.

(** A column of a table whose masked flag is [table_masked]: the mask has
    the length of the data and is all false in a table that is not masked;
    a text column holds values that are their own JSON image (strings, not
    bytes) wherever it is valid; any other column holds scalars of a dtype
    whose name holds neither ["<"] nor ["/"] and is not ["text"], and is no
    [datetime64] or [timedelta64] column unless the table is masked; no
    column is of dtype [object]. *)
Record column_ok (table_masked : bool) (c : Column) : Prop := {
  ok_mask_length : length (col_mask c) = length (col_data c);
  ok_unmasked : table_masked = false → existsb id (col_mask c) = false;
  ok_text : is_text c = true →
            forallb json_native (tolist (col_data c) (col_mask c)) = true;
  ok_dtype : is_text c = false →
             str_in "<" (col_dtype_str c) = false
             ∧ str_in "/" (col_dtype_str c) = false
             ∧ col_dtype_str c ≠ "text";
  ok_scalars : is_text c = false → forallb is_scalar (col_data c) = true;
  ok_buffer : is_text c = false → table_masked = false → is_datetime c = false;
  ok_kind : col_dtype_char c ≠ "O"
}.

(** A table [write] and [read] carry through: distinct column names, none
    of them empty, columns of one length, and metadata that is a mapping
    [json.dumps] accepts. *)
Record table_ok (table : Table) : Prop := {
  ok_names : NoDup (colnames table);
  ok_named : "" ∉ colnames table;
  ok_rows : ∀ c1 c2, c1 ∈ tbl_columns table → c2 ∈ tbl_columns table →
            col_length c1 = col_length c2;
  ok_columns : ∀ c, c ∈ tbl_columns table → column_ok (tbl_masked table) c;
  ok_meta : json_ok (tbl_meta table) = true;
  ok_mapping : ∃ kv, tbl_meta table = PDict kv
}.

(** Nothing exists at [path] or below it. *)
Definition fresh (path : string) (w : world) : Prop :=
  files w !! path = None
  ∧ ∀ name, relative name → files w !! os_path_join path name = None.

(** The content of the backing file of key [k]. *)
Definition key_content (cols : list Column) (k : string) : content :=
  if endswith (key_file cols k) ".json"
  then CJson (PList (concat (map (payload true) (key_cols k cols))))
  else CNpy (concat (map (payload false) (key_cols k cols))).

(** The content of the mask file. *)
Definition mask_content (table_masked : bool) (cols : list Column) : list pyval :=
  concat (map (fun c => map PBool (col_mask c)) (mask_cols table_masked cols)).

(** The files of the layout [st] are complete in [fs]: every data file
    holds the whole document or array of its key, and the mask file, if
    the table has invalid entries, the whole mask buffer. *)
Definition files_complete (table : Table) (path : string) (st : plan_state)
    (fs : gmap string node) : Prop :=
  (∀ k df, (k, df) ∈ datafiles st →
     ∃ c, df_content df = Ok c
          ∧ fs !! os_path_join path (df_name df) = Some (File c))
  ∧ (mask_cols (tbl_masked table) (tbl_columns table) ≠ [] →
     fs !! mask_file path
     = Some (File (CNpy (mask_content (tbl_masked table) (tbl_columns table))))).

(** *** Reading without the caches

    What [read] computes from the files [fs] when no call fails from
    outside: every column is loaded from its backing file directly. *)

Definition read_file (fs : gmap string node) (p : string) : result content :=
  match fs !! p with
  | Some (File c) => Ok c
  | Some Dir => Raise OSError
  | None => Raise FileNotFoundError
  end.

Definition read_npy (fs : gmap string node) (p : string) : result (list pyval) :=
  let? c := read_file fs p in
  match c with
  | CNpy a => Ok a
  | _ => Raise ValueError
  end.

Definition read_json (fs : gmap string node) (p : string) : result pyval :=
  let? c := read_file fs p in
  match c with
  | CJson v => Ok v
  | _ => Raise ValueError
  end.

Definition load_buffer (fs : gmap string node) (path file : string) : result pyval :=
  let? _ := assert (negb (str_in "/" file)) in
  if endswith file ".npy" then
    let? a := read_npy fs (os_path_join path file) in Ok (PArr a)
  else if endswith file ".json" then read_json fs (os_path_join path file)
  else Raise KeyError.

Record loaded := {
  ld_name : string;
  ld_data : list pyval * option (list bool);
  ld_unit : option unit_obj
}.

Definition column_of (known_unit : string → bool) (fs : gmap string node)
    (path : string) (column : pyval) : result loaded :=
  let? name := (let? v := py_getitem column "name" in as_str v) in
  let? file := (let? v := py_getitem column "file" in as_str v) in
  let? a := load_buffer fs path file in
  let? offset := py_getitem column "offset" in
  let? length := py_getitem column "length" in
  let? lo := as_index offset in
  let? len := as_index length in
  let? a := buffer_slice a lo (lo + len) in
  let? has_mask := py_haskey column "maskoffset" in
  let? d :=
    if has_mask : bool then
      let? mb := read_npy fs (mask_file path) in
      let? maskoffset := py_getitem column "maskoffset" in
      let? mlo := as_index maskoffset in
      let? ma := masked_array a (py_slice mb mlo (mlo + len)) in
      Ok (fst ma, Some (snd ma))
    else Ok (a, None) in
  let? has_unit := py_haskey column "unit" in
  let? u :=
    if has_unit : bool then
      let? unit_string := (let? v := py_getitem column "unit" in as_str v) in
      Ok (Some (resolve_unit known_unit unit_string))
    else Ok None in
  Ok {| ld_name := name; ld_data := d; ld_unit := u |}.

Fixpoint columns_of (known_unit : string → bool) (fs : gmap string node)
    (path : string) (columns : list pyval) : result (list loaded) :=
  match columns with
  | [] => Ok []
  | column :: rest =>
      let? l := column_of known_unit fs path column in
      let? ls := columns_of known_unit fs path rest in
      Ok (l :: ls)
  end.

(** The state of the reading loop after one more column. *)
Definition push_column (l : loaded) (b : gmap string pyval) (mb : option (list pyval))
    (cache : gmap string unit_obj) (st : read_state) : read_state :=
  {| names := names st ++ [ld_name l];
     data := data st ++ [ld_data l];
     backing := b;
     maskedbacking := mb;
     units := match ld_unit l with
              | Some u => units_set (ld_name l) u (units st)
              | None => units st
              end;
     unitcache := cache |}.

Definition push_units (ls : list loaded) (us : list (string * unit_obj))
  : list (string * unit_obj) :=
  fold_left (fun us l => match ld_unit l with
                         | Some u => units_set (ld_name l) u us
                         | None => us
                         end) ls us.

(** The caches agree with the files. *)
Record coherent (known_unit : string → bool) (fs : gmap string node)
    (path : string) (st : read_state) : Prop := {
  coh_backing : ∀ f v, backing st !! f = Some v → load_buffer fs path f = Ok v;
  coh_mask : ∀ mb, maskedbacking st = Some mb → read_npy fs (mask_file path) = Ok mb;
  coh_units : ∀ s u, unitcache st !! s = Some u → u = resolve_unit known_unit s
}.

(** No outside failure is pending and the files are [fs]. *)
Definition quiet (fs : gmap string node) (w : world) : Prop :=
  oracle w = [] ∧ files w = fs.

Definition rcolumn_of (l : loaded) : RColumn :=
  {| rc_name := ld_name l;
     rc_values := fst (ld_data l);
     rc_mask := snd (ld_data l);
     rc_unit := ld_unit l |}.

Definition table_of (known_unit : string → bool) (fs : gmap string node)
    (path : string) (only_columns : option (list string)) : result RTable :=
  let? bintable := read_json fs (final_manifest path) in
  let? meta := py_getitem bintable "meta" in
  let? masked := py_getitem bintable "masked" in
  let? columns := requested_columns bintable only_columns in
  let? ls := columns_of known_unit fs path columns in
  let? table := new_table (map ld_name ls) meta masked (map ld_data ls) in
  let? cols := attach_units (map ld_name ls) (push_units ls []) (rt_columns table) in
  Ok {| rt_columns := cols; rt_meta := rt_meta table; rt_masked := rt_masked table |}.

(** [units.get(k)]. *)
Fixpoint units_get (k : string) (d : list (string * unit_obj)) : option unit_obj :=
  match d with
  | [] => None
  | (k', u) :: d' => if String.eqb k' k then Some u else units_get k d'
  end.

Definition with_unit (c : RColumn) (u : option unit_obj) : RColumn :=
  {| rc_name := rc_name c; rc_values := rc_values c; rc_mask := rc_mask c; rc_unit := u |}.

(** *** Comparing a table read back with the table written *)

(** The values of a column as the format stores them: a text column goes
    through [tolist], where an invalid entry becomes [None]. *)
Definition col_values (c : Column) : list pyval := payload (is_text c) c.

(** The per-row mask of a column read back: no mask is no invalid entry. *)
Definition rc_invalid (c : RColumn) : list bool :=
  match rc_mask c with
  | Some m => m
  | None => replicate (length (rc_values c)) false
  end.

(** The column [read] returns for a column of a written table. *)
Definition read_back (known_unit : string → bool) (table_masked : bool) (c : Column)
  : loaded :=
  {| ld_name := col_name c;
     ld_data := (col_values c,
                 if has_invalid table_masked c then Some (col_mask c) else None);
     ld_unit := option_map (fun u => resolve_unit known_unit (unit_str u)) (col_unit c) |}.

(** *** The files a read call opens *)

(** [m] changes no file and opens, in this order, some of [allowed]. *)
Definition opens {A} (m : M A) (allowed : list string) : Prop :=
  ∀ w r w', m w = (r, w') →
    files w' = files w
    ∧ ∃ ps, trace w' = trace w ++ map EOpenR ps ∧ ps `sublist_of` allowed.

(** [column["file"]] as a string. *)
Definition column_file (column : pyval) : result string :=
  let? v := py_getitem column "file" in as_str v.

(** ["maskoffset" in column]. *)
Definition has_maskoffset (column : pyval) : bool :=
  match py_haskey column "maskoffset" with
  | Ok b => b
  | Raise _ => false
  end.

(** A path the reader may open for the requested columns [cols]: the
    backing file of one of them, named without a path separator, or the mask
    file when one of them has a mask range. *)
Definition referenced (path : string) (cols : list pyval) (p : string) : Prop :=
  (∃ c f, c ∈ cols ∧ column_file c = Ok f ∧ str_in "/" f = false
          ∧ p = os_path_join path f)
  ∨ (p = mask_file path ∧ ∃ c, c ∈ cols ∧ has_maskoffset c = true).

(** No requested column is stored in a file named like the mask file. *)
Definition mask_apart (cols : list pyval) : Prop :=
  ∀ c, c ∈ cols → column_file c ≠ Ok "mask.npy".

(** The caches of the reading loop against the paths [ps] opened so far. *)
Record cached (path : string) (cols : list pyval) (st : read_state)
    (ps : list string) : Prop := {
  cached_keys : ∀ f, is_Some (backing st !! f) →
                str_in "/" f = false ∧ ∃ c, c ∈ cols ∧ column_file c = Ok f;
  cached_opened : ∀ p, p ∈ ps →
                  (∃ f, is_Some (backing st !! f) ∧ p = os_path_join path f)
                  ∨ (p = mask_file path ∧ is_Some (maskedbacking st));
  cached_referenced : ∀ p, p ∈ ps → referenced path cols p;
  cached_once : mask_apart cols → NoDup ps
}.

(** The paths one iteration may open, given the caches. *)
Definition column_opens (path : string) (column : pyval) (st : read_state)
  : list string :=
  match column_file column with
  | Ok file =>
      (if bool_decide (backing st !! file = None) && negb (str_in "/" file)
       then [os_path_join path file] else [])
      ++ (if bool_decide (maskedbacking st = None) && has_maskoffset column
          then [mask_file path] else [])
  | Raise _ => []
  end.

(** The events a call adds to the trace. *)
Definition new_events (w w' : world) : list event :=
  drop (length (trace w)) (trace w').

(** A manifest that [write] produced. *)
Definition written_manifest (bintable : pyval) : Prop :=
  ∃ table st, plan table = Ok st ∧ bintable = manifest_json table (columns st).

(** *** The statements of the round trip and of the endianness check *)

(** [R] reproduces [table]: names in order, values, masks, units (as the
    strings the format stores) and metadata (as JSON gives it back). *)
Record reproduces (table : Table) (R : RTable) : Prop := {
  same_names : map rc_name (rt_columns R) = colnames table;
  same_values : map rc_values (rt_columns R) = map col_values (tbl_columns table);
  same_masks : map rc_invalid (rt_columns R) = map col_mask (tbl_columns table);
  same_units : map (fun c => option_map unit_str (rc_unit c)) (rt_columns R)
               = map (fun c => option_map unit_str (col_unit c)) (tbl_columns table);
  same_meta : rt_meta R = json_image (tbl_meta table);
  same_meta_native : json_native (tbl_meta table) = true → rt_meta R = tbl_meta table;
  same_masked : rt_masked R = PBool (tbl_masked table)
}.

(** Writing [table] to [path] and reading the dataset back gives [table]. *)
Definition roundtrip (known_unit : string → bool) (table : Table) (path : string)
    (w : world) : Prop :=
  ∃ w1 R w2,
    write table path w = (Ok tt, w1)
    ∧ read known_unit path None w1 = (Ok R, w2)
    ∧ reproduces table R.

(** A dtype string with a byte-order mark, little- or big-endian. *)
Definition endianness_marker (dt : string) : bool :=
  str_in "<" dt || str_in ">" dt.

(** ** Example tables and worlds *)

Definition empty_world : world := World ∅ [] [].

(** A unit registry that knows the jansky. *)
Definition jansky_known (s : string) : bool := String.eqb s "Jy".

(** Three rows: an [int32] column, a text column, and a [float64] column
    in janskys whose last entry is invalid. *)
Definition example_table : Table :=
  {| tbl_columns :=
       [ {| col_name := "id"; col_dtype_char := "i"; col_dtype_str := "int32";
            col_data := [PInt 1; PInt 2; PInt 3];
            col_mask := [false; false; false]; col_unit := None |};
         {| col_name := "name"; col_dtype_char := "U"; col_dtype_str := "<U1";
            col_data := [PStr "a"; PStr "b"; PStr "c"];
            col_mask := [false; false; false]; col_unit := None |};
         {| col_name := "flux"; col_dtype_char := "d"; col_dtype_str := "float64";
            col_data := [PFloat 4609434218613702656; PFloat 4612811918334230528;
                         PFloat 9221120237041090560];
            col_mask := [false; false; true]; col_unit := Some (UnitOf "Jy") |} ];
     tbl_masked := true;
     tbl_meta := PDict [(KStr "origin", PStr "survey")] |}.

(** A big-endian [int32] column, as numpy names it on a little-endian host. *)
Definition big_endian_table : Table :=
  {| tbl_columns :=
       [ {| col_name := "n"; col_dtype_char := "i"; col_dtype_str := ">i4";
            col_data := [PInt 7]; col_mask := [false]; col_unit := None |} ];
     tbl_masked := false;
     tbl_meta := PDict [] |}.

(** A little-endian [int32] column, as numpy names it on a big-endian host. *)
Definition little_endian_table : Table :=
  {| tbl_columns :=
       [ {| col_name := "n"; col_dtype_char := "i"; col_dtype_str := "<i4";
            col_data := [PInt 7]; col_mask := [false]; col_unit := None |} ];
     tbl_masked := false;
     tbl_meta := PDict [] |}.

(** A column of byte strings (dtype [S1]). *)
Definition bytes_table : Table :=
  {| tbl_columns :=
       [ {| col_name := "tag"; col_dtype_char := "S"; col_dtype_str := "|S1";
            col_data := [PBytes "a"]; col_mask := [false]; col_unit := None |} ];
     tbl_masked := false;
     tbl_meta := PDict [] |}.

(** Metadata holding a byte string. *)
Definition bytes_meta_table : Table :=
  {| tbl_columns := [];
     tbl_masked := false;
     tbl_meta := PDict [(KStr "checksum", PBytes "x")] |}.

(** A directory that is not a dataset in progress. *)
Definition occupied_world : world :=
  World (<["out" := Dir]> (<["out/notes.txt" := File CRaw]> ∅)) [] [].

(** The fourth file-system call fails (the mask file cannot be opened). *)
Definition failing_world : world := World ∅ [false; false; false; true] [].

(** The dataset of [example_table] in the directory ["out"]. *)
Definition example_dataset : world := snd (write example_table "out" empty_world).



(** A manifest whose only column keeps its data in the mask file. *)
Definition aliased_manifest : pyval :=
  PDict [(KStr "meta", PDict []); (KStr "masked", PBool true);
         (KStr "columns",
          PList [PDict [(KStr "name", PStr "x"); (KStr "file", PStr "mask.npy");
                        (KStr "offset", PInt 0); (KStr "length", PInt 1);
                        (KStr "maskoffset", PInt 0)]])].

Definition aliased_world : world :=
  World (<["out/mask.npy" := File (CNpy [PBool false])]>
           (<["out/bintable.json" := File (CJson aliased_manifest)]>
              (<["out" := Dir]> ∅))) [] [].

(** *** The errors a computation can raise *)

Definition raises_only {A} (m : M A) (E : exn → Prop) : Prop :=
  ∀ w e w', m w = (Raise e, w') → E e.

(** The errors of the file-writing stages of [write]. *)
Definition io_error (e : exn) : Prop := e = OSError ∨ e = TypeError ∨ e = ValueError.

(** The two assertions of the planning loop, for one column. *)
Definition refused (table_masked : bool) (c : Column) : Prop :=
  (is_text c = false ∧ str_in "<" (col_dtype_str c) = true)
  ∨ (has_invalid table_masked c = true ∧ length (col_mask c) ≠ length (col_data c)).

(** ** Truncating a VOTable

    [_read_partial_vot] reads a file that is not part of a dataset;
    [disk] gives the bytes of each such file. *)

#[global] Instance byte_eq_dec : EqDecision Byte.byte := Byte.byte_eq_dec.

(** The highest index at which [sub] occurs in [data], if any. *)
Fixpoint rfind (sub data : list Byte.byte) : option nat :=
  match data with
  | [] => if bool_decide (sub `prefix_of` data) then Some 0 else None
  | _ :: rest =>
      match rfind sub rest with
      | Some i => Some (S i)
      | None => if bool_decide (sub `prefix_of` data) then Some 0 else None
      end
  end.

(** [data.rindex(sub)]. *)
Definition rindex (data sub : list Byte.byte) : result nat :=
  match rfind sub data with
  | Some i => Ok i
  | None => Raise ValueError
  end.

(** [fp.read(n)] on a file opened with ["rb"]: [-1] reads everything, a
    smaller number is refused, and so is a number too large for a byte
    string (of a 64-bit Python).  The buffer of [n] bytes is allocated
    before the file is read; that the machine may lack the memory for it
    is, like any exhaustion of resources, outside the model. *)
Definition fp_read (content : list Byte.byte) (n : Z) : result (list Byte.byte) :=
  if (n <? -1)%Z then Raise ValueError
  else if (n <? 0)%Z then Ok content
  else if (2 ^ 63 - 33 <=? n)%Z then Raise OverflowError
  else Ok (take (Z.to_nat n) content).

Definition row_end : list Byte.byte := String.list_byte_of_string "</TR>".

Definition vot_closer : list Byte.byte :=
  String.list_byte_of_string "</TR></TABLEDATA></DATA></TABLE></RESOURCE></VOTABLE>".

Definition _read_partial_vot (disk : gmap string (list Byte.byte)) (filename : string)
    (bytes : Z) : result (list Byte.byte) :=
  let? content := match disk !! filename with
                  | Some c => Ok c
                  | None => Raise FileNotFoundError
                  end in
  let? data := fp_read content bytes in
  let? i := rindex data row_end in
  Ok (take i data ++ vot_closer).

(** What follows the last row end in the closing text. *)
Definition vot_tail : list Byte.byte :=
  String.list_byte_of_string "</TABLEDATA></DATA></TABLE></RESOURCE></VOTABLE>".

(** ** The command line

    [main] reads one table and writes it.  Which reader and which writer
    it calls is decided from the arguments and from the file system
    alone; the foreign formats themselves are astropy's. *)

Record Args := {
  args_input : string;
  args_input_type : option string;
  args_input_truncate : option Z;
  args_input_columns : option string;
  args_output : option string;
  args_output_type : option string
}.

(** [s.split(sep)] for a separator of one character. *)
Fixpoint str_split (sep : ascii) (s : string) : list string :=
  match s with
  | EmptyString => [EmptyString]
  | String c s' =>
      if Ascii.eqb c sep then EmptyString :: str_split sep s'
      else match str_split sep s' with
           | [] => [String c EmptyString]
           | h :: t => String c h :: t
           end
  end.

(** [sep.join(l)]. *)
Fixpoint str_join (sep : string) (l : list string) : string :=
  match l with
  | [] => EmptyString
  | [s] => s
  | s :: rest => s +:+ sep +:+ str_join sep rest
  end.


Definition os_path_isfile (p : string) (w : world) : bool :=
  match files w !! p with
  | Some (File _) => true
  | _ => false
  end.

Definition os_path_isdir (p : string) (w : world) : bool :=
  match files w !! p with
  | Some Dir => true
  | _ => false
  end.

(** The call that produces the table. *)
Inductive source :=
| FromFormat (filename format : string)
| FromVotable (filename : string) (truncate : option Z)
| FromBintable (path : string) (only_columns : option (list string)).


(** The input branch of [main]; [None] is [SystemExit]. *)
Definition main_input (args : Args) (w : world) : option source :=
  match args_input_type args with
  | Some format => Some (FromFormat (args_input args) format)
  | None =>
      if endswith (args_input args) ".vot" && os_path_isfile (args_input args) w then
        Some (FromVotable (args_input args) (args_input_truncate args))
      else if os_path_isdir (args_input args) w
              && os_path_isfile (os_path_join (args_input args) "bintable.json") w then
        Some (FromBintable (args_input args)
                (option_map (str_split ",") (args_input_columns args)))
      else None
  end.



(** A VOTable cut in the middle of its third row. *)
Definition partial_vot : list Byte.byte :=
  String.list_byte_of_string
    "<VOTABLE><RESOURCE><TABLE><DATA><TABLEDATA><TR><TD>1</TD></TR><TR><TD>2</TD></TR><TR><TD>3".

(** The sequence a backing file holds, as [read] slices it. *)
Definition file_items (c : content) : option (list pyval) :=
  match c with
  | CNpy a => Some a
  | CJson (PList l) | CJson (PArr l) => Some l
  | _ => None
  end.

(** A directory in progress that also holds a committed manifest from
    elsewhere; the first file-system call that can fail does. *)
Definition stale_world : world :=
  World (<["out/bintable.json" := File (CJson PNone)]>
           (<["out/bintable.json_" := File CRaw]> (<["out" := Dir]> ∅)))
        [true] [].

(** A [datetime64] column followed by a little-endian column, in a table
    that is not masked. *)
Definition datetime_table : Table :=
  {| tbl_columns :=
       [ {| col_name := "t"; col_dtype_char := "M"; col_dtype_str := "datetime64[ns]";
            col_data := [PInt 0]; col_mask := [false]; col_unit := None |};
         {| col_name := "n"; col_dtype_char := "i"; col_dtype_str := "<i4";
            col_data := [PInt 7]; col_mask := [false]; col_unit := None |} ];
     tbl_masked := false;
     tbl_meta := PDict [] |}.

(** Metadata with a tuple and a key that is not a string. *)
Definition tuple_meta_table : Table :=
  {| tbl_columns := [];
     tbl_masked := false;
     tbl_meta := PDict [(KStr "shape", PTuple [PInt 2; PInt 3]); (KInt 1, PStr "one")] |}.

(** * Strings and paths *)

Lemma str_app_cons (c : ascii) (a b : string) : String c a +:+ b = String c (a +:+ b).
Proof. reflexivity. Qed.

Lemma str_app_nil_l (b : string) : "" +:+ b = b.
Proof. reflexivity. Qed.

Ltac str_simpl := rewrite ?str_app_cons, ?str_app_nil_l in *; simpl in *.

Lemma str_length_app (a b : string) :
  String.length (a +:+ b) = String.length a + String.length b.
Proof. induction a as [|c a IH]; str_simpl; [done | by rewrite IH]. Qed.

Lemma str_app_nil_r (a : string) : a +:+ "" = a.
Proof. induction a as [|c a IH]; str_simpl; [done | by rewrite IH]. Qed.

Lemma str_app_assoc (a b c : string) : (a +:+ b) +:+ c = a +:+ (b +:+ c).
Proof. induction a as [|x a IH]; str_simpl; [done | by rewrite IH]. Qed.

Lemma str_app_inv_l (a b c : string) : a +:+ b = a +:+ c → b = c.
Proof. induction a as [|x a IH]; intros H; str_simpl; [done | injection H; auto]. Qed.

Lemma str_app_inv_r (a b c : string) : a +:+ c = b +:+ c → a = b.
Proof.
  revert b. induction a as [|x a IH]; intros [|y b] H.
  - done.
  - apply (f_equal String.length) in H.
    rewrite str_app_nil_l, str_app_cons in H. simpl in H.
    rewrite str_length_app in H. lia.
  - apply (f_equal String.length) in H.
    rewrite str_app_nil_l, str_app_cons in H. simpl in H.
    rewrite str_length_app in H. lia.
  - str_simpl. injection H as -> H. f_equal. by apply IH.
Qed.

Lemma str_app_neq_self (a b : string) : b ≠ "" → a +:+ b ≠ a.
Proof.
  intros Hb H. apply (f_equal String.length) in H.
  rewrite str_length_app in H. destruct b; [done | simpl in H; lia].
Qed.

Lemma str_last_app (a b : string) : b ≠ "" → str_last (a +:+ b) = str_last b.
Proof.
  intros Hb. induction a as [|x a IH]; [done |].
  rewrite str_app_cons. simpl. rewrite <- IH. destruct (a +:+ b) eqn:E; [| done].
  destruct a; str_simpl; [done | discriminate].
Qed.

Lemma endswith_unfold (s suffix : string) :
  endswith s suffix =
  if String.eqb s suffix then true
  else match s with
       | EmptyString => false
       | String _ s' => endswith s' suffix
       end.
Proof. by destruct s. Qed.

Lemma endswith_refl (s : string) : endswith s s = true.
Proof. rewrite endswith_unfold. by rewrite String.eqb_refl. Qed.

Lemma endswith_app (a suffix : string) : endswith (a +:+ suffix) suffix = true.
Proof.
  induction a as [|x a IH]; [apply endswith_refl |].
  rewrite str_app_cons, endswith_unfold, IH. by destruct (String.eqb _ _).
Qed.

Lemma endswith_last (s suffix : string) :
  endswith s suffix = true → suffix ≠ "" → str_last s = str_last suffix.
Proof.
  intros H Hs. induction s as [|x s IH]; rewrite endswith_unfold in H.
  - destruct suffix; [done | discriminate].
  - destruct (String.eqb (String x s) suffix) eqn:E.
    + apply String.eqb_eq in E. by rewrite E.
    + rewrite <- (IH H). simpl. destruct s; [| done].
      rewrite endswith_unfold in H. destruct suffix; [done | discriminate].
Qed.

Lemma npy_not_json (x : string) : endswith (x +:+ ".npy") ".json" = false.
Proof.
  destruct (endswith (x +:+ ".npy") ".json") eqn:E; [| done].
  apply endswith_last in E; [| done].
  rewrite str_last_app in E; [| done]. discriminate.
Qed.

Lemma npy_is_npy (x : string) : endswith (x +:+ ".npy") ".npy" = true.
Proof. apply endswith_app. Qed.

Lemma str_in_app (c : ascii) (a b : string) :
  str_in c (a +:+ b) = str_in c a || str_in c b.
Proof.
  induction a as [|x a IH]; [done |].
  rewrite str_app_cons. simpl. by destruct (Ascii.eqb x c).
Qed.

(** The names [write] gives to the files of a dataset are relative, so
    [os.path.join] puts them below the directory. *)
Lemma os_path_join_relative (a b : string) :
  relative b →
  os_path_join a b = a +:+ (if String.eqb a "" || endswith a "/" then "" else "/") +:+ b.
Proof.
  unfold relative, os_path_join. intros ->.
  by destruct (String.eqb a "" || endswith a "/").
Qed.

Lemma os_path_join_inj (p a b : string) :
  relative a → relative b → os_path_join p a = os_path_join p b → a = b.
Proof.
  intros Ha Hb. rewrite !os_path_join_relative by done.
  intros H. apply str_app_inv_l in H. by apply str_app_inv_l in H.
Qed.

Lemma os_path_join_neq_dir (p b : string) :
  relative b → b ≠ "" → os_path_join p b ≠ p.
Proof.
  intros Hb Hne. rewrite os_path_join_relative by done.
  apply str_app_neq_self.
  destruct (String.eqb p "" || endswith p "/"); simpl; [done |]. discriminate.
Qed.

(** * JSON images *)

Lemma dict_get_key_is k kv :
  dict_get k kv = None → Forall (fun p => key_is k (fst p) = false) kv.
Proof.
  induction kv as [|[k' v] kv IH]; simpl; [constructor |].
  destruct (key_is k k') eqn:E; [done |]. intros H. constructor; [done | by apply IH].
Qed.

Lemma dict_set_new k v kv :
  Forall (fun p => key_is k (fst p) = false) kv → dict_set k v kv = kv ++ [(KStr k, v)].
Proof.
  induction 1 as [|[k' v'] kv Hk _ IH]; simpl; [done |].
  simpl in Hk. by rewrite Hk, IH.
Qed.

Lemma key_is_KStr k s : key_is k (KStr s) = false ↔ KStr s ≠ KStr k.
Proof.
  simpl. rewrite String.eqb_neq. split; [congruence |]. intros H E. apply H. by rewrite E.
Qed.

(** Items with distinct string keys and values that are their own image
    are added one after the other. *)
Lemma json_image_items (kv acc : list (pykey * pyval)) :
  Forall (fun p => json_image (snd p) = snd p) kv →
  forallb (fun p => is_KStr (fst p)) kv = true →
  NoDup (map fst (acc ++ kv)) →
  fold_left (fun acc p => dict_set (json_key (fst p)) (json_image (snd p)) acc) kv acc
  = acc ++ kv.
Proof.
  revert acc. induction kv as [|[k v] kv IH]; intros acc Him Hk Hnd; simpl.
  - by rewrite app_nil_r.
  - apply Forall_cons in Him as [Hv Him]. simpl in Hk, Hv.
    apply andb_true_iff in Hk as [Hk0 Hk]. destruct k as [s| | |]; try done. simpl.
    rewrite Hv, dict_set_new.
    + rewrite IH; [by rewrite <- app_assoc | done | done |].
      by rewrite <- app_assoc.
    + apply Forall_forall. intros [k' v'] Hin. simpl.
      destruct k' as [s'| | |]; try done. apply key_is_KStr. intros E.
      rewrite fmap_app in Hnd. apply NoDup_app in Hnd as (_ & Hdis & _).
      apply (Hdis (KStr s')).
      * apply list_elem_of_fmap. by exists (KStr s', v').
      * rewrite E. simpl. apply list_elem_of_here.
Qed.

Lemma json_native_image v :
  json_native v = true → json_ok v = true ∧ json_image v = v.
Proof.
  induction v as [| | | | | |l IH|l IH|kv IH|a] using pyval_nested_ind;
    simpl; try done.
  - intros H. apply Z.eqb_eq in H. by rewrite H.
  - intros H. assert (Hall : Forall (fun v => json_ok v = true ∧ json_image v = v) l).
    { apply Forall_forall. intros v Hv.
      apply (proj1 (Forall_forall _ _) IH v Hv).
      apply (proj1 (forallb_forall _ _) H). by apply list_elem_of_In. }
    split.
    + apply forallb_forall. intros v Hv. apply list_elem_of_In in Hv.
      by apply (proj1 (Forall_forall _ _) Hall v Hv).
    + f_equal. rewrite <- (map_id l) at 2. apply map_ext_in. intros v Hv.
      apply list_elem_of_In in Hv. by apply (proj1 (Forall_forall _ _) Hall v Hv).
  - intros H. apply andb_true_iff in H as [H Hnd]. apply bool_decide_eq_true in Hnd.
    assert (Hall : Forall (fun p => json_ok (snd p) = true ∧ json_image (snd p) = snd p) kv).
    { apply Forall_forall. intros p Hp.
      apply (proj1 (Forall_forall _ _) IH p Hp).
      pose proof (proj1 (forallb_forall _ _) H p) as Hk.
      rewrite <- list_elem_of_In in Hk. specialize (Hk Hp).
      by apply andb_true_iff in Hk as [_ ?]. }
    split.
    + apply forallb_forall. intros p Hp. apply list_elem_of_In in Hp.
      by apply (proj1 (Forall_forall _ _) Hall p Hp).
    + f_equal. rewrite (json_image_items kv []); [done | | | done].
      * eapply Forall_impl; [exact Hall |]. by intros p [_ ?].
      * apply forallb_forall. intros p Hp.
        pose proof (proj1 (forallb_forall _ _) H p Hp) as Hk.
        by apply andb_true_iff in Hk as [? _].
Qed.

Lemma json_dumps_native v : json_native v = true → json_dumps v = Ok v.
Proof.
  intros H. destruct (json_native_image v H) as [Hok Him].
  unfold json_dumps. by rewrite Hok, Him.
Qed.

Lemma json_native_items (l : list pyval) :
  forallb json_native l = true → json_dumps (PList l) = Ok (PList l).
Proof. intros H. by apply json_dumps_native. Qed.

Lemma json_native_entry e : json_native (entry_json e) = true.
Proof.
  unfold entry_json. destruct (ce_maskoffset e), (ce_unit e); by vm_compute.
Qed.

Lemma json_image_entries cols :
  json_ok (PList (map entry_json cols)) = true
  ∧ json_image (PList (map entry_json cols)) = PList (map entry_json cols).
Proof.
  apply json_native_image. simpl. apply forallb_forall. intros v Hv.
  apply list_elem_of_In, list_elem_of_fmap in Hv as (e & -> & _).
  apply json_native_entry.
Qed.

(** The document of the manifest. *)
Lemma json_ok_manifest table cols :
  json_ok (manifest_obj table cols) = json_ok (tbl_meta table).
Proof.
  destruct (json_image_entries cols) as [Hok _]. unfold manifest_obj.
  replace (json_ok (PDict [(KStr "meta", tbl_meta table);
                           (KStr "masked", PBool (tbl_masked table));
                           (KStr "columns", PList (map entry_json cols))]))
    with (json_ok (tbl_meta table) && (true && (json_ok (PList (map entry_json cols)) && true)))
    by reflexivity.
  rewrite Hok. by destruct (json_ok (tbl_meta table)).
Qed.

Lemma json_image_manifest table cols :
  json_image (manifest_obj table cols) = manifest_json table cols.
Proof.
  destruct (json_image_entries cols) as [_ Him]. unfold manifest_obj, manifest_json.
  replace (json_image (PDict [(KStr "meta", tbl_meta table);
                              (KStr "masked", PBool (tbl_masked table));
                              (KStr "columns", PList (map entry_json cols))]))
    with (PDict [(KStr "meta", json_image (tbl_meta table));
                 (KStr "masked", PBool (tbl_masked table));
                 (KStr "columns", json_image (PList (map entry_json cols)))])
    by reflexivity.
  by rewrite Him.
Qed.

Lemma json_dumps_manifest table cols :
  json_ok (tbl_meta table) = true →
  json_dumps (manifest_obj table cols) = Ok (manifest_json table cols).
Proof.
  intros Hm. unfold json_dumps. by rewrite json_ok_manifest, Hm, json_image_manifest.
Qed.

Lemma json_dumps_manifest_raise table cols :
  json_ok (tbl_meta table) = false →
  json_dumps (manifest_obj table cols) = Raise TypeError.
Proof. intros Hm. unfold json_dumps. by rewrite json_ok_manifest, Hm. Qed.

(** * The planning loop *)

Lemma df_lookup_store_eq k v d : df_lookup k (df_store k v d) = Some v.
Proof.
  induction d as [|[k' v'] d IH]; simpl.
  - by rewrite String.eqb_refl.
  - destruct (String.eqb k' k) eqn:E; simpl; by rewrite E.
Qed.

Lemma df_lookup_store_ne k k' v d :
  k ≠ k' → df_lookup k' (df_store k v d) = df_lookup k' d.
Proof.
  intros Hne. induction d as [|[k0 v0] d IH]; simpl.
  - destruct (String.eqb k k') eqn:E; [| done].
    by apply String.eqb_eq in E.
  - destruct (String.eqb k0 k) eqn:E; simpl.
    + apply String.eqb_eq in E as ->.
      destruct (String.eqb k k') eqn:E'; [| done].
      by apply String.eqb_eq in E'.
    + by rewrite IH.
Qed.

Lemma df_lookup_None k d : df_lookup k d = None → k ∉ map fst d.
Proof.
  induction d as [|[k' v'] d IH]; simpl; intros H.
  - apply not_elem_of_nil.
  - destruct (String.eqb k' k) eqn:E; [done |].
    apply String.eqb_neq in E. rewrite not_elem_of_cons. split; [done | auto].
Qed.

Lemma df_lookup_Some k v d : df_lookup k d = Some v → (k, v) ∈ d.
Proof.
  induction d as [|[k' v'] d IH]; simpl; intros H; [done |].
  destruct (String.eqb k' k) eqn:E.
  - apply String.eqb_eq in E as ->. injection H as ->. apply list_elem_of_here.
  - apply list_elem_of_further. auto.
Qed.

Lemma df_lookup_elem k v d :
  NoDup (map fst d) → (k, v) ∈ d → df_lookup k d = Some v.
Proof.
  induction d as [|[k' v'] d IH]; simpl; intros Hnd Hin.
  - by apply elem_of_nil in Hin.
  - apply NoDup_cons in Hnd as [Hk Hnd].
    apply elem_of_cons in Hin as [Heq | Hin].
    + injection Heq as <- <-. by rewrite String.eqb_refl.
    + destruct (String.eqb k' k) eqn:E.
      * apply String.eqb_eq in E as ->. exfalso. apply Hk.
        apply list_elem_of_fmap. by exists (k, v).
      * auto.
Qed.

Lemma df_store_keys k v d :
  map fst (df_store k v d) =
  if bool_decide (k ∈ map fst d) then map fst d else map fst d ++ [k].
Proof.
  induction d as [|[k' v'] d IH]; simpl; [done |].
  destruct (String.eqb k' k) eqn:E; simpl.
  - apply String.eqb_eq in E as ->.
    rewrite bool_decide_eq_true_2; [done | apply list_elem_of_here].
  - apply String.eqb_neq in E. rewrite IH.
    destruct (bool_decide (k ∈ map fst d)) eqn:B.
    + apply bool_decide_eq_true in B.
      rewrite bool_decide_eq_true_2; [done | by apply list_elem_of_further].
    + apply bool_decide_eq_false in B.
      rewrite bool_decide_eq_false_2; [done |].
      rewrite not_elem_of_cons. split; [done | done].
Qed.

Lemma df_store_NoDup k v d : NoDup (map fst d) → NoDup (map fst (df_store k v d)).
Proof.
  intros H. rewrite df_store_keys. case_bool_decide as B; [done |].
  apply NoDup_app. repeat split; [done | | apply NoDup_singleton].
  intros x Hx Hx'. apply list_elem_of_singleton in Hx' as ->. done.
Qed.

(** [plan_column] in closed form. *)
Lemma plan_column_eq m c st :
  plan_column m c st =
  if plannable m c
  then if exports m c st then Ok (plan_next m c st) else Raise ValueError
  else Raise AssertionError.
Proof.
  unfold plan_column, plannable, exports, buffered, data_buffer, plan_next,
    default_name, has_invalid, col_length, payload, assert.
  destruct (is_text c) eqn:Ht; simpl.
  - destruct (setdefault _ _ _) as [df dfs]; simpl.
    destruct (endswith (df_name df) ".json"); simpl.
    + destruct (m && existsb id (col_mask c)); simpl; [| done].
      by destruct (length (col_mask c) =? length (col_data c))%nat.
    + destruct m; simpl.
      * destruct (existsb id (col_mask c)); simpl; [| done].
        by destruct (length (col_mask c) =? length (col_data c))%nat.
      * by destruct (is_datetime c).
  - destruct (str_in "<" (col_dtype_str c)); simpl; [done |].
    destruct (setdefault _ _ _) as [df dfs]; simpl.
    destruct (endswith (df_name df) ".json"); simpl.
    + destruct (m && existsb id (col_mask c)); simpl; [| done].
      by destruct (length (col_mask c) =? length (col_data c))%nat.
    + destruct m; simpl.
      * destruct (existsb id (col_mask c)); simpl; [| done].
        by destruct (length (col_mask c) =? length (col_data c))%nat.
      * by destruct (is_datetime c).
Qed.

Lemma buffered_exports m c st : buffered m c = true → exports m c st = true.
Proof. unfold exports. intros ->. apply orb_true_r. Qed.

(** The errors of the planning loop: its two assertions, and the buffer
    numpy does not export. *)
Lemma plan_column_raises m c st e :
  plan_column m c st = Raise e → e = AssertionError ∨ e = ValueError.
Proof.
  rewrite plan_column_eq. destruct (plannable m c); [| intros [= <-]; by left].
  destruct (exports m c st); [done | intros [= <-]; by right].
Qed.

Lemma plan_columns_raises m cols st e :
  plan_columns m cols st = Raise e → e = AssertionError ∨ e = ValueError.
Proof.
  revert st. induction cols as [|c cols IH]; simpl; intros st H; [done |].
  destruct (plan_column m c st) as [st'|e'] eqn:E; simpl in H.
  - eauto.
  - injection H as <-. by eapply plan_column_raises.
Qed.

(** An assertion error comes from a column that fails an assertion. *)
Lemma plan_columns_asserts m cols st :
  plan_columns m cols st = Raise AssertionError →
  ∃ c, c ∈ cols ∧ plannable m c = false.
Proof.
  revert st. induction cols as [|c cols IH]; simpl; intros st H; [done |].
  rewrite plan_column_eq in H. destruct (plannable m c) eqn:Ep.
  - destruct (exports m c st); simpl in H; [| done].
    destruct (IH _ H) as (c' & Hc' & Hp). exists c'.
    split; [by apply list_elem_of_further | done].
  - exists c. split; [apply list_elem_of_here | done].
Qed.

(** A non-text column whose dtype string has a ["<"] stops the loop. *)
Lemma plan_column_marker m c st :
  is_text c = false → str_in "<" (col_dtype_str c) = true →
  plan_column m c st = Raise AssertionError.
Proof. unfold plan_column. by intros -> ->. Qed.

(** The loop stops with an assertion error at the first column that fails
    one, when the columns before it can be handed over. *)
Lemma plan_columns_refused m pre c post st :
  (∀ c', c' ∈ pre → buffered m c' = true) → plannable m c = false →
  plan_columns m (pre ++ c :: post) st = Raise AssertionError.
Proof.
  intros Hpre Hc. revert st. induction pre as [|c' pre IH]; intros st; simpl.
  - rewrite plan_column_eq, Hc. done.
  - rewrite plan_column_eq. destruct (plannable m c'); [| done].
    rewrite buffered_exports by apply Hpre, list_elem_of_here. simpl.
    apply IH. intros c'' Hc''. by apply Hpre, list_elem_of_further.
Qed.

Lemma plan_columns_marker m pre c post st :
  (∀ c', c' ∈ pre → buffered m c' = true) →
  is_text c = false → str_in "<" (col_dtype_str c) = true →
  plan_columns m (pre ++ c :: post) st = Raise AssertionError.
Proof.
  intros Hpre Ht Hs. apply plan_columns_refused; [done |].
  unfold plannable. by rewrite Ht, Hs.
Qed.

(** A column that fails an assertion stops the loop, at that column or
    before it. *)
Lemma plan_columns_stops m pre c post st :
  plannable m c = false →
  ∃ e, (e = AssertionError ∨ e = ValueError)
       ∧ plan_columns m (pre ++ c :: post) st = Raise e.
Proof.
  intros Hc. revert st. induction pre as [|c' pre IH]; intros st; simpl.
  - rewrite plan_column_eq, Hc. exists AssertionError. split; [by left | done].
  - rewrite plan_column_eq. destruct (plannable m c').
    + destruct (exports m c' st); [apply IH |].
      exists ValueError. split; [by right | done].
    + exists AssertionError. split; [by left | done].
Qed.

Lemma key_cols_app k a b : key_cols k (a ++ b) = key_cols k a ++ key_cols k b.
Proof. apply filter_app. Qed.

Lemma key_cols_snoc_eq pre c :
  key_cols (storage_key c) (pre ++ [c]) = key_cols (storage_key c) pre ++ [c].
Proof.
  rewrite key_cols_app. f_equal. unfold key_cols.
  rewrite filter_cons_True by done. done.
Qed.

Lemma key_cols_snoc_ne k pre c :
  storage_key c ≠ k → key_cols k (pre ++ [c]) = key_cols k pre.
Proof.
  intros H. rewrite key_cols_app. unfold key_cols at 2.
  rewrite filter_cons_False by done. rewrite filter_nil. apply app_nil_r.
Qed.

Lemma mask_cols_snoc m pre c :
  mask_cols m (pre ++ [c]) =
  if has_invalid m c then mask_cols m pre ++ [c] else mask_cols m pre.
Proof.
  unfold mask_cols. rewrite filter_app.
  destruct (has_invalid m c) eqn:E.
  - by rewrite filter_cons_True.
  - rewrite filter_cons_False by congruence. apply app_nil_r.
Qed.

Lemma sum_list_with_snoc {A} (f : A → nat) l x :
  sum_list_with f (l ++ [x]) = sum_list_with f l + f x.
Proof. rewrite sum_list_with_app. simpl. lia. Qed.

Lemma layout_entries_snoc m p a c :
  layout_entries m p (a ++ [c]) = layout_entries m p a ++ [layout_entry m (p ++ a) c].
Proof.
  revert p. induction a as [|x a IH]; intros p; simpl.
  - by rewrite app_nil_r.
  - rewrite IH. by rewrite <- app_assoc.
Qed.

Lemma planned_init m : planned m [] plan_init.
Proof. split; simpl; try done. apply NoDup_nil_2. Qed.

Lemma plan_next_planned m pre c st :
  planned m pre st → planned m (pre ++ [c]) (plan_next m c st).
Proof.
  intros [Hc Hd Hk Hm Hl].
  assert (Hold : ∃ old dfs,
    setdefault (storage_key c)
      {| df_name := default_name c; df_datas := []; df_length := 0 |}
      (datafiles st) = (old, dfs)
    ∧ df_name old = layout_file pre c
    ∧ df_length old = key_length (storage_key c) pre
    ∧ df_datas old =
        (if endswith (layout_file pre c) ".json"
         then concat (map (payload true) (key_cols (storage_key c) pre))
         else map (fun c => PArr (col_data c)) (key_cols (storage_key c) pre))
    ∧ (∀ k, k ≠ storage_key c → df_lookup k dfs = df_lookup k (datafiles st))
    ∧ NoDup (map fst dfs)).
  { unfold setdefault, layout_file. rewrite key_cols_snoc_eq.
    rewrite Hd. unfold layout_datafile, key_length.
    destruct (key_cols (storage_key c) pre) as [|c0 cs] eqn:E; simpl.
    - eexists _, _. split; [done |]. simpl. repeat split; try done.
      + by destruct (endswith (default_name c) ".json").
      + intros k Hne. by apply df_lookup_store_ne.
      + by apply df_store_NoDup.
    - eexists _, _. split; [done |]. simpl. repeat split; done. }
  destruct Hold as (old & dfs & Hsd & Hn & Hlen & Hdat & Hother & Hnd).
  unfold plan_next. rewrite Hsd. simpl.
  split; simpl.
  - rewrite layout_entries_snoc, Hc. simpl. do 2 f_equal.
    unfold layout_entry. rewrite Hn, Hlen, Hl. done.
  - intros k. destruct (decide (k = storage_key c)) as [-> | Hne].
    + rewrite df_lookup_store_eq. unfold layout_datafile, key_length.
      rewrite key_cols_snoc_eq.
      assert (Hfirst : ∃ c0 cs, key_cols (storage_key c) pre ++ [c] = c0 :: cs
                 ∧ default_name c0 = layout_file pre c).
      { unfold layout_file. rewrite key_cols_snoc_eq.
        destruct (key_cols (storage_key c) pre ++ [c]) as [|c0 cs] eqn:E.
        - by destruct (key_cols (storage_key c) pre).
        - by exists c0, cs. }
      destruct Hfirst as (c0 & cs & E & Hc0). rewrite E, <- E, Hc0, Hn, Hdat, Hlen.
      f_equal. f_equal.
      * destruct (endswith (layout_file pre c) ".json").
        -- rewrite map_app, concat_app. simpl. by rewrite app_nil_r.
        -- by rewrite map_app.
      * unfold key_length. by rewrite sum_list_with_snoc.
    + rewrite df_lookup_store_ne by done. rewrite Hother by done.
      rewrite Hd. unfold layout_datafile, key_length.
      rewrite key_cols_snoc_ne by done. done.
  - by apply df_store_NoDup.
  - rewrite mask_cols_snoc, Hm. destruct (has_invalid m c); [| done].
    by rewrite map_app.
  - unfold mask_length. rewrite mask_cols_snoc, Hl.
    destruct (has_invalid m c); [| done].
    unfold mask_length. by rewrite sum_list_with_snoc.
Qed.

Lemma plan_columns_planned m pre cols st st' :
  planned m pre st → plan_columns m cols st = Ok st' → planned m (pre ++ cols) st'.
Proof.
  revert pre st. induction cols as [|c cols IH]; intros pre st Hp H; simpl in H.
  - injection H as <-. by rewrite app_nil_r.
  - rewrite plan_column_eq in H. destruct (plannable m c); [| done].
    destruct (exports m c st); [| done]. simpl in H.
    replace (pre ++ c :: cols) with ((pre ++ [c]) ++ cols) by by rewrite <- app_assoc.
    eapply IH; [| done]. by apply plan_next_planned.
Qed.

Lemma plan_planned table st :
  plan table = Ok st → planned (tbl_masked table) (tbl_columns table) st.
Proof. intros H. apply (plan_columns_planned _ [] _ plan_init); [apply planned_init | done]. Qed.

Lemma plan_columns_plannable m cols st :
  forallb (plannable m) cols = true → forallb (buffered m) cols = true →
  ∃ st', plan_columns m cols st = Ok st'.
Proof.
  revert st. induction cols as [|c cols IH]; intros st H Hb; simpl in *; [by eexists |].
  apply andb_true_iff in H as [Hc H]. apply andb_true_iff in Hb as [Hbc Hb].
  rewrite plan_column_eq, Hc, buffered_exports by done. simpl. auto.
Qed.

(** ** Entries, keys and files *)

Lemma layout_entries_lookup m p cols i :
  layout_entries m p cols !! i =
  (fun c => layout_entry m (p ++ take i cols) c) <$> (cols !! i).
Proof.
  revert p i. induction cols as [|c cols IH]; intros p [|i]; simpl; try done.
  - by rewrite app_nil_r.
  - rewrite IH. by rewrite <- app_assoc.
Qed.

Lemma layout_entries_length m p cols : length (layout_entries m p cols) = length cols.
Proof. revert p. induction cols as [|c cols IH]; intros p; simpl; [done | by rewrite IH]. Qed.

Lemma take_S_lookup {A} (l : list A) i x : l !! i = Some x → take (S i) l = take i l ++ [x].
Proof. intros H. by apply take_S_r. Qed.

Lemma key_file_prefix cols i c :
  cols !! i = Some c → layout_file (take i cols) c = key_file cols (storage_key c).
Proof.
  intros H. unfold layout_file, key_file.
  rewrite <- (take_drop (S i) cols) at 2. rewrite (take_S_lookup _ _ _ H).
  rewrite (key_cols_app _ (take i cols ++ [c])), key_cols_snoc_eq.
  by destruct (key_cols (storage_key c) (take i cols)).
Qed.

Lemma default_name_json c : endswith (default_name c) ".json" = is_text c.
Proof.
  unfold default_name. destruct (is_text c); [done |].
  rewrite <- str_app_assoc. apply npy_not_json.
Qed.

Lemma default_name_inj c1 c2 :
  default_name c1 = default_name c2 → storage_key c1 = storage_key c2.
Proof.
  intros H. pose proof (default_name_json c1) as H1.
  pose proof (default_name_json c2) as H2. rewrite H, H2 in H1.
  unfold default_name, storage_key in *. rewrite <- H1 in *.
  destruct (is_text c2); [done |].
  apply str_app_inv_l in H. by apply str_app_inv_r in H.
Qed.

Lemma key_cols_head k cols c0 cs : key_cols k cols = c0 :: cs → storage_key c0 = k.
Proof.
  intros H. assert (Hin : c0 ∈ key_cols k cols) by (rewrite H; apply list_elem_of_here).
  unfold key_cols in Hin. by apply list_elem_of_filter in Hin as [? _].
Qed.

Lemma key_cols_elem k cols c : c ∈ cols → storage_key c = k → key_cols k cols ≠ [].
Proof.
  intros Hin Hk E.
  assert (c ∈ key_cols k cols) as Hc by (apply list_elem_of_filter; done).
  rewrite E in Hc. by apply elem_of_nil in Hc.
Qed.

(** Two columns share a backing file exactly when they share a key. *)
Lemma key_file_inj cols c1 c2 :
  c1 ∈ cols → c2 ∈ cols →
  key_file cols (storage_key c1) = key_file cols (storage_key c2) →
  storage_key c1 = storage_key c2.
Proof.
  intros H1 H2. unfold key_file.
  destruct (key_cols (storage_key c1) cols) as [|a1 l1] eqn:E1;
    [by apply (key_cols_elem _ _ _ H1 eq_refl) in E1 |].
  destruct (key_cols (storage_key c2) cols) as [|a2 l2] eqn:E2;
    [by apply (key_cols_elem _ _ _ H2 eq_refl) in E2 |].
  intros H. apply default_name_inj in H.
  apply key_cols_head in E1, E2. congruence.
Qed.

Lemma key_length_mono k cols i j :
  (i ≤ j)%nat → (key_length k (take i cols) ≤ key_length k (take j cols))%nat.
Proof.
  intros Hij. replace j with (i + (j - i)) by lia.
  rewrite <- take_take_drop. unfold key_length.
  rewrite key_cols_app, sum_list_with_app. lia.
Qed.

Lemma mask_length_mono m cols i j :
  (i ≤ j)%nat → (mask_length m (take i cols) ≤ mask_length m (take j cols))%nat.
Proof.
  intros Hij. replace j with (i + (j - i)) by lia.
  rewrite <- take_take_drop. unfold mask_length, mask_cols.
  rewrite filter_app, sum_list_with_app. lia.
Qed.

Lemma key_length_S cols i c :
  cols !! i = Some c →
  key_length (storage_key c) (take (S i) cols) =
  key_length (storage_key c) (take i cols) + col_length c.
Proof.
  intros H. rewrite (take_S_lookup _ _ _ H). unfold key_length.
  by rewrite key_cols_snoc_eq, sum_list_with_snoc.
Qed.

Lemma mask_length_S m cols i c :
  cols !! i = Some c → has_invalid m c = true →
  mask_length m (take (S i) cols) = mask_length m (take i cols) + col_length c.
Proof.
  intros H Hm. rewrite (take_S_lookup _ _ _ H). unfold mask_length.
  by rewrite mask_cols_snoc, Hm, sum_list_with_snoc.
Qed.

(** The entry of the [i]-th column. *)
Lemma planned_entry m cols st i c :
  planned m cols st → cols !! i = Some c →
  columns st !! i = Some (layout_entry m (take i cols) c).
Proof.
  intros [Hc _ _ _ _] H. rewrite Hc, layout_entries_lookup. simpl. by rewrite H.
Qed.

Lemma planned_entry_inv m cols st i e :
  planned m cols st → columns st !! i = Some e →
  ∃ c, cols !! i = Some c ∧ e = layout_entry m (take i cols) c.
Proof.
  intros [Hc _ _ _ _] H. rewrite Hc, layout_entries_lookup in H. simpl in H.
  destruct (cols !! i) as [c|]; [| done]. injection H as <-. by exists c.
Qed.

Lemma layout_disjoint cols i j ci cj :
  (i < j)%nat → cols !! i = Some ci → cols !! j = Some cj →
  storage_key ci = storage_key cj →
  (key_length (storage_key ci) (take i cols) + col_length ci
   ≤ key_length (storage_key cj) (take j cols))%nat.
Proof.
  intros Hij Hi Hj Hk. rewrite <- Hk, <- (key_length_S _ _ _ Hi).
  apply key_length_mono. lia.
Qed.

Lemma layout_mask_disjoint m cols i j ci cj :
  (i < j)%nat → cols !! i = Some ci → cols !! j = Some cj →
  has_invalid m ci = true →
  (mask_length m (take i cols) + col_length ci ≤ mask_length m (take j cols))%nat.
Proof.
  intros Hij Hi Hj Hm. rewrite <- (mask_length_S _ _ _ _ Hi Hm).
  apply mask_length_mono. lia.
Qed.

(** * Effects: the monad and the file-system calls *)

Lemma bind_inv {A B} (m : M A) (k : A → M B) w r w' :
  bind m k w = (r, w') →
  (∃ a w1, m w = (Ok a, w1) ∧ k a w1 = (r, w'))
  ∨ (∃ e, m w = (Raise e, w') ∧ r = Raise e).
Proof.
  unfold bind. destruct (m w) as [[a|e] w1]; intros H.
  - left. by exists a, w1.
  - right. injection H as <- <-. by exists e.
Qed.

Lemma bind_ok {A B} (m : M A) (k : A → M B) w a w1 :
  m w = (Ok a, w1) → bind m k w = k a w1.
Proof. unfold bind. by intros ->. Qed.


Lemma bind_lift_ok {A B} (r : result A) (k : A → M B) a w :
  r = Ok a → bind (lift r) k w = k a w.
Proof. by intros ->. Qed.

Lemma bind_lift_raise {A B} (r : result A) (k : A → M B) e w :
  r = Raise e → bind (lift r) k w = (Raise e, w).
Proof. by intros ->. Qed.

(** ** Footprints *)

Lemma runs_weaken {A} (m : M A) ps ps' ex : runs m ps ex → ps ⊆ ps' → runs m ps' ex.
Proof.
  intros H Hsub w r w' E. destruct (H w r w' E) as [Hf Ht].
  split; [| done]. intros q Hq. apply Hf. intros Hq'. apply Hq. by apply Hsub.
Qed.

Lemma runs_pure {A} (m : M A) ps :
  (∀ w, snd (m w) = w) → runs m ps [].
Proof.
  intros H w r w' E. pose proof (H w) as Hw. rewrite E in Hw. simpl in Hw. subst w'.
  split; [done |]. exists []. by rewrite app_nil_r.
Qed.

Lemma runs_ret {A} (a : A) ps : runs (ret a) ps [].
Proof. by apply runs_pure. Qed.

Lemma runs_raise {A} e ps : runs (@raise A e) ps [].
Proof. by apply runs_pure. Qed.

Lemma runs_lift {A} (r : result A) ps : runs (lift r) ps [].
Proof. by apply runs_pure. Qed.

Lemma runs_bind {A B} (m : M A) (k : A → M B) ps e1 e2 :
  runs m ps e1 → (∀ a, runs (k a) ps e2) → runs (bind m k) ps (e1 ++ e2).
Proof.
  intros Hm Hk w r w' E. apply bind_inv in E as [(a & w1 & E1 & E2) | (e & E1 & ->)].
  - destruct (Hm _ _ _ E1) as [Hf1 (evs1 & Ht1 & _ & Hok1)].
    destruct (Hk a _ _ _ E2) as [Hf2 (evs2 & Ht2 & Hp2 & Hok2)].
    split.
    + intros q Hq. rewrite Hf2, Hf1; done.
    + exists (e1 ++ evs2). rewrite Ht2, Ht1, (Hok1 I), <- app_assoc.
      split; [done |]. split.
      * by apply prefix_app.
      * intros Hr. by rewrite (Hok2 Hr).
  - destruct (Hm _ _ _ E1) as [Hf1 (evs1 & Ht1 & Hp1 & _)].
    split; [done |]. exists evs1. split; [done |]. split; [| done].
    by apply prefix_app_r.
Qed.

Lemma runs_bind_pure {A B} (m : M A) (k : A → M B) ps ex :
  runs m ps [] → (∀ a, runs (k a) ps ex) → runs (bind m k) ps ex.
Proof. intros Hm Hk. by apply (runs_bind m k ps [] ex). Qed.

Lemma runs_log_fault {A} (ev : event) (p : string) (k : M A) ps (e : exn) :
  (∀ w r w', k w = (r, w') →
     trace w' = trace w ∧ ∀ q, q ∉ ps → files w' !! q = files w !! q) →
  runs (log ev;; let! f := fault in if f : bool then raise e else k) ps [ev].
Proof.
  intros Hk w r w' E. unfold bind, log, fault in E. simpl in E.
  destruct (oracle w) as [|[|] o]; simpl in E.
  - apply Hk in E as [Ht Hf]. simpl in *. split; [done |].
    exists [ev]. by rewrite Ht.
  - injection E as <- <-. simpl. split; [done |]. by exists [ev].
  - apply Hk in E as [Ht Hf]. simpl in *. split; [done |].
    exists [ev]. by rewrite Ht.
Qed.

Lemma runs_open_w p : runs (open_w p) [p] [EOpenW p].
Proof.
  apply (runs_log_fault _ p). intros w r w' E.
  destruct (files w !! p) as [[|c]|]; unfold set_node in E; injection E as <- <-;
    simpl; (split; [done |]); intros q Hq; try done;
    apply lookup_insert_ne; set_solver.
Qed.

Lemma runs_fp_write p c : runs (fp_write p c) [p] [EWrite p].
Proof.
  apply (runs_log_fault _ p). intros w r w' E.
  unfold set_node in E. injection E as <- <-. simpl. split; [done |].
  intros q Hq. apply lookup_insert_ne. set_solver.
Qed.

Lemma runs_np_save p arr : runs (np_save p arr) [p] [EOpenW p; EWrite p].
Proof.
  unfold np_save. apply (runs_bind _ _ _ [EOpenW p] [EWrite p]); [apply runs_open_w |].
  intros _. destruct (forallb is_scalar arr); [apply runs_fp_write |].
  intros w r w' E. injection E as <- <-. split; [done |].
  exists []. rewrite app_nil_r. split; [done |]. split; [apply prefix_nil | done].
Qed.

Lemma runs_open_r p : runs (open_r p) [] [EOpenR p].
Proof.
  apply (runs_log_fault _ p). intros w r w' E.
  destruct (files w !! p) as [[|c]|]; injection E as <- <-; done.
Qed.

Lemma runs_os_mkdir p : runs (os_mkdir p) [p] [EMkdir p].
Proof.
  intros w r w' E. unfold os_mkdir, bind, log, os_path_exists, fault in E. simpl in E.
  destruct (bool_decide (is_Some (files w !! p))); simpl in E.
  - injection E as <- <-. simpl. split; [done |]. by exists [EMkdir p].
  - destruct (oracle w) as [|[|] o]; simpl in E; injection E as <- <-; simpl;
      (split; [| by exists [EMkdir p]]); intros q Hq; try done;
      apply lookup_insert_ne; set_solver.
Qed.

(** ** The writer's files *)

Lemma runs_write_manifest table path cols :
  runs (write_manifest table path cols) [tmp_manifest path]
    [EOpenW (tmp_manifest path); EWrite (tmp_manifest path)].
Proof.
  unfold write_manifest.
  apply (runs_bind _ _ _ [EOpenW _] [EWrite _]); [apply runs_open_w |]. intros _.
  apply runs_bind_pure; [apply runs_lift |]. intros doc. apply runs_fp_write.
Qed.

Lemma runs_write_mask path maskdatas :
  runs (write_mask path maskdatas) [mask_file path] (mask_events path maskdatas).
Proof.
  unfold write_mask, mask_events. destruct maskdatas as [|a l]; [apply runs_ret |].
  apply runs_bind_pure; [apply runs_lift |]. intros arr. apply runs_np_save.
Qed.

Lemma runs_write_datafiles path dfs :
  runs (write_datafiles path dfs) (data_paths path dfs) (data_events path dfs).
Proof.
  induction dfs as [|[k df] dfs IH]; simpl; [apply runs_ret |].
  apply (runs_bind _ _ _ [EOpenW _; EWrite _]).
  - apply runs_weaken with [os_path_join path (df_name df)]; [| set_solver].
    destruct (endswith (df_name df) ".json").
    + apply (runs_bind _ _ _ [EOpenW _] [EWrite _]); [apply runs_open_w |]. intros _.
      apply runs_bind_pure; [apply runs_lift |]. intros doc. apply runs_fp_write.
    + apply runs_bind_pure; [apply runs_lift |]. intros arr. apply runs_np_save.
  - intros _. eapply runs_weaken; [apply IH |]. set_solver.
Qed.

Lemma runs_write_files table path st :
  runs (write_files table path st)
    (tmp_manifest path :: mask_file path :: data_paths path (datafiles st))
    ([EOpenW (tmp_manifest path); EWrite (tmp_manifest path)]
     ++ mask_events path (maskdatas st) ++ data_events path (datafiles st)).
Proof.
  unfold write_files. apply runs_bind.
  - eapply runs_weaken; [apply runs_write_manifest |]. set_solver.
  - intros _. apply runs_bind.
    + eapply runs_weaken; [apply runs_write_mask |]. set_solver.
    + intros _. eapply runs_weaken; [apply runs_write_datafiles |]. set_solver.
Qed.

(** ** The names of the files of a dataset *)

Lemma default_name_prefix c : startswith (default_name c) "data." = true.
Proof. unfold default_name. destruct (is_text c); [done |]. by rewrite !str_app_cons. Qed.

Lemma startswith_cons s a pre :
  startswith s (String a pre) =
  match s with
  | EmptyString => false
  | String b s' => Ascii.eqb a b && startswith s' pre
  end.
Proof. reflexivity. Qed.

Lemma data_prefix_relative n : startswith n "data." = true → relative n ∧ n ≠ "".
Proof.
  unfold relative. rewrite startswith_cons. intros H.
  destruct n as [|a n]; [discriminate H |].
  apply andb_true_iff in H as [E _].
  apply Ascii.eqb_eq in E as <-. split; [reflexivity | discriminate].
Qed.

Lemma tmp_manifest_relative : relative "bintable.json_".
Proof. done. Qed.
Lemma final_manifest_relative : relative "bintable.json".
Proof. done. Qed.
Lemma mask_relative : relative "mask.npy".
Proof. done. Qed.

Lemma data_prefix_other n :
  startswith n "data." = true →
  n ≠ "bintable.json" ∧ n ≠ "bintable.json_" ∧ n ≠ "mask.npy".
Proof. intros H. repeat split; intros ->; discriminate. Qed.

Lemma planned_datafile m cols st k df :
  planned m cols st → (k, df) ∈ datafiles st → layout_datafile k cols = Some df.
Proof.
  intros [_ Hd Hk _ _] Hin. rewrite <- Hd. by apply df_lookup_elem.
Qed.

Lemma planned_df_name m cols st k df :
  planned m cols st → (k, df) ∈ datafiles st → startswith (df_name df) "data." = true.
Proof.
  intros Hp Hin. apply (planned_datafile _ _ _ _ _ Hp) in Hin.
  unfold layout_datafile in Hin. destruct (key_cols k cols) as [|c0 cs]; [done |].
  injection Hin as <-. apply default_name_prefix.
Qed.

Lemma planned_data_paths m cols st path q :
  planned m cols st → q ∈ data_paths path (datafiles st) →
  ∃ n, q = os_path_join path n ∧ startswith n "data." = true.
Proof.
  intros Hp Hq. unfold data_paths in Hq.
  apply list_elem_of_fmap in Hq as ([k df] & -> & Hin). simpl.
  exists (df_name df). split; [done |]. by eapply planned_df_name.
Qed.

(** No data file of a planned layout is the directory or one of the two
    manifest names. *)
Lemma planned_paths_apart m cols st path :
  planned m cols st →
  (path ∉ data_paths path (datafiles st)) ∧
  (final_manifest path ∉ data_paths path (datafiles st)) ∧
  (tmp_manifest path ∉ data_paths path (datafiles st)) ∧
  (mask_file path ∉ data_paths path (datafiles st)).
Proof.
  intros Hp. repeat split; intros Hin;
    destruct (planned_data_paths _ _ _ _ _ Hp Hin) as (n & E & Hn);
    destruct (data_prefix_relative _ Hn) as [Hr Hne];
    destruct (data_prefix_other _ Hn) as (H1 & H2 & H3).
  - symmetry in E. by apply os_path_join_neq_dir in E.
  - apply os_path_join_inj in E; done.
  - apply os_path_join_inj in E; done.
  - apply os_path_join_inj in E; done.
Qed.

Lemma manifest_paths_apart path :
  tmp_manifest path ≠ path ∧ final_manifest path ≠ path ∧ mask_file path ≠ path ∧
  tmp_manifest path ≠ final_manifest path ∧ mask_file path ≠ final_manifest path ∧
  mask_file path ≠ tmp_manifest path.
Proof.
  repeat split; try (by apply os_path_join_neq_dir);
    intros E; by apply os_path_join_inj in E.
Qed.

(** ** The directory check *)

Lemma check_directory_existing path w :
  is_Some (files w !! path) →
  check_directory path w =
  if bool_decide (is_Some (files w !! tmp_manifest path))
  then (Ok tt, w) else (Raise FileExistsError, w).
Proof.
  intros H. unfold check_directory, bind, os_path_exists, ret, raise.
  rewrite bool_decide_eq_true_2 by done.
  destruct (bool_decide (is_Some (files w !! tmp_manifest path))) eqn:E; simpl;
    [done | by rewrite E].
Qed.

Lemma check_directory_new path w :
  files w !! path = None → check_directory path w = os_mkdir path w.
Proof.
  intros H. unfold check_directory, bind, os_path_exists at 1.
  rewrite bool_decide_eq_false_2; [done |]. rewrite H. by intros [? ?].
Qed.

Lemma runs_check_directory path w r w' :
  check_directory path w = (r, w') →
  (∀ q, q ≠ path → files w' !! q = files w !! q) ∧
  trace w' = trace w ++ (match files w !! path with
                         | Some _ => []
                         | None => [EMkdir path]
                         end).
Proof.
  intros E. destruct (files w !! path) as [n|] eqn:Hp.
  - rewrite check_directory_existing in E by (by rewrite Hp).
    destruct (bool_decide _); injection E as <- <-; by rewrite app_nil_r.
  - rewrite check_directory_new in E by done.
    unfold os_mkdir, bind, log, os_path_exists, fault in E. simpl in E.
    rewrite Hp in E. rewrite bool_decide_eq_false_2 in E by (by intros [? ?]).
    destruct (oracle w) as [|[|] o]; simpl in E; injection E as <- <-; simpl;
      (split; [| done]); intros q Hq; try done; by apply lookup_insert_ne.
Qed.

Lemma os_mkdir_ok path w :
  files w !! path = None → head (oracle w) ≠ Some true →
  ∃ w1, os_mkdir path w = (Ok tt, w1) ∧ files w1 = <[path := Dir]> (files w)
        ∧ oracle w1 = tail (oracle w).
Proof.
  intros Hp Ho. unfold os_mkdir, bind, log, os_path_exists, fault. simpl.
  rewrite Hp. rewrite bool_decide_eq_false_2 by (by intros [? ?]).
  destruct (oracle w) as [|[|] o]; simpl in *; try done; by eexists.
Qed.

(** ** The rename *)

Lemma os_rename_raise src dst w e w' :
  os_rename src dst w = (Raise e, w') → files w' = files w.
Proof.
  unfold os_rename, bind, log, fault. simpl. intros E.
  destruct (oracle w) as [|[|] o]; simpl in E;
    try (by injection E as _ <-);
    destruct (files w !! src) as [[|c]|]; destruct (files w !! dst) as [[|c']|];
    try discriminate E; by injection E as _ <-.
Qed.

Lemma runs_os_rename src dst :
  runs (os_rename src dst) [src; dst] [ERename src dst].
Proof.
  apply (runs_log_fault _ src). intros w r w' E.
  destruct (files w !! src) as [[|c]|]; destruct (files w !! dst) as [[|c']|];
    injection E as <- <-; simpl; (split; [done |]); intros q Hq; try done;
    (rewrite lookup_insert_ne by set_solver); apply lookup_delete_ne; set_solver.
Qed.

(** ** [write] as its three stages *)

Lemma write_eq table path w :
  write table path w =
  match plan table with
  | Raise e => (Raise e, w)
  | Ok st =>
      match check_directory path w with
      | (Raise e, w1) => (Raise e, w1)
      | (Ok _, w1) =>
          match write_files table path st w1 with
          | (Raise e, w2) => (Raise e, w2)
          | (Ok _, w2) => os_rename (tmp_manifest path) (final_manifest path) w2
          end
      end
  end.
Proof.
  unfold write, write_files, bind, lift. destruct (plan table) as [st|e]; [| done].
  destruct (check_directory path w) as [[[]|e] w1]; [| done].
  destruct (write_manifest _ _ _ w1) as [[[]|e] w2]; [| done].
  destruct (write_mask _ _ w2) as [[[]|e] w3]; [| done].
  by destruct (write_datafiles _ _ w3) as [[[]|e] w4].
Qed.

(** * Writing without outside failures *)

Lemma open_w_ok p w :
  oracle w = [] → files w !! p ≠ Some Dir →
  ∃ w', open_w p w = (Ok tt, w') ∧ oracle w' = []
        ∧ files w' = <[p := File CRaw]> (files w).
Proof.
  intros Ho Hd. unfold open_w, bind, log, fault, set_node. simpl. rewrite Ho.
  cbn [files oracle trace].
  destruct (files w !! p) as [[|c]|]; try done; by eexists.
Qed.

Lemma fp_write_ok p c w :
  oracle w = [] →
  ∃ w', fp_write p c w = (Ok tt, w') ∧ oracle w' = []
        ∧ files w' = <[p := File c]> (files w).
Proof.
  intros Ho. unfold fp_write, bind, log, fault, set_node. simpl. rewrite Ho.
  by eexists.
Qed.

Lemma np_save_ok p arr w :
  oracle w = [] → files w !! p ≠ Some Dir → forallb is_scalar arr = true →
  ∃ w', np_save p arr w = (Ok tt, w') ∧ oracle w' = []
        ∧ files w' = <[p := File (CNpy arr)]> (files w).
Proof.
  intros Ho Hd Hs. unfold np_save.
  destruct (open_w_ok p w Ho Hd) as (w1 & E1 & Ho1 & Hf1).
  rewrite (bind_ok _ _ _ _ _ E1), Hs.
  destruct (fp_write_ok p (CNpy arr) w1 Ho1) as (w2 & E2 & Ho2 & Hf2).
  exists w2. rewrite E2, Hf2, Hf1. by rewrite insert_insert_eq.
Qed.

Lemma write_json_ok p v w :
  oracle w = [] → files w !! p ≠ Some Dir → json_ok v = true →
  ∃ w', (open_w p;; let! doc := lift (json_dumps v) in fp_write p (CJson doc)) w
        = (Ok tt, w')
        ∧ oracle w' = [] ∧ files w' = <[p := File (CJson (json_image v))]> (files w).
Proof.
  intros Ho Hd Hj.
  destruct (open_w_ok p w Ho Hd) as (w1 & E1 & Ho1 & Hf1).
  rewrite (bind_ok _ _ _ _ _ E1). unfold json_dumps. rewrite Hj.
  rewrite (bind_lift_ok _ _ (json_image v)) by done.
  destruct (fp_write_ok p (CJson (json_image v)) w1 Ho1) as (w2 & E2 & Ho2 & Hf2).
  exists w2. rewrite E2, Hf2, Hf1. by rewrite insert_insert_eq.
Qed.

Lemma write_datafile_ok path df c w :
  oracle w = [] → files w !! os_path_join path (df_name df) ≠ Some Dir →
  df_content df = Ok c →
  ∃ w', (if endswith (df_name df) ".json" then
           open_w (os_path_join path (df_name df));;
           let! doc := lift (json_dumps (PList (df_datas df))) in
           fp_write (os_path_join path (df_name df)) (CJson doc)
         else
           let! arr := lift (np_concatenate (df_datas df)) in
           np_save (os_path_join path (df_name df)) arr) w = (Ok tt, w')
        ∧ oracle w' = []
        ∧ files w' = <[os_path_join path (df_name df) := File c]> (files w).
Proof.
  intros Ho Hd Hc. unfold df_content in Hc.
  destruct (endswith (df_name df) ".json").
  - unfold json_dumps in Hc.
    destruct (json_ok (PList (df_datas df))) eqn:Hj; simpl in Hc; [| done].
    injection Hc as <-. by apply write_json_ok.
  - destruct (np_concatenate (df_datas df)) as [arr|e] eqn:Ha; simpl in Hc; [| done].
    destruct (forallb is_scalar arr) eqn:Hs; [| done]. injection Hc as <-.
    rewrite (bind_lift_ok _ _ arr) by done. by apply np_save_ok.
Qed.

Lemma write_datafiles_ok path dfs w :
  oracle w = [] →
  (∀ p, p ∈ data_paths path dfs → files w !! p ≠ Some Dir) →
  (∀ kd, kd ∈ dfs → is_ok (df_content (snd kd))) →
  NoDup (data_paths path dfs) →
  ∃ w', write_datafiles path dfs w = (Ok tt, w') ∧ oracle w' = []
        ∧ (∀ q, q ∉ data_paths path dfs → files w' !! q = files w !! q)
        ∧ (∀ kd c, kd ∈ dfs → df_content (snd kd) = Ok c →
             files w' !! os_path_join path (df_name (snd kd)) = Some (File c)).
Proof.
  revert w. induction dfs as [|[k df] dfs IH]; intros w Ho Hd Hc Hnd.
  - exists w. repeat split; try done. intros kd c Hin. by apply elem_of_nil in Hin.
  - simpl in Hnd. apply NoDup_cons in Hnd as [Hfresh Hnd].
    assert (Hdf : is_ok (df_content df)) by (apply (Hc (k, df)), list_elem_of_here).
    destruct (df_content df) as [c0|] eqn:Hc0; [| done].
    destruct (write_datafile_ok path df c0 w Ho) as (w1 & E1 & Ho1 & Hf1); [| done |].
    { apply Hd. simpl. apply list_elem_of_here. }
    destruct (IH w1 Ho1) as (w2 & E2 & Ho2 & Hout & Hin2); [| | done |].
    { intros p Hp. rewrite Hf1.
      destruct (decide (p = os_path_join path (df_name df))) as [-> | Hne].
      - by rewrite lookup_insert_eq.
      - rewrite lookup_insert_ne by done. apply Hd. simpl. by apply list_elem_of_further. }
    { intros kd Hkd. apply Hc. by apply list_elem_of_further. }
    exists w2. split.
    { simpl. rewrite (bind_ok _ _ _ _ _ E1). done. }
    split; [done |]. split.
    + intros q Hq. simpl in Hq. apply not_elem_of_cons in Hq as [Hq1 Hq2].
      rewrite Hout by done. rewrite Hf1. by apply lookup_insert_ne.
    + intros kd c Hkd Hkc. apply elem_of_cons in Hkd as [-> | Hkd].
      * simpl in *. rewrite Hout by done. rewrite Hf1, lookup_insert_eq. congruence.
      * by apply Hin2.
Qed.

Lemma os_rename_ok src dst c w :
  oracle w = [] → files w !! src = Some (File c) → files w !! dst = None →
  ∃ w', os_rename src dst w = (Ok tt, w') ∧ oracle w' = []
        ∧ files w' = <[dst := File c]> (delete src (files w)).
Proof.
  intros Ho Hs Hd. unfold os_rename, bind, log, fault. simpl. rewrite Ho.
  cbn [files oracle trace]. rewrite Hs, Hd. by eexists.
Qed.

(** ** A well-formed table has a layout *)

Lemma column_ok_plannable m c : column_ok m c → plannable m c = true.
Proof.
  intros [Hl _ _ Hd _ _ _]. unfold plannable, col_length.
  rewrite Hl, Nat.eqb_refl, orb_true_r, andb_true_r.
  destruct (is_text c); [done |]. by destruct Hd as [-> _].
Qed.

Lemma is_text_not_datetime c : is_text c = true → is_datetime c = false.
Proof.
  unfold is_text, is_datetime. intros H.
  apply orb_true_iff in H as [H | H]; apply String.eqb_eq in H; by rewrite H.
Qed.

Lemma column_ok_buffered m c : column_ok m c → buffered m c = true.
Proof.
  intros Hok. unfold buffered. destruct m; [done |]. simpl.
  destruct (is_text c) eqn:Ht.
  - by rewrite is_text_not_datetime.
  - by rewrite (ok_buffer _ _ Hok Ht eq_refl).
Qed.

Lemma table_ok_plan table : table_ok table → ∃ st, plan table = Ok st.
Proof.
  intros [_ _ _ Hc _ _]. apply plan_columns_plannable.
  - apply forallb_forall. intros c Hin. apply column_ok_plannable, Hc.
    by apply list_elem_of_In.
  - apply forallb_forall. intros c Hin. apply (column_ok_buffered _ _ (Hc c (proj2 (list_elem_of_In _ _) Hin))).
Qed.

Lemma forallb_concat {A} (f : A → bool) (ls : list (list A)) :
  (∀ l, l ∈ ls → forallb f l = true) → forallb f (concat ls) = true.
Proof.
  induction ls as [|l ls IH]; intros H; simpl; [done |].
  rewrite forallb_app, (H l) by apply list_elem_of_here. simpl.
  apply IH. intros l' Hl'. apply H. by apply list_elem_of_further.
Qed.

Lemma concat_arrays_PArr (ls : list (list pyval)) :
  concat_arrays (map PArr ls) = Ok (concat ls).
Proof. induction ls as [|l ls IH]; simpl; [done |]. by rewrite IH. Qed.

(** In a well-formed table the key ["text"] holds the text columns and
    nothing else. *)
Lemma key_text_iff m c : column_ok m c → (storage_key c = "text" ↔ is_text c = true).
Proof.
  intros Hok. unfold storage_key. destruct (is_text c) eqn:Ht; [done |].
  split; [| done]. intros E. by destruct (ok_dtype _ _ Hok Ht) as (_ & _ & ?).
Qed.

Lemma key_cols_text table k c0 c :
  table_ok table → c0 ∈ tbl_columns table → c ∈ tbl_columns table →
  storage_key c0 = k → storage_key c = k → is_text c = is_text c0.
Proof.
  intros Hok H0 Hc E0 E.
  pose proof (key_text_iff _ _ (ok_columns _ Hok _ H0)) as I0.
  pose proof (key_text_iff _ _ (ok_columns _ Hok _ Hc)) as I.
  destruct (is_text c0) eqn:T0.
  - apply I. rewrite E, <- E0. by apply I0.
  - destruct (is_text c) eqn:T; [| done].
    assert (storage_key c0 = "text") as X by (rewrite E0, <- E; by apply I).
    apply I0 in X. congruence.
Qed.

Lemma key_cols_sub k cols c : c ∈ key_cols k cols → c ∈ cols ∧ storage_key c = k.
Proof. unfold key_cols. intros H. by apply list_elem_of_filter in H as [? ?]. Qed.

Lemma layout_content table st k df :
  table_ok table → planned (tbl_masked table) (tbl_columns table) st →
  (k, df) ∈ datafiles st →
  df_name df = key_file (tbl_columns table) k
  ∧ df_content df = Ok (key_content (tbl_columns table) k).
Proof.
  intros Hok Hp Hin. apply (planned_datafile _ _ _ _ _ Hp) in Hin.
  unfold layout_datafile in Hin. unfold key_content, key_file.
  destruct (key_cols k (tbl_columns table)) as [|c0 cs] eqn:E; [done |].
  injection Hin as <-. split; [done |].
  assert (H0 : c0 ∈ tbl_columns table ∧ storage_key c0 = k).
  { apply key_cols_sub. rewrite E. apply list_elem_of_here. }
  destruct H0 as [H0 K0].
  assert (Hall : ∀ c, c ∈ c0 :: cs → c ∈ tbl_columns table ∧ is_text c = is_text c0).
  { intros c Hc. rewrite <- E in Hc. apply key_cols_sub in Hc as [Hc Kc].
    split; [done |]. by eapply key_cols_text. }
  unfold df_content. cbn [df_name df_datas]. rewrite default_name_json.
  destruct (is_text c0) eqn:T0.
  - assert (Hj : forallb json_native (concat (map (payload true) (c0 :: cs))) = true).
    { apply forallb_concat. intros l Hl.
      apply list_elem_of_fmap in Hl as (c & -> & Hc).
      destruct (Hall c Hc) as [Hc' Tc]. unfold payload.
      apply (ok_text _ _ (ok_columns _ Hok _ Hc')). by rewrite Tc. }
    change (tolist (col_data c0) (col_mask c0) ++ concat (map (payload true) cs))
      with (concat (map (payload true) (c0 :: cs))).
    by rewrite (json_native_items _ Hj).
  - assert (Hs : forallb is_scalar (concat (map (payload false) (c0 :: cs))) = true).
    { apply forallb_concat. intros l Hl.
      apply list_elem_of_fmap in Hl as (c & -> & Hc).
      destruct (Hall c Hc) as [Hc' Tc].
      by apply (ok_scalars _ _ (ok_columns _ Hok _ Hc')). }
    assert (Hc : np_concatenate (map (λ c, PArr (col_data c)) (c0 :: cs))
                 = Ok (concat (map (payload false) (c0 :: cs)))).
    { rewrite <- (map_map col_data PArr (c0 :: cs)).
      unfold np_concatenate. cbn [map]. rewrite <- (concat_arrays_PArr).
      done. }
    simpl in Hc, Hs |- *. rewrite Hc. simpl. by rewrite Hs.
Qed.

Lemma layout_paths_NoDup table st path :
  table_ok table → planned (tbl_masked table) (tbl_columns table) st →
  NoDup (data_paths path (datafiles st)).
Proof.
  intros Hok Hp. unfold data_paths. apply NoDup_fmap_2_strong.
  - intros [k1 d1] [k2 d2] H1 H2 E. simpl in E.
    destruct (layout_content _ _ _ _ Hok Hp H1) as [N1 _].
    destruct (layout_content _ _ _ _ Hok Hp H2) as [N2 _].
    pose proof (planned_df_name _ _ _ _ _ Hp H1) as P1.
    pose proof (planned_df_name _ _ _ _ _ Hp H2) as P2.
    apply os_path_join_inj in E;
      [| by apply data_prefix_relative | by apply data_prefix_relative].
    pose proof (planned_datafile _ _ _ _ _ Hp H1) as L1.
    pose proof (planned_datafile _ _ _ _ _ Hp H2) as L2.
    assert (k1 = k2) as ->.
    { simpl in *. rewrite N1, N2 in E. unfold key_file, layout_datafile in *.
      destruct (key_cols k1 (tbl_columns table)) as [|a1 l1] eqn:E1; [done |].
      destruct (key_cols k2 (tbl_columns table)) as [|a2 l2] eqn:E2; [done |].
      apply default_name_inj in E. apply key_cols_head in E1, E2. congruence. }
    f_equal. congruence.
  - eapply NoDup_fmap_1. apply (planned_keys _ _ _ Hp).
Qed.

Lemma write_mask_ok m cols path w :
  oracle w = [] → files w !! mask_file path ≠ Some Dir →
  ∃ w', write_mask path (map (fun c => PArr (map PBool (col_mask c))) (mask_cols m cols)) w
        = (Ok tt, w')
        ∧ oracle w' = []
        ∧ files w' =
          match mask_cols m cols with
          | [] => files w
          | _ => <[mask_file path := File (CNpy (mask_content m cols))]> (files w)
          end.
Proof.
  intros Ho Hd. unfold write_mask, mask_content.
  destruct (mask_cols m cols) as [|c0 cs]; [by exists w |].
  assert (Hc : np_concatenate (map (λ c, PArr (map PBool (col_mask c))) (c0 :: cs))
               = Ok (concat (map (λ c, map PBool (col_mask c)) (c0 :: cs)))).
  { rewrite <- (map_map (λ c, map PBool (col_mask c)) PArr (c0 :: cs)).
    unfold np_concatenate. cbn [map]. by rewrite <- concat_arrays_PArr. }
  cbn [map] in Hc |- *. rewrite (bind_lift_ok _ _ _ _ Hc).
  apply np_save_ok; [done | done |].
  apply forallb_concat. intros x Hx.
  change (x ∈ map (λ c, map PBool (col_mask c)) (c0 :: cs)) in Hx.
  apply list_elem_of_fmap in Hx as (c & -> & _).
  apply forallb_forall. intros v Hv. apply list_elem_of_In in Hv.
  by apply list_elem_of_fmap in Hv as (b & -> & _).
Qed.

(** A well-formed table is written to a fresh directory, and these are
    the files of the dataset. *)
Lemma write_ok table path w :
  table_ok table → fresh path w → oracle w = [] →
  ∃ st w',
    plan table = Ok st
    ∧ write table path w = (Ok tt, w')
    ∧ oracle w' = []
    ∧ files w' !! final_manifest path
      = Some (File (CJson (manifest_json table (columns st))))
    ∧ (∀ c, c ∈ tbl_columns table →
         files w' !! os_path_join path (key_file (tbl_columns table) (storage_key c))
         = Some (File (key_content (tbl_columns table) (storage_key c))))
    ∧ (mask_cols (tbl_masked table) (tbl_columns table) ≠ [] →
         files w' !! mask_file path
         = Some (File (CNpy (mask_content (tbl_masked table) (tbl_columns table))))).
Proof.
  intros Hok [Hfresh Hbelow] Ho.
  destruct (table_ok_plan _ Hok) as [st Hplan].
  pose proof (plan_planned _ _ Hplan) as Hp.
  destruct (manifest_paths_apart path) as (A1 & A2 & A3 & A4 & A5 & A6).
  destruct (planned_paths_apart _ _ _ path Hp) as (B1 & B2 & B3 & B4).
  exists st. rewrite write_eq, Hplan, check_directory_new by done.
  destruct (os_mkdir_ok path w Hfresh) as (w1 & E1 & F1 & O1); [by rewrite Ho |].
  rewrite Ho in O1. simpl in O1. rewrite E1.
  (* the manifest under its temporary name *)
  destruct (write_json_ok (tmp_manifest path) (manifest_obj table (columns st)) w1 O1)
    as (w2 & E2 & O2 & F2).
  { rewrite F1, lookup_insert_ne by done. unfold tmp_manifest. by rewrite Hbelow. }
  { rewrite json_ok_manifest. apply (ok_meta _ Hok). }
  rewrite json_image_manifest in F2.
  (* the mask file *)
  destruct (write_mask_ok (tbl_masked table) (tbl_columns table) path w2 O2)
    as (w3 & E3 & O3 & F3).
  { rewrite F2, lookup_insert_ne by done. rewrite F1, lookup_insert_ne by done.
    unfold mask_file. by rewrite Hbelow. }
  rewrite <- (planned_maskdatas _ _ _ Hp) in E3.
  assert (Hout3 : ∀ q, q ≠ path → q ≠ tmp_manifest path → q ≠ mask_file path →
                       files w3 !! q = files w !! q).
  { intros q Q1 Q2 Q3. rewrite F3.
    destruct (mask_cols _ _); [| rewrite lookup_insert_ne by done];
      rewrite F2, lookup_insert_ne by done; by rewrite F1, lookup_insert_ne. }
  (* the data files *)
  destruct (write_datafiles_ok path (datafiles st) w3 O3) as (w4 & E4 & O4 & Hout4 & Hin4).
  { intros p Hin. destruct (planned_data_paths _ _ _ _ _ Hp Hin) as (n & -> & Hn).
    rewrite Hout3; [by rewrite Hbelow by apply (data_prefix_relative _ Hn) | | |];
      intros E; rewrite E in Hin; done. }
  { intros [k df] Hin. simpl. by destruct (layout_content _ _ _ _ Hok Hp Hin) as [_ ->]. }
  { by eapply layout_paths_NoDup. }
  assert (Ewf : write_files table path st w1 = (Ok tt, w4)).
  { unfold write_files. fold (write_manifest table path (columns st)) in E2.
    unfold write_manifest. rewrite (bind_ok _ _ _ _ _ E2).
    by rewrite (bind_ok _ _ _ _ _ E3). }
  rewrite Ewf.
  (* the rename *)
  assert (Htmp : files w4 !! tmp_manifest path
                 = Some (File (CJson (manifest_json table (columns st))))).
  { rewrite Hout4 by done. rewrite F3.
    destruct (mask_cols _ _); [| rewrite lookup_insert_ne by done];
      by rewrite F2, lookup_insert_eq. }
  assert (Hfin : files w4 !! final_manifest path = None).
  { rewrite Hout4 by done. rewrite Hout3; try done.
    unfold final_manifest. by rewrite Hbelow. }
  destruct (os_rename_ok _ _ _ w4 O4 Htmp Hfin) as (w5 & E5 & O5 & F5).
  exists w5. split; [done |]. split; [done |]. split; [done |].
  split; [by rewrite F5, lookup_insert_eq |]. split.
  - intros c Hc.
    assert (Hk : key_cols (storage_key c) (tbl_columns table) ≠ [])
      by (by eapply key_cols_elem).
    pose proof (planned_datafiles _ _ _ Hp (storage_key c)) as Hl.
    unfold layout_datafile in Hl.
    destruct (key_cols (storage_key c) (tbl_columns table)) as [|c0 cs] eqn:Ek; [done |].
    apply df_lookup_Some in Hl.
    destruct (layout_content _ _ _ _ Hok Hp Hl) as [Hn Hcont].
    pose proof (Hin4 _ _ Hl Hcont) as Hfile. simpl in Hfile, Hn. rewrite Hn in Hfile.
    assert (Hdp : os_path_join path (key_file (tbl_columns table) (storage_key c))
                  ∈ data_paths path (datafiles st)).
    { unfold data_paths. apply list_elem_of_fmap. eexists (_, _). split; [| done].
      simpl. by rewrite Hn. }
    rewrite F5, lookup_insert_ne, lookup_delete_ne; [done | |];
      intros E; rewrite <- E in Hdp; done.
  - intros Hm. rewrite F5, lookup_insert_ne, lookup_delete_ne by done.
    rewrite Hout4 by done. rewrite F3.
    destruct (mask_cols _ _); [done |]. by rewrite lookup_insert_eq.
Qed.

(** * Reading without outside failures: the caches are transparent *)

Lemma open_r_quiet fs p w :
  quiet fs w →
  ∃ w', open_r p w = (read_file fs p, w') ∧ quiet fs w'.
Proof.
  intros [Ho <-]. unfold open_r, bind, log, fault, read_file. simpl. rewrite Ho.
  cbn [files oracle trace].
  destruct (files w !! p) as [[|c]|]; eexists; (split; [done |]); by split.
Qed.

Lemma np_load_quiet fs p w :
  quiet fs w →
  ∃ w', np_load p w = (read_npy fs p, w') ∧ quiet fs w'.
Proof.
  intros Hq. destruct (open_r_quiet fs p w Hq) as (w' & E & Hq').
  exists w'. split; [| done]. unfold np_load, bind, read_npy. rewrite E.
  destruct (read_file fs p) as [[v|a|]|e]; done.
Qed.

Lemma json_load_quiet fs p w :
  quiet fs w →
  ∃ w', json_load p w = (read_json fs p, w') ∧ quiet fs w'.
Proof.
  intros Hq. destruct (open_r_quiet fs p w Hq) as (w' & E & Hq').
  exists w'. split; [| done]. unfold json_load, bind, read_json. rewrite E.
  destruct (read_file fs p) as [[v|a|]|e]; done.
Qed.

(** Opening a backing file, then [backing[column["file"]]]. *)
Lemma open_backing_quiet fs path file b w :
  quiet fs w →
  (∀ f v, b !! f = Some v → load_buffer fs path f = Ok v) →
  ∃ w', quiet fs w' ∧
    match load_buffer fs path file with
    | Ok v =>
        ∃ b', open_backing path file b w = (Ok b', w') ∧ b' !! file = Some v
              ∧ (∀ f v, b' !! f = Some v → load_buffer fs path f = Ok v)
    | Raise e =>
        open_backing path file b w = (Raise e, w')
        ∨ (open_backing path file b w = (Ok b, w') ∧ b !! file = None ∧ e = KeyError)
    end.
Proof.
  intros Hq Hb. unfold open_backing.
  destruct (b !! file) as [v|] eqn:Hl.
  - exists w. split; [done |]. rewrite (Hb _ _ Hl). by exists b.
  - unfold load_buffer, assert.
    destruct (negb (str_in "/" file)) eqn:Hs; simpl;
      [| exists w; split; [done | by left]].
    rewrite (bind_lift_ok _ _ tt) by done.
    destruct (endswith file ".npy") eqn:Hn.
    + destruct (np_load_quiet fs (os_path_join path file) w Hq) as (w' & E & Hq').
      exists w'. split; [done |]. unfold bind. rewrite E.
      destruct (read_npy fs (os_path_join path file)) as [a|e] eqn:Er; simpl;
        [| by left].
      exists (<[file := PArr a]> b). split; [done |].
      split; [by rewrite lookup_insert_eq |].
      intros f v Hf. destruct (decide (f = file)) as [-> | Hne].
      * rewrite lookup_insert_eq in Hf. injection Hf as <-.
        unfold load_buffer, assert. rewrite Hs. simpl. by rewrite Hn, Er.
      * rewrite lookup_insert_ne in Hf by done. by apply Hb.
    + destruct (endswith file ".json") eqn:Hj.
      * destruct (json_load_quiet fs (os_path_join path file) w Hq) as (w' & E & Hq').
        exists w'. split; [done |]. unfold bind. rewrite E.
        destruct (read_json fs (os_path_join path file)) as [a|e] eqn:Er; simpl;
          [| by left].
        exists (<[file := a]> b). split; [done |].
        split; [by rewrite lookup_insert_eq |].
        intros f v Hf. destruct (decide (f = file)) as [-> | Hne].
        -- rewrite lookup_insert_eq in Hf. injection Hf as <-.
           unfold load_buffer, assert. rewrite Hs. simpl. by rewrite Hn, Hj, Er.
        -- rewrite lookup_insert_ne in Hf by done. by apply Hb.
      * exists w. split; [done |]. by right.
Qed.

Lemma read_column_quiet ku fs path column st w :
  quiet fs w → coherent ku fs path st →
  ∃ w', quiet fs w' ∧
    match column_of ku fs path column with
    | Ok l =>
        ∃ b mb cache,
          read_column ku path column st w = (Ok (push_column l b mb cache st), w')
          ∧ coherent ku fs path (push_column l b mb cache st)
    | Raise e => read_column ku path column st w = (Raise e, w')
    end.
Proof.
  intros Hq [Hb Hm Hu]. unfold read_column, column_of.
  unfold bind, lift, rbind.
  destruct (py_getitem column "name") as [v|e]; [| by exists w].
  destruct (as_str v) as [name|e]; [| by exists w]. clear v.
  destruct (py_getitem column "file") as [v|e]; [| by exists w].
  destruct (as_str v) as [file|e]; [| by exists w]. clear v.
  destruct (open_backing_quiet fs path file (backing st) w Hq Hb) as (w1 & Hq1 & Hopen).
  destruct (load_buffer fs path file) as [buf|e].
  2:{ exists w1. split; [done |]. destruct Hopen as [-> | (-> & -> & ->)]; done. }
  destruct Hopen as (b' & -> & Hl & Hb'). rewrite Hl.
  destruct (py_getitem column "offset") as [offset|e]; [| by exists w1].
  destruct (py_getitem column "length") as [length|e]; [| by exists w1].
  destruct (as_index offset) as [lo|e]; [| by exists w1].
  destruct (as_index length) as [len|e]; [| by exists w1].
  destruct (buffer_slice buf lo (lo + len)) as [a|e]; [| by exists w1].
  destruct (py_haskey column "maskoffset") as [has_mask|e]; [| by exists w1].
  assert (Hunits : ∀ u s,
    unitcache st !! s = Some u ∨
    (unitcache st !! s = None ∧ u = resolve_unit ku s) →
    ∀ s' u', (match unitcache st !! s with
              | Some u => (u, unitcache st)
              | None => (resolve_unit ku s, <[s := resolve_unit ku s]> (unitcache st))
              end).2 !! s' = Some u' → u' = resolve_unit ku s').
  { intros u s _ s' u'. destruct (unitcache st !! s) eqn:Ec; simpl; [apply Hu |].
    intros Hs. destruct (decide (s' = s)) as [-> | Hne].
    - rewrite lookup_insert_eq in Hs. by injection Hs as <-.
    - rewrite lookup_insert_ne in Hs by done. by apply Hu. }
  destruct has_mask; cbv beta iota.
  - assert (Hload : ∃ w2, quiet fs w2 ∧
              match maskedbacking st with
              | None => np_load (mask_file path)
              | Some mb => ret mb
              end w1 = (read_npy fs (mask_file path), w2)).
    { destruct (maskedbacking st) as [mb|] eqn:Emb.
      - exists w1. split; [done |]. by rewrite (Hm mb).
      - destruct (np_load_quiet fs (mask_file path) w1 Hq1) as (w2 & E & Hq2).
        by exists w2. }
    destruct Hload as (w2 & Hq2 & ->). unfold ret.
    destruct (read_npy fs (mask_file path)) as [mb|e] eqn:Er; [| by exists w2].
    destruct (py_getitem column "maskoffset") as [maskoffset|e]; [| by exists w2].
    destruct (as_index maskoffset) as [mlo|e]; [| by exists w2].
    destruct (masked_array a (py_slice mb mlo (mlo + len))) as [ma|e]; [| by exists w2].
    destruct (py_haskey column "unit") as [[|]|e]; [| | by exists w2].
    + destruct (py_getitem column "unit") as [v|e]; [| by exists w2].
      destruct (as_str v) as [s|e]; [| by exists w2]. clear v.
      exists w2. split; [done |].
      specialize (Hunits (resolve_unit ku s) s).
      destruct (unitcache st !! s) as [u|] eqn:Ec.
      * pose proof (Hu _ _ Ec) as ->.
        eexists _, _, _. split; [reflexivity |].
        split; simpl; [done | by intros ? [= <-] | done].
      * eexists _, _, _. split; [reflexivity |].
        split; simpl; [done | by intros ? [= <-] |]. apply Hunits. by right.
    + exists w2. split; [done |]. eexists _, _, _. split; [reflexivity |].
      split; simpl; [done | by intros ? [= <-] | done].
  - unfold ret.
    destruct (py_haskey column "unit") as [[|]|e]; [| | by exists w1].
    + destruct (py_getitem column "unit") as [v|e]; [| by exists w1].
      destruct (as_str v) as [s|e]; [| by exists w1]. clear v.
      exists w1. split; [done |].
      specialize (Hunits (resolve_unit ku s) s).
      destruct (unitcache st !! s) as [u|] eqn:Ec.
      * pose proof (Hu _ _ Ec) as ->.
        eexists _, _, _. split; [reflexivity |].
        split; simpl; done.
      * eexists _, _, _. split; [reflexivity |].
        split; simpl; [done | done |]. apply Hunits. by right.
    + exists w1. split; [done |]. eexists _, _, _. split; [reflexivity |].
      split; simpl; done.
Qed.

Lemma read_columns_quiet ku fs path cols st w :
  quiet fs w → coherent ku fs path st →
  ∃ w', quiet fs w' ∧
    match columns_of ku fs path cols with
    | Ok ls =>
        ∃ st', read_columns ku path cols st w = (Ok st', w')
               ∧ coherent ku fs path st'
               ∧ names st' = names st ++ map ld_name ls
               ∧ data st' = data st ++ map ld_data ls
               ∧ units st' = push_units ls (units st)
    | Raise e => read_columns ku path cols st w = (Raise e, w')
    end.
Proof.
  revert st w. induction cols as [|column cols IH]; intros st w Hq Hc; simpl.
  - exists w. split; [done |]. exists st. by rewrite !app_nil_r.
  - destruct (read_column_quiet ku fs path column st w Hq Hc) as (w1 & Hq1 & H1).
    unfold bind. unfold rbind at 1.
    destruct (column_of ku fs path column) as [l|e].
    2:{ exists w1. split; [done |]. by rewrite H1. }
    destruct H1 as (b & mb & cache & -> & Hc1).
    destruct (IH _ w1 Hq1 Hc1) as (w2 & Hq2 & H2).
    exists w2. split; [done |]. unfold rbind.
    destruct (columns_of ku fs path cols) as [ls|e]; [| done].
    destruct H2 as (st' & -> & Hc2 & Hn & Hd & Hu).
    exists st'. split; [done |]. split; [done |].
    rewrite Hn, Hd, Hu. simpl. by rewrite <- !app_assoc.
Qed.

Lemma coherent_init ku fs path : coherent ku fs path read_init.
Proof. split; simpl; intros; by simplify_map_eq. Qed.

(** Without outside failures [read] computes [table_of] of the files. *)
Lemma read_quiet ku fs path only w :
  quiet fs w →
  ∃ w', read ku path only w = (table_of ku fs path only, w') ∧ quiet fs w'.
Proof.
  intros Hq. unfold read, table_of.
  destruct (json_load_quiet fs (final_manifest path) w Hq) as (w1 & E1 & Hq1).
  unfold bind at 1. rewrite E1. unfold rbind at 1.
  destruct (read_json fs (final_manifest path)) as [bintable|e]; [| by exists w1].
  unfold bind, lift, rbind, ret.
  destruct (py_getitem bintable "meta") as [meta|e]; [| by exists w1].
  destruct (py_getitem bintable "masked") as [masked|e]; [| by exists w1].
  destruct (requested_columns bintable only) as [cols|e]; [| by exists w1].
  destruct (read_columns_quiet ku fs path cols read_init w1 Hq1 (coherent_init _ _ _))
    as (w2 & Hq2 & H2).
  destruct (columns_of ku fs path cols) as [ls|e].
  2:{ exists w2. by rewrite H2. }
  destruct H2 as (st' & -> & _ & -> & -> & ->). simpl.
  exists w2. split; [| done].
  destruct (new_table (map ld_name ls) meta masked (map ld_data ls)) as [t|e]; [| done].
  by destruct (attach_units (map ld_name ls) (push_units ls []) (rt_columns t)).
Qed.

(** * The table assembled by the reader *)

Lemma units_get_set n k u d :
  units_get n (units_set k u d) = if String.eqb k n then Some u else units_get n d.
Proof.
  induction d as [|[k' u'] d IH]; simpl; [done |].
  destruct (String.eqb k' k) eqn:E; simpl.
  - apply String.eqb_eq in E as ->. by destruct (String.eqb k n).
  - rewrite IH. destruct (String.eqb k' n) eqn:E'; [| done].
    apply String.eqb_eq in E' as ->. by rewrite String.eqb_sym, E.
Qed.

Lemma units_set_keys k u d :
  map fst (units_set k u d) =
  if bool_decide (k ∈ map fst d) then map fst d else map fst d ++ [k].
Proof.
  induction d as [|[k' v'] d IH]; simpl; [done |].
  destruct (String.eqb k' k) eqn:E; simpl.
  - apply String.eqb_eq in E as ->.
    rewrite bool_decide_eq_true_2; [done | apply list_elem_of_here].
  - apply String.eqb_neq in E. rewrite IH.
    destruct (bool_decide (k ∈ map fst d)) eqn:B.
    + apply bool_decide_eq_true in B.
      rewrite bool_decide_eq_true_2; [done | by apply list_elem_of_further].
    + apply bool_decide_eq_false in B.
      rewrite bool_decide_eq_false_2; [done |].
      rewrite not_elem_of_cons. split; done.
Qed.

Lemma units_get_None n d : n ∉ map fst d → units_get n d = None.
Proof.
  induction d as [|[k u] d IH]; simpl; [done |]. intros H.
  apply not_elem_of_cons in H as [H1 H2].
  destruct (String.eqb k n) eqn:E; [| auto].
  apply String.eqb_eq in E. congruence.
Qed.

Lemma push_units_keys ls us :
  NoDup (map fst us) →
  NoDup (map fst (push_units ls us))
  ∧ ∀ k, k ∈ map fst (push_units ls us) → k ∈ map fst us ∨ k ∈ map ld_name ls.
Proof.
  revert us. induction ls as [|l ls IH]; intros us Hnd; simpl; [by split; auto |].
  destruct (ld_unit l) as [u|].
  - destruct (IH (units_set (ld_name l) u us)) as [H1 H2].
    { rewrite units_set_keys. case_bool_decide; [done |].
      apply NoDup_app. repeat split; [done | | apply NoDup_singleton].
      intros x Hx Hx'. by apply list_elem_of_singleton in Hx' as ->. }
    split; [done |]. intros k Hk. apply H2 in Hk as [Hk | Hk].
    + rewrite units_set_keys in Hk. case_bool_decide; [by left |].
      apply elem_of_app in Hk as [Hk | Hk]; [by left |].
      apply list_elem_of_singleton in Hk as ->. right. apply list_elem_of_here.
    + right. by apply list_elem_of_further.
  - destruct (IH us Hnd) as [H1 H2]. split; [done |].
    intros k Hk. apply H2 in Hk as [Hk | Hk]; [by left |].
    right. by apply list_elem_of_further.
Qed.

Lemma push_units_other n ls us :
  n ∉ map ld_name ls → units_get n (push_units ls us) = units_get n us.
Proof.
  revert us. induction ls as [|l ls IH]; intros us Hn; simpl; [done |].
  simpl in Hn. apply not_elem_of_cons in Hn as [Hn1 Hn2].
  rewrite IH by done. destruct (ld_unit l) as [u|]; [| done].
  rewrite units_get_set. destruct (String.eqb (ld_name l) n) eqn:E; [| done].
  apply String.eqb_eq in E. congruence.
Qed.

Lemma push_units_get ls us l :
  NoDup (map ld_name ls) → l ∈ ls → units_get (ld_name l) us = None →
  units_get (ld_name l) (push_units ls us) = ld_unit l.
Proof.
  revert us. induction ls as [|l0 ls IH]; intros us Hnd Hin Hus.
  - by apply elem_of_nil in Hin.
  - simpl in Hnd. apply NoDup_cons in Hnd as [Hfresh Hnd]. simpl.
    apply elem_of_cons in Hin as [-> | Hin].
    + rewrite push_units_other by done.
      destruct (ld_unit l0) as [u|]; [| done].
      by rewrite units_get_set, String.eqb_refl.
    + apply IH; [done | done |].
      destruct (ld_unit l0) as [u|]; [| done].
      rewrite units_get_set. destruct (String.eqb (ld_name l0) (ld_name l)) eqn:E; [| done].
      apply String.eqb_eq in E. exfalso. apply Hfresh. rewrite E.
      apply list_elem_of_fmap. by exists l.
Qed.

Lemma attach_units_spec names us cols :
  (∀ k, k ∈ map fst us → k ∈ names) → NoDup (map fst us) →
  attach_units names us cols =
  Ok (map (fun c => with_unit c (match units_get (rc_name c) us with
                                 | Some u => Some u
                                 | None => rc_unit c
                                 end)) cols).
Proof.
  revert cols. induction us as [|[k u] us IH]; intros cols Hk Hnd; simpl.
  - f_equal. rewrite <- (map_id cols) at 1. apply map_ext. by intros [].
  - simpl in Hnd. apply NoDup_cons in Hnd as [Hfresh Hnd].
    unfold assert. rewrite bool_decide_eq_true_2 by (apply Hk, list_elem_of_here).
    simpl. rewrite IH; [| intros k' Hk'; by apply Hk, list_elem_of_further | done].
    f_equal. unfold set_unit. rewrite map_map. apply map_ext. intros c.
    destruct (String.eqb (rc_name c) k) eqn:E; simpl.
    + apply String.eqb_eq in E. rewrite E, String.eqb_refl.
      rewrite units_get_None by done. unfold with_unit. simpl. by rewrite E.
    + rewrite String.eqb_sym, E. by destruct c.
Qed.

Lemma zip_with_map_map {A B C D} (f : B → C → D) (g : A → B) (h : A → C) (l : list A) :
  zip_with f (map g l) (map h l) = map (fun x => f (g x) (h x)) l.
Proof. induction l as [|x l IH]; simpl; [done | by rewrite IH]. Qed.

(** The table built from the loaded columns. *)
Lemma assemble_table ls meta masked :
  (let? table := new_table (map ld_name ls) meta masked (map ld_data ls) in
   let? cols := attach_units (map ld_name ls) (push_units ls []) (rt_columns table) in
   Ok {| rt_columns := cols; rt_meta := rt_meta table; rt_masked := rt_masked table |})
  = if masked_flag_ok masked && bool_decide (NoDup (map ld_name ls))
       && same_lengths (map ld_data ls)
    then let? meta' := table_meta meta in
         Ok {| rt_columns := map rcolumn_of ls; rt_meta := meta'; rt_masked := masked |}
    else Raise ValueError.
Proof.
  unfold new_table.
  destruct (masked_flag_ok masked); [| done].
  destruct (bool_decide (NoDup (map ld_name ls))) eqn:Hnd; [| done].
  apply bool_decide_eq_true in Hnd.
  destruct (same_lengths (map ld_data ls)); [| done]. cbn [andb].
  destruct (table_meta meta) as [meta'|e]; [| done]. cbn [rbind rt_columns rt_meta rt_masked].
  destruct (push_units_keys ls []) as [Hk1 Hk2]; [apply NoDup_nil_2 |].
  rewrite attach_units_spec; [| | done].
  2:{ intros k Hk. apply Hk2 in Hk as [Hk | Hk]; [by apply elem_of_nil in Hk | done]. }
  simpl. f_equal. f_equal. rewrite zip_with_map_map, map_map.
  apply list_eq. intros i. rewrite !list_lookup_fmap.
  destruct (ls !! i) as [l|] eqn:El; [| done]. simpl. f_equal.
  unfold with_unit, rcolumn_of. simpl. f_equal.
  rewrite (push_units_get ls [] l Hnd); [by destruct (ld_unit l) | | done].
  by apply list_elem_of_lookup_2 in El.
Qed.

(** * Reading back what was written *)

(** ** Slices of concatenated payloads *)

Lemma py_slice_middle {A} (a p b : list A) :
  py_slice (a ++ p ++ b) (Z.of_nat (length a))
    (Z.of_nat (length a) + Z.of_nat (length p)) = p.
Proof.
  unfold py_slice, slice_bound. rewrite !length_app.
  rewrite !(proj2 (Z.ltb_ge _ 0)) by lia.
  rewrite !Z.min_l by lia.
  replace (Z.to_nat (Z.of_nat (length a) + Z.of_nat (length p) - Z.of_nat (length a)))
    with (length p) by lia.
  rewrite Nat2Z.id, drop_app_length. apply take_app_length.
Qed.

Lemma length_concat_map {A B} (f : A → list B) (len : A → nat) (xs : list A) :
  (∀ y, y ∈ xs → length (f y) = len y) →
  length (concat (map f xs)) = sum_list_with len xs.
Proof.
  induction xs as [|x xs IH]; intros H; simpl; [done |].
  rewrite length_app, (H x) by apply list_elem_of_here.
  rewrite IH; [done |]. intros y Hy. by apply H, list_elem_of_further.
Qed.

Lemma concat_slice {A B} (f : A → list B) (len : A → nat) (pre post : list A) (x : A) :
  (∀ y, y ∈ pre → length (f y) = len y) → length (f x) = len x →
  py_slice (concat (map f (pre ++ x :: post)))
    (Z.of_nat (sum_list_with len pre))
    (Z.of_nat (sum_list_with len pre) + Z.of_nat (len x)) = f x.
Proof.
  intros Hpre Hx. rewrite map_app, concat_app. simpl.
  rewrite <- (length_concat_map f len pre Hpre), <- Hx.
  apply py_slice_middle.
Qed.

Lemma length_tolist d m : length (tolist d m) = length d.
Proof.
  revert m. induction d as [|v d IH]; intros [|b m]; simpl; try done; by rewrite IH.
Qed.

Lemma length_payload j c : length (payload j c) = col_length c.
Proof. unfold payload, col_length. destruct j; [apply length_tolist | done]. Qed.

Lemma key_cols_split k cols i c :
  cols !! i = Some c → storage_key c = k →
  key_cols k cols = key_cols k (take i cols) ++ c :: key_cols k (drop (S i) cols).
Proof.
  intros H Hk. rewrite <- (take_drop_middle cols i c H) at 1.
  rewrite key_cols_app. f_equal. unfold key_cols. by rewrite filter_cons_True.
Qed.

Lemma mask_cols_split m cols i c :
  cols !! i = Some c → has_invalid m c = true →
  mask_cols m cols = mask_cols m (take i cols) ++ c :: mask_cols m (drop (S i) cols).
Proof.
  intros H Hk. rewrite <- (take_drop_middle cols i c H) at 1.
  unfold mask_cols. rewrite filter_app. f_equal. by rewrite filter_cons_True.
Qed.

(** The range of a column in its backing file holds its payload. *)
Lemma payload_slice j cols i c :
  cols !! i = Some c →
  py_slice (concat (map (payload j) (key_cols (storage_key c) cols)))
    (Z.of_nat (key_length (storage_key c) (take i cols)))
    (Z.of_nat (key_length (storage_key c) (take i cols)) + Z.of_nat (col_length c))
  = payload j c.
Proof.
  intros H. rewrite (key_cols_split _ _ _ _ H eq_refl). unfold key_length.
  apply concat_slice; [| apply length_payload]. intros y _. apply length_payload.
Qed.

(** The range of a column in the mask buffer holds its whole mask. *)
Lemma mask_slice m cols i c :
  (∀ c', c' ∈ cols → has_invalid m c' = true → length (col_mask c') = col_length c') →
  cols !! i = Some c → has_invalid m c = true →
  py_slice (mask_content m cols)
    (Z.of_nat (mask_length m (take i cols)))
    (Z.of_nat (mask_length m (take i cols)) + Z.of_nat (col_length c))
  = map PBool (col_mask c).
Proof.
  intros Hlen H Hm. unfold mask_content, mask_length.
  rewrite (mask_cols_split _ _ _ _ H Hm).
  apply (concat_slice (λ c, map PBool (col_mask c)) col_length).
  - intros y Hy. rewrite length_map.
    unfold mask_cols in Hy. apply list_elem_of_filter in Hy as [Hy1 Hy].
    apply Hlen; [| done]. by eapply subseteq_take.
  - rewrite length_map. apply Hlen; [| done]. by eapply list_elem_of_lookup_2.
Qed.

(** ** The entries of the manifest, as the reader sees them *)

Lemma entry_get_name e : py_getitem (entry_json e) "name" = Ok (PStr (ce_name e)).
Proof. done. Qed.

Lemma entry_get_file e : py_getitem (entry_json e) "file" = Ok (PStr (ce_file e)).
Proof. done. Qed.

Lemma entry_get_offset e :
  py_getitem (entry_json e) "offset" = Ok (PInt (Z.of_nat (ce_offset e))).
Proof. done. Qed.

Lemma entry_get_length e :
  py_getitem (entry_json e) "length" = Ok (PInt (Z.of_nat (ce_length e))).
Proof. done. Qed.

Lemma entry_has_maskoffset e :
  py_haskey (entry_json e) "maskoffset" = Ok (bool_decide (is_Some (ce_maskoffset e))).
Proof. unfold entry_json. by destruct (ce_maskoffset e), (ce_unit e). Qed.

Lemma entry_get_maskoffset e o :
  ce_maskoffset e = Some o →
  py_getitem (entry_json e) "maskoffset" = Ok (PInt (Z.of_nat o)).
Proof. unfold entry_json. by intros ->. Qed.

Lemma entry_has_unit e :
  py_haskey (entry_json e) "unit" = Ok (bool_decide (is_Some (ce_unit e))).
Proof. unfold entry_json. by destruct (ce_maskoffset e), (ce_unit e). Qed.

Lemma entry_get_unit e s :
  ce_unit e = Some s → py_getitem (entry_json e) "unit" = Ok (PStr s).
Proof. unfold entry_json. intros ->. by destruct (ce_maskoffset e). Qed.

(** ** Loading a column of a written dataset *)

Lemma default_name_no_sep m c : column_ok m c → str_in "/" (default_name c) = false.
Proof.
  intros Hok. unfold default_name. destruct (is_text c) eqn:Ht; [done |].
  destruct (ok_dtype _ _ Hok Ht) as (_ & Hs & _).
  rewrite !str_in_app, Hs. done.
Qed.

Lemma key_file_head table c :
  table_ok table → c ∈ tbl_columns table →
  ∃ c0, c0 ∈ tbl_columns table ∧ storage_key c0 = storage_key c
        ∧ is_text c0 = is_text c
        ∧ key_file (tbl_columns table) (storage_key c) = default_name c0.
Proof.
  intros Hok Hc. unfold key_file.
  destruct (key_cols (storage_key c) (tbl_columns table)) as [|c0 cs] eqn:E.
  - by apply (key_cols_elem _ _ _ Hc eq_refl) in E.
  - assert (H0 : c0 ∈ tbl_columns table ∧ storage_key c0 = storage_key c).
    { apply key_cols_sub. rewrite E. apply list_elem_of_here. }
    destruct H0 as [H0 K0]. exists c0. repeat split; try done.
    by eapply key_cols_text.
Qed.

Lemma load_written table path fs c :
  table_ok table → c ∈ tbl_columns table →
  fs !! os_path_join path (key_file (tbl_columns table) (storage_key c))
    = Some (File (key_content (tbl_columns table) (storage_key c))) →
  load_buffer fs path (key_file (tbl_columns table) (storage_key c)) =
  Ok (if is_text c
      then PList (concat (map (payload true) (key_cols (storage_key c) (tbl_columns table))))
      else PArr (concat (map (payload false) (key_cols (storage_key c) (tbl_columns table))))).
Proof.
  intros Hok Hc Hfs. destruct (key_file_head _ _ Hok Hc) as (c0 & H0 & K0 & T0 & Hn).
  unfold load_buffer, read_npy, read_json, read_file, assert. rewrite Hfs.
  unfold key_content. rewrite Hn, default_name_json, T0.
  rewrite (default_name_no_sep _ _ (ok_columns _ Hok _ H0)). simpl.
  unfold default_name. rewrite T0. destruct (is_text c); [done |].
  by rewrite <- str_app_assoc, npy_is_npy.
Qed.

Lemma column_of_written ku table path fs i c :
  table_ok table →
  (∀ c, c ∈ tbl_columns table →
     fs !! os_path_join path (key_file (tbl_columns table) (storage_key c))
     = Some (File (key_content (tbl_columns table) (storage_key c)))) →
  (mask_cols (tbl_masked table) (tbl_columns table) ≠ [] →
     fs !! mask_file path
     = Some (File (CNpy (mask_content (tbl_masked table) (tbl_columns table))))) →
  tbl_columns table !! i = Some c →
  column_of ku fs path
    (entry_json (layout_entry (tbl_masked table) (take i (tbl_columns table)) c))
  = Ok (read_back ku (tbl_masked table) c).
Proof.
  intros Hok Hfs Hmask Hi.
  assert (Hc : c ∈ tbl_columns table) by by eapply list_elem_of_lookup_2.
  pose proof (ok_columns _ Hok _ Hc) as Hcol.
  unfold column_of.
  rewrite entry_get_name, entry_get_file, entry_get_offset, entry_get_length,
    entry_has_maskoffset, entry_has_unit.
  cbn [rbind as_str as_index layout_entry ce_name ce_file ce_offset ce_length
       ce_maskoffset ce_unit].
  rewrite (key_file_prefix _ _ _ Hi), (load_written _ _ _ _ Hok Hc (Hfs c Hc)).
  cbn [rbind].
  assert (Hslice : buffer_slice
            (if is_text c
             then PList (concat (map (payload true)
                                   (key_cols (storage_key c) (tbl_columns table))))
             else PArr (concat (map (payload false)
                                  (key_cols (storage_key c) (tbl_columns table)))))
            (Z.of_nat (key_length (storage_key c) (take i (tbl_columns table))))
            (Z.of_nat (key_length (storage_key c) (take i (tbl_columns table)))
             + Z.of_nat (col_length c)) = Ok (col_values c)).
  { unfold col_values, buffer_slice.
    destruct (is_text c); by rewrite (payload_slice _ _ _ _ Hi). }
  rewrite Hslice. cbn [rbind]. unfold read_back.
  assert (Hunit :
    (let? u := if bool_decide (is_Some (option_map unit_str (col_unit c)))
               then let? unit_string :=
                      (let? v := py_getitem
                         (entry_json (layout_entry (tbl_masked table)
                                        (take i (tbl_columns table)) c)) "unit" in
                       as_str v) in
                    Ok (Some (resolve_unit ku unit_string))
               else Ok None in
     Ok u) = Ok (option_map (λ u, resolve_unit ku (unit_str u)) (col_unit c))).
  { destruct (col_unit c) as [u|] eqn:Eu; [| done]. cbn [option_map].
    rewrite bool_decide_eq_true_2 by done.
    rewrite (entry_get_unit _ (unit_str u)); [done |]. simpl. by rewrite Eu. }
  destruct (has_invalid (tbl_masked table) c) eqn:Hinv.
  - rewrite bool_decide_eq_true_2 by done. unfold read_npy, read_file.
    rewrite Hmask.
    2:{ intros E. assert (c ∈ mask_cols (tbl_masked table) (tbl_columns table)) as X
          by (by apply list_elem_of_filter). rewrite E in X. by apply elem_of_nil in X. }
    cbn [rbind].
    rewrite (entry_get_maskoffset _ (mask_length (tbl_masked table)
                                       (take i (tbl_columns table))))
      by (simpl; by rewrite Hinv).
    cbn [rbind as_index]. rewrite mask_slice; [| | done | done].
    2:{ intros c' Hc' _. apply (ok_mask_length _ _ (ok_columns _ Hok _ Hc')). }
    unfold masked_array. rewrite length_map.
    unfold col_values. rewrite length_payload. unfold col_length.
    rewrite (ok_mask_length _ _ Hcol), Nat.eqb_refl. cbn [rbind fst snd].
    rewrite map_map. simpl. rewrite map_id.
    destruct (let? u := _ in Ok u) eqn:E; [| done].
    injection Hunit as ->.
    revert E. unfold rbind. destruct (if bool_decide _ then _ else _); [| done].
    by intros [= ->].
  - rewrite bool_decide_eq_false_2 by (by intros [? ?]). cbn [rbind].
    destruct (let? u := _ in Ok u) eqn:E; [| done].
    injection Hunit as ->.
    revert E. unfold rbind. destruct (if bool_decide _ then _ else _); [| done].
    by intros [= ->].
Qed.

Lemma columns_of_written ku table path fs pre rest :
  table_ok table →
  (∀ c, c ∈ tbl_columns table →
     fs !! os_path_join path (key_file (tbl_columns table) (storage_key c))
     = Some (File (key_content (tbl_columns table) (storage_key c)))) →
  (mask_cols (tbl_masked table) (tbl_columns table) ≠ [] →
     fs !! mask_file path
     = Some (File (CNpy (mask_content (tbl_masked table) (tbl_columns table))))) →
  tbl_columns table = pre ++ rest →
  columns_of ku fs path (map entry_json (layout_entries (tbl_masked table) pre rest))
  = Ok (map (read_back ku (tbl_masked table)) rest).
Proof.
  intros Hok Hfs Hmask. revert pre. induction rest as [|c rest IH]; intros pre E; [done |].
  simpl.
  assert (Hi : tbl_columns table !! length pre = Some c).
  { rewrite E. by rewrite list_lookup_middle. }
  assert (Ht : take (length pre) (tbl_columns table) = pre).
  { rewrite E. apply take_app_length. }
  pose proof (column_of_written ku table path fs _ c Hok Hfs Hmask Hi) as Hcol.
  rewrite Ht in Hcol. rewrite Hcol. cbn [rbind].
  rewrite IH; [done |]. by rewrite E, <- app_assoc.
Qed.

Lemma tolist_valid d m : existsb id m = false → tolist d m = d.
Proof.
  revert m. induction d as [|v d IH]; intros [|b m] H; simpl; try done.
  - by rewrite IH.
  - simpl in H. apply orb_false_iff in H as [-> H]. by rewrite IH.
Qed.

Lemma existsb_false_replicate (m : list bool) :
  existsb id m = false → m = replicate (length m) false.
Proof.
  induction m as [|b m IH]; simpl; [done |]. intros H.
  apply orb_false_iff in H as [-> H]. by rewrite <- IH.
Qed.

Lemma read_back_invalid ku m c :
  column_ok m c → rc_invalid (rcolumn_of (read_back ku m c)) = col_mask c.
Proof.
  intros Hok. unfold rc_invalid, rcolumn_of, read_back. simpl.
  destruct (has_invalid m c) eqn:E; [done |].
  unfold col_values. rewrite length_payload. unfold col_length.
  rewrite <- (ok_mask_length _ _ Hok). symmetry. apply existsb_false_replicate.
  unfold has_invalid in E. destruct m; [done |]. by apply (ok_unmasked _ _ Hok).
Qed.

Lemma same_lengths_written ku table :
  table_ok table →
  same_lengths (map ld_data (map (read_back ku (tbl_masked table)) (tbl_columns table)))
  = true.
Proof.
  intros Hok. unfold same_lengths.
  pose proof (ok_rows _ Hok) as Hrows.
  destruct (tbl_columns table) as [|c0 cols]; [done |]. simpl.
  apply forallb_forall. intros x Hx. apply list_elem_of_In in Hx.
  apply list_elem_of_fmap in Hx as (l & -> & Hl).
  apply list_elem_of_fmap in Hl as (c & -> & Hc). simpl.
  unfold col_values. rewrite !length_payload. apply Nat.eqb_eq.
  apply Hrows; [by apply list_elem_of_further | apply list_elem_of_here].
Qed.

Lemma table_meta_mapping meta :
  (∃ kv, meta = PDict kv) → table_meta (json_image meta) = Ok (json_image meta).
Proof. by intros [kv ->]. Qed.

(** The table a reader gets from the files of a written dataset. *)
Lemma table_of_written ku table path fs st :
  table_ok table → plan table = Ok st →
  fs !! final_manifest path = Some (File (CJson (manifest_json table (columns st)))) →
  (∀ c, c ∈ tbl_columns table →
     fs !! os_path_join path (key_file (tbl_columns table) (storage_key c))
     = Some (File (key_content (tbl_columns table) (storage_key c)))) →
  (mask_cols (tbl_masked table) (tbl_columns table) ≠ [] →
     fs !! mask_file path
     = Some (File (CNpy (mask_content (tbl_masked table) (tbl_columns table))))) →
  table_of ku fs path None =
  Ok {| rt_columns :=
          map (λ c, rcolumn_of (read_back ku (tbl_masked table) c)) (tbl_columns table);
        rt_meta := json_image (tbl_meta table);
        rt_masked := PBool (tbl_masked table) |}.
Proof.
  intros Hok Hplan Hman Hfs Hmask.
  pose proof (plan_planned _ _ Hplan) as Hp.
  unfold table_of, read_json, read_file. rewrite Hman. cbn [rbind].
  change (py_getitem (manifest_json table (columns st)) "meta")
    with (Ok (json_image (tbl_meta table))).
  change (py_getitem (manifest_json table (columns st)) "masked")
    with (Ok (PBool (tbl_masked table))).
  change (requested_columns (manifest_json table (columns st)) None)
    with (Ok (map entry_json (columns st))).
  cbn [rbind]. rewrite (planned_columns _ _ _ Hp).
  rewrite (columns_of_written ku table path fs [] _ Hok Hfs Hmask eq_refl).
  cbn [rbind]. rewrite assemble_table.
  rewrite same_lengths_written by done.
  rewrite bool_decide_eq_true_2.
  2:{ rewrite map_map. apply (ok_names _ Hok). }
  cbn [masked_flag_ok andb]. rewrite (table_meta_mapping _ (ok_mapping _ Hok)).
  cbn [rbind]. by rewrite map_map.
Qed.

(** * Reading a subset of the columns *)

Ltac inv_rbind H :=
  repeat match type of H with
         | rbind ?r _ = Ok _ =>
             let E := fresh "E" in
             destruct r eqn:E; cbn [rbind] in H; [| discriminate H]
         end.

Lemma column_of_name ku fs path c l :
  column_of ku fs path c = Ok l →
  (let? v := py_getitem c "name" in as_str v) = Ok (ld_name l).
Proof.
  unfold column_of. intros H. inv_rbind H. by injection H as <-.
Qed.

Lemma columns_of_Forall2 ku fs path cols ls :
  columns_of ku fs path cols = Ok ls ↔
  Forall2 (λ c l, column_of ku fs path c = Ok l) cols ls.
Proof.
  revert ls. induction cols as [|c cols IH]; intros ls; simpl.
  - split.
    + intros [= <-]. constructor.
    + intros H. by apply Forall2_nil_inv_l in H as ->.
  - split.
    + intros H. inv_rbind H. injection H as <-. constructor; [done |]. by apply IH.
    + intros H. apply Forall2_cons_inv_l in H as (l & ls' & Hl & Hls & ->).
      rewrite Hl. cbn [rbind]. apply IH in Hls. by rewrite Hls.
Qed.

Lemma build_coldict_spec ku fs path cols ls d0 :
  Forall2 (λ c l, column_of ku fs path c = Ok l) cols ls →
  NoDup (map ld_name ls) →
  ∃ d, build_coldict cols d0 = Ok d
       ∧ (∀ n, n ∉ map ld_name ls → d !! n = d0 !! n)
       ∧ (∀ i c l, cols !! i = Some c → ls !! i = Some l → d !! ld_name l = Some c).
Proof.
  intros H. revert d0. induction H as [|c l cols ls Hc H IH]; intros d0 Hnd.
  - exists d0. by repeat split.
  - simpl in Hnd. apply NoDup_cons in Hnd as [Hfresh Hnd].
    destruct (IH (<[ld_name l := c]> d0) Hnd) as (d & Hd & HA & HB).
    exists d. simpl.
    pose proof (column_of_name _ _ _ _ _ Hc) as Hname.
    destruct (py_getitem c "name") as [v|]; [| done]. cbn [rbind] in Hname |- *.
    destruct v; try discriminate Hname. injection Hname as ->.
    split; [done |]. split.
    + intros n Hn. apply not_elem_of_cons in Hn as [Hn1 Hn2].
      rewrite HA by done. by rewrite lookup_insert_ne.
    + intros [|i] c' l' Hc' Hl'; simpl in *.
      * injection Hc' as <-. injection Hl' as <-.
        rewrite HA by done. by rewrite lookup_insert_eq.
      * by eapply HB.
Qed.

Lemma select_columns_spec ku fs path d (ls : list loaded) only :
  (∀ n, n ∈ only →
     ∃ c l, d !! n = Some c ∧ column_of ku fs path c = Ok l ∧ ld_name l = n ∧ l ∈ ls) →
  ∃ cs ls', select_columns d only = Ok cs
            ∧ columns_of ku fs path cs = Ok ls'
            ∧ map ld_name ls' = only
            ∧ (∀ l, l ∈ ls' → l ∈ ls).
Proof.
  induction only as [|n only IH]; intros H.
  - exists [], []. repeat split; try done. intros l Hl. by apply elem_of_nil in Hl.
  - destruct (H n) as (c & l & Hd & Hc & Hn & Hl); [apply list_elem_of_here |].
    destruct IH as (cs & ls' & Hs & Hcs & Hns & Hsub).
    { intros n' Hn'. by apply H, list_elem_of_further. }
    exists (c :: cs), (l :: ls'). simpl. rewrite Hd, Hs, Hc, Hcs. cbn [rbind].
    repeat split; [by rewrite Hn, Hns |].
    intros l' Hl'. apply elem_of_cons in Hl' as [-> | Hl']; auto.
Qed.

Lemma same_lengths_pairwise (data : list (list pyval * option (list bool))) :
  same_lengths data = true ↔
  ∀ x y, x ∈ data → y ∈ data → length (fst x) = length (fst y).
Proof.
  unfold same_lengths. destruct data as [|d rest].
  - split; [| done]. intros _ x y Hx. by apply elem_of_nil in Hx.
  - rewrite forallb_forall. split.
    + intros H.
      assert (Hd : ∀ x, x ∈ d :: rest → length (fst x) = length (fst d)).
      { intros x Hx. apply elem_of_cons in Hx as [-> | Hx]; [done |].
        apply Nat.eqb_eq, H. by apply list_elem_of_In. }
      intros x y Hx Hy. by rewrite (Hd x), (Hd y).
    + intros H x Hx. apply Nat.eqb_eq. apply H.
      * apply list_elem_of_further. by apply list_elem_of_In.
      * apply list_elem_of_here.
Qed.

(** Selecting columns gives the columns of the full read, in the order
    asked for. *)
Lemma table_of_select ku fs path only R :
  table_of ku fs path None = Ok R →
  NoDup only → (∀ n, n ∈ only → n ∈ map rc_name (rt_columns R)) →
  ∃ R', table_of ku fs path (Some only) = Ok R'
        ∧ map rc_name (rt_columns R') = only
        ∧ (∀ c, c ∈ rt_columns R' → c ∈ rt_columns R)
        ∧ rt_meta R' = rt_meta R ∧ rt_masked R' = rt_masked R.
Proof.
  unfold table_of. intros H Hnd Hsub.
  destruct (read_json fs (final_manifest path)) as [bintable|]; [| done].
  cbn [rbind] in *.
  destruct (py_getitem bintable "meta") as [meta|]; [| done]. cbn [rbind] in *.
  destruct (py_getitem bintable "masked") as [masked|]; [| done]. cbn [rbind] in *.
  unfold requested_columns in *.
  destruct (py_getitem bintable "columns") as [columns|]; [| done]. cbn [rbind] in *.
  destruct (py_iter columns) as [cols|]; [| done]. cbn [rbind] in *.
  destruct (columns_of ku fs path cols) as [ls|] eqn:Hls; [| done]. cbn [rbind] in *.
  rewrite assemble_table in H.
  destruct (masked_flag_ok masked) eqn:Hmf; [| done].
  destruct (bool_decide (NoDup (map ld_name ls))) eqn:Hn; [| done].
  apply bool_decide_eq_true in Hn.
  destruct (same_lengths (map ld_data ls)) eqn:Hsl; [| done].
  cbn [andb] in H. destruct (table_meta meta) as [meta'|] eqn:Hmeta; [| done].
  cbn [rbind] in H. injection H as <-. simpl in *.
  apply columns_of_Forall2 in Hls.
  destruct (build_coldict_spec ku fs path cols ls ∅ Hls Hn) as (d & -> & _ & HB).
  cbn [rbind].
  destruct (select_columns_spec ku fs path d ls only) as (cs & ls' & -> & Hcs & Hns & Hin).
  { intros n Hin. apply Hsub in Hin. rewrite map_map in Hin. simpl in Hin.
    apply list_elem_of_fmap in Hin as (l & -> & Hl).
    apply list_elem_of_lookup in Hl as [i Hi].
    destruct (Forall2_lookup_r _ _ _ _ _ Hls Hi) as (c & Hc & Hcol).
    exists c, l. repeat split; try done.
    - by eapply HB.
    - by eapply list_elem_of_lookup_2. }
  cbn [rbind]. rewrite Hcs. cbn [rbind]. rewrite assemble_table.
  rewrite Hns, bool_decide_eq_true_2, Hmf, Hmeta by done.
  assert (Hsl' : same_lengths (map ld_data ls') = true).
  { apply same_lengths_pairwise. intros x y Hx Hy.
    apply list_elem_of_fmap in Hx as (lx & -> & Hx).
    apply list_elem_of_fmap in Hy as (ly & -> & Hy).
    apply (proj1 (same_lengths_pairwise _) Hsl);
      apply list_elem_of_fmap; eexists; (split; [done |]); by apply Hin. }
  rewrite Hsl'. simpl. eexists. split; [done |]. simpl.
  split; [by rewrite map_map |]. split; [| done].
  intros c Hc. apply list_elem_of_fmap in Hc as (l & -> & Hl).
  apply list_elem_of_fmap. exists l. split; [done |]. by apply Hin.
Qed.

(** * The files a read call opens *)

Lemma opens_weaken {A} (m : M A) l l' : opens m l → l `sublist_of` l' → opens m l'.
Proof.
  intros H Hs w r w' E. destruct (H w r w' E) as [Hf (ps & Ht & Hps)].
  split; [done |]. exists ps. split; [done |]. by etrans.
Qed.

Lemma opens_pure {A} (m : M A) l : (∀ w, snd (m w) = w) → opens m l.
Proof.
  intros H w r w' E. pose proof (H w) as Hw. rewrite E in Hw. simpl in Hw. subst w'.
  split; [done |]. exists []. simpl. rewrite app_nil_r. split; [done |].
  apply sublist_nil_l.
Qed.

Lemma opens_lift {A} (r : result A) l : opens (lift r) l.
Proof. by apply opens_pure. Qed.

Lemma opens_ret {A} (a : A) l : opens (ret a) l.
Proof. by apply opens_pure. Qed.

Lemma opens_raise {A} e l : opens (@raise A e) l.
Proof. by apply opens_pure. Qed.

Lemma opens_bind {A B} (m : M A) (k : A → M B) l1 l2 :
  opens m l1 → (∀ a, opens (k a) l2) → opens (bind m k) (l1 ++ l2).
Proof.
  intros Hm Hk w r w' E. apply bind_inv in E as [(a & w1 & E1 & E2) | (e & E1 & ->)].
  - destruct (Hm _ _ _ E1) as [Hf1 (ps1 & Ht1 & Hs1)].
    destruct (Hk a _ _ _ E2) as [Hf2 (ps2 & Ht2 & Hs2)].
    split; [congruence |]. exists (ps1 ++ ps2).
    rewrite Ht2, Ht1, map_app, app_assoc. split; [done |]. by apply sublist_app.
  - destruct (Hm _ _ _ E1) as [Hf1 (ps1 & Ht1 & Hs1)].
    split; [done |]. exists ps1. split; [done |]. by apply sublist_inserts_r.
Qed.

Lemma opens_bind_pure {A B} (m : M A) (k : A → M B) l :
  opens m [] → (∀ a, opens (k a) l) → opens (bind m k) l.
Proof. intros Hm Hk. by apply (opens_bind m k [] l). Qed.

Lemma opens_open_r p : opens (open_r p) [p].
Proof.
  intros w r w' E. unfold open_r, bind, log, fault in E. simpl in E.
  assert (Hw : files w' = files w ∧ trace w' = trace w ++ [EOpenR p]).
  { destruct (oracle w) as [|[|] o]; simpl in E;
      try (by injection E as <- <-);
      cbn [files oracle trace] in E;
      destruct (files w !! p) as [[|c]|]; by injection E as <- <-. }
  destruct Hw as [Hf Ht]. split; [done |]. by exists [p].
Qed.

Lemma opens_bind_last {A B} (m : M A) (k : A → M B) l :
  opens m l → (∀ a, opens (k a) []) → opens (bind m k) l.
Proof. intros Hm Hk. rewrite <- (app_nil_r l). by apply opens_bind. Qed.

Lemma opens_np_load p : opens (np_load p) [p].
Proof.
  unfold np_load. apply opens_bind_last; [apply opens_open_r |].
  intros [v|a|]; (apply opens_ret || apply opens_raise).
Qed.

Lemma opens_json_load p : opens (json_load p) [p].
Proof.
  unfold json_load. apply opens_bind_last; [apply opens_open_r |].
  intros [v|a|]; (apply opens_ret || apply opens_raise).
Qed.

Lemma opens_open_backing path file b :
  opens (open_backing path file b)
    (if bool_decide (b !! file = None) && negb (str_in "/" file)
     then [os_path_join path file] else []).
Proof.
  unfold open_backing. destruct (b !! file) as [v|] eqn:E.
  - rewrite bool_decide_eq_false_2 by done. apply opens_ret.
  - rewrite bool_decide_eq_true_2 by done. simpl.
    unfold assert. destruct (negb (str_in "/" file)).
    + apply opens_bind_pure; [apply opens_lift |]. intros _.
      destruct (endswith file ".npy").
      * apply opens_bind_last; [apply opens_np_load |].
        intros a. apply opens_ret.
      * destruct (endswith file ".json").
        -- apply opens_bind_last; [apply opens_json_load |].
           intros a. apply opens_ret.
        -- eapply opens_weaken; [apply opens_ret | apply sublist_nil_l].
    + by apply opens_pure.
Qed.

Lemma opens_bind_lift {A B} (r : result A) (k : A → M B) l :
  (∀ a, r = Ok a → opens (k a) l) → opens (bind (lift r) k) l.
Proof.
  intros H. destruct r as [a|e]; [by apply (H a) | by apply opens_pure].
Qed.

Lemma opens_read_column ku path column st :
  opens (read_column ku path column st) (column_opens path column st).
Proof.
  unfold read_column, column_opens, column_file, has_maskoffset.
  apply opens_bind_lift. intros name _.
  apply opens_bind_lift. intros file ->.
  apply opens_bind; [apply opens_open_backing |]. intros b'.
  apply opens_bind_lift. intros a _.
  apply opens_bind_lift. intros offset _.
  apply opens_bind_lift. intros length _.
  apply opens_bind_lift. intros lo _.
  apply opens_bind_lift. intros len _.
  apply opens_bind_lift. intros a' _.
  apply opens_bind_lift. intros has_mask ->.
  apply opens_bind_last.
  - destruct has_mask; [| rewrite andb_false_r; apply opens_ret].
    rewrite andb_true_r. apply opens_bind_last.
    + destruct (maskedbacking st); [apply opens_ret | apply opens_np_load].
    + intros mb. apply opens_bind_lift. intros maskoffset _.
      apply opens_bind_lift. intros mlo _.
      apply opens_bind_lift. intros ma _. apply opens_ret.
  - intros [d mb']. apply opens_bind_lift. intros has_unit _.
    apply opens_bind_pure; [| intros [us cache]; apply opens_ret].
    destruct has_unit; [| apply opens_ret].
    apply opens_bind_lift. intros unit_string _.
    destruct (unitcache st !! unit_string); apply opens_ret.
Qed.

Lemma open_backing_ok_inv path file b w b' w' :
  open_backing path file b w = (Ok b', w') →
  (is_Some (b !! file) ∧ b' = b)
  ∨ (b !! file = None ∧ str_in "/" file = false
     ∧ (b' = b ∨ ∃ v, b' = <[file := v]> b)).
Proof.
  unfold open_backing. destruct (b !! file) as [v|] eqn:E.
  - intros [= <- <-]. left. by split.
  - intros H. right. split; [done |].
    unfold assert in H. destruct (str_in "/" file); simpl in H; [done |].
    split; [done |]. rewrite (bind_lift_ok _ _ tt) in H by done.
    destruct (endswith file ".npy").
    + apply bind_inv in H as [(a & w1 & _ & [= <- <-]) | (e & _ & ?)]; [| done].
      right. by eexists.
    + destruct (endswith file ".json").
      * apply bind_inv in H as [(a & w1 & _ & [= <- <-]) | (e & _ & ?)]; [| done].
        right. by eexists.
      * injection H as <- <-. by left.
Qed.

Ltac inv_lift H :=
  match type of H with
  | bind (lift ?r) _ _ = (Ok _, _) =>
      let E := fresh "E" in
      destruct r eqn:E;
      [rewrite (bind_lift_ok _ _ _ _ eq_refl) in H
      | rewrite (bind_lift_raise _ _ _ _ eq_refl) in H; discriminate H]
  end.

Lemma read_column_ok_inv ku path column st w st' w' :
  read_column ku path column st w = (Ok st', w') →
  ∃ file, column_file column = Ok file
    ∧ is_Some (backing st' !! file)
    ∧ (∀ f, is_Some (backing st' !! f) →
            is_Some (backing st !! f) ∨ (f = file ∧ str_in "/" f = false))
    ∧ (∀ f, is_Some (backing st !! f) → is_Some (backing st' !! f))
    ∧ (is_Some (maskedbacking st') ↔
       is_Some (maskedbacking st) ∨ has_maskoffset column = true).
Proof.
  unfold read_column, column_file, has_maskoffset. intros H.
  inv_lift H. inv_lift H.
  apply bind_inv in H as [(b' & w1 & Hopen & H) | (e & _ & ?)]; [| done].
  inv_lift H. do 6 inv_lift H.
  apply bind_inv in H as [([d mb'] & w2 & Hmask & H) | (e & _ & ?)]; [| done].
  inv_lift H.
  apply bind_inv in H as [([us cache] & w3 & _ & H) | (e & _ & ?)]; [| done].
  injection H as <- <-. simpl.
  match goal with E : (let? v := py_getitem column "file" in as_str v) = Ok ?f |- _ =>
    exists f; rename E into Hfile; rename f into file end.
  split; [done |].
  assert (Hb : is_Some (b' !! file)).
  { match goal with E : match b' !! file with _ => _ end = Ok _ |- _ =>
      destruct (b' !! file); [done | discriminate E] end. }
  split; [done |].
  apply open_backing_ok_inv in Hopen.
  split; [| split].
  - intros f Hf. destruct Hopen as [[_ ->] | (Hn & Hs & [-> | [v ->]])]; [by left .. |].
    destruct (decide (f = file)) as [-> | Hne]; [by right |].
    left. by rewrite lookup_insert_ne in Hf.
  - intros f Hf. destruct Hopen as [[_ ->] | (Hn & Hs & [-> | [v ->]])]; [done .. |].
    destruct (decide (f = file)) as [-> | Hne]; [done |].
    by rewrite lookup_insert_ne.
  - match goal with E : py_haskey column "maskoffset" = Ok ?b |- _ =>
      destruct b end.
    + apply bind_inv in Hmask as [(mb & w4 & Hl & Hmask) | (e & _ & ?)]; [| done].
      do 3 inv_lift Hmask. injection Hmask as <- <- <-.
      split; [by right | done].
    + injection Hmask as <- <- <-. split; [by left |]. by intros [? | ?].
Qed.

(** ** The caches against the trace *)

Lemma str_in_cons c a s :
  str_in c (String a s) = if Ascii.eqb a c then true else str_in c s.
Proof. reflexivity. Qed.

Lemma str_in_relative f : str_in "/" f = false → relative f.
Proof.
  unfold relative. rewrite startswith_cons. destruct f as [|a f]; [done |].
  rewrite str_in_cons, Ascii.eqb_sym.
  destruct (Ascii.eqb "/" a); [discriminate | done].
Qed.

Lemma column_opens_referenced path cols column st p :
  column ∈ cols → p ∈ column_opens path column st → referenced path cols p.
Proof.
  intros Hc. unfold column_opens.
  destruct (column_file column) as [file|] eqn:Hf; [| by intros ?%elem_of_nil].
  intros Hp. apply elem_of_app in Hp as [Hp | Hp].
  - destruct (bool_decide _ && negb (str_in "/" file)) eqn:E;
      [| by apply elem_of_nil in Hp].
    apply list_elem_of_singleton in Hp as ->.
    apply andb_true_iff in E as [_ E]. apply negb_true_iff in E.
    left. by exists column, file.
  - destruct (bool_decide _ && has_maskoffset column) eqn:E;
      [| by apply elem_of_nil in Hp].
    apply list_elem_of_singleton in Hp as ->.
    apply andb_true_iff in E as [_ E]. right. split; [done |]. by exists column.
Qed.

Lemma column_opens_fresh path cols column st ps :
  column ∈ cols → cached path cols st ps → mask_apart cols →
  NoDup (ps ++ column_opens path column st).
Proof.
  intros Hc [Hkeys Hop _ Hnd] Hma. specialize (Hnd Hma).
  assert (Hkey_mask : ∀ f, is_Some (backing st !! f) →
                           os_path_join path f ≠ mask_file path).
  { intros f Hf E. destruct (Hkeys f Hf) as (Hs & c & Hc' & Hcf).
    apply os_path_join_inj in E; [| by apply str_in_relative | done].
    subst f. by apply (Hma c Hc'). }
  unfold column_opens.
  destruct (column_file column) as [file|] eqn:Hf; [| by rewrite app_nil_r].
  assert (Hd : NoDup (ps ++ (if bool_decide (backing st !! file = None)
                                 && negb (str_in "/" file)
                              then [os_path_join path file] else []))).
  { destruct (bool_decide _ && negb (str_in "/" file)) eqn:E;
      [| by rewrite app_nil_r].
    apply andb_true_iff in E as [E1 E2]. apply bool_decide_eq_true in E1.
    apply negb_true_iff in E2.
    apply NoDup_app. split; [done |]. split; [| apply NoDup_singleton].
    intros p Hp Hp'. apply list_elem_of_singleton in Hp' as ->.
    destruct (Hop _ Hp) as [(f & Hfb & E) | [E _]].
    - destruct (Hkeys f Hfb) as (Hs & _).
      apply os_path_join_inj in E; [| by apply str_in_relative ..].
      subst f. rewrite E1 in Hfb. by destruct Hfb.
    - apply os_path_join_inj in E; [| by apply str_in_relative | done].
      subst file. by apply (Hma column Hc). }
  rewrite app_assoc.
  destruct (bool_decide (maskedbacking st = None) && has_maskoffset column) eqn:E;
    [| by rewrite app_nil_r].
  apply andb_true_iff in E as [E1 E2]. apply bool_decide_eq_true in E1.
  apply NoDup_app. split; [done |]. split; [| apply NoDup_singleton].
  intros p Hp Hp'. apply list_elem_of_singleton in Hp' as ->.
  apply elem_of_app in Hp as [Hp | Hp].
  - destruct (Hop _ Hp) as [(f & Hfb & E) | [_ Hm]].
    + symmetry in E. by apply Hkey_mask in E.
    + rewrite E1 in Hm. by destruct Hm.
  - destruct (bool_decide _ && negb (str_in "/" file)) eqn:E;
      [| by apply elem_of_nil in Hp].
    apply list_elem_of_singleton in Hp.
    apply andb_true_iff in E as [_ E]. apply negb_true_iff in E.
    symmetry in Hp. apply os_path_join_inj in Hp; [| by apply str_in_relative | done].
    subst file. by apply (Hma column Hc).
Qed.

Lemma sublist_elem_of {A} (l k : list A) x : l `sublist_of` k → x ∈ l → x ∈ k.
Proof. intros H. by apply sublist_subseteq. Qed.

Lemma read_column_cached ku path cols column st w r w' ps :
  column ∈ cols → cached path cols st ps →
  read_column ku path column st w = (r, w') →
  files w' = files w
  ∧ ∃ ps', trace w' = trace w ++ map EOpenR ps'
      ∧ (∀ p, p ∈ ps' → referenced path cols p)
      ∧ (mask_apart cols → NoDup (ps ++ ps'))
      ∧ (∀ st', r = Ok st' → cached path cols st' (ps ++ ps')).
Proof.
  intros Hc Hcached E.
  destruct (opens_read_column ku path column st w r w' E) as [Hf (ps' & Ht & Hsub)].
  split; [done |]. exists ps'. split; [done |].
  assert (Href : ∀ p, p ∈ ps' → referenced path cols p).
  { intros p Hp. eapply column_opens_referenced; [done |].
    by eapply sublist_elem_of. }
  assert (Hnd : mask_apart cols → NoDup (ps ++ ps')).
  { intros Hma.
    apply (sublist_NoDup (ps ++ ps') (ps ++ column_opens path column st)).
    - by eapply column_opens_fresh.
    - by apply sublist_app. }
  split; [done |]. split; [done |].
  intros st' ->. apply read_column_ok_inv in E
    as (file & Hfile & Hin & Hnew & Hold & Hmask).
  destruct Hcached as [Hkeys Hop Hrefs _]. split.
  - intros f Hfb. apply Hnew in Hfb as [Hfb | [-> Hs]]; [by apply Hkeys |].
    split; [done |]. by exists column.
  - intros p Hp. apply elem_of_app in Hp as [Hp | Hp].
    + destruct (Hop _ Hp) as [(f & Hfb & ->) | [-> Hm]].
      * left. exists f. split; [by apply Hold | done].
      * right. split; [done |]. apply Hmask. by left.
    + apply (sublist_elem_of _ _ _ Hsub) in Hp. unfold column_opens in Hp.
      rewrite Hfile in Hp. apply elem_of_app in Hp as [Hp | Hp].
      * destruct (bool_decide _ && negb (str_in "/" file));
          [| by apply elem_of_nil in Hp].
        apply list_elem_of_singleton in Hp as ->. left. by exists file.
      * destruct (bool_decide _ && has_maskoffset column) eqn:Eb;
          [| by apply elem_of_nil in Hp].
        apply list_elem_of_singleton in Hp as ->.
        apply andb_true_iff in Eb as [_ Eb]. right. split; [done |].
        apply Hmask. by right.
  - intros p Hp. apply elem_of_app in Hp as [Hp | Hp]; auto.
  - done.
Qed.

Lemma read_columns_cached ku path cols rest st w r w' ps :
  (∀ c, c ∈ rest → c ∈ cols) → cached path cols st ps →
  read_columns ku path rest st w = (r, w') →
  files w' = files w
  ∧ ∃ ps', trace w' = trace w ++ map EOpenR ps'
      ∧ (∀ p, p ∈ ps ++ ps' → referenced path cols p)
      ∧ (mask_apart cols → NoDup (ps ++ ps'))
      ∧ (∀ st', r = Ok st' → cached path cols st' (ps ++ ps')).
Proof.
  revert st w ps. induction rest as [|column rest IH]; intros st w ps Hsub Hc E.
  - injection E as <- <-. split; [done |]. exists []. simpl.
    rewrite !app_nil_r. split; [done |].
    split; [apply (cached_referenced _ _ _ _ Hc) |].
    split; [apply (cached_once _ _ _ _ Hc) |]. by intros st' [= <-].
  - simpl in E. apply bind_inv in E as [(st1 & w1 & E1 & E2) | (e & E1 & ->)].
    + destruct (read_column_cached ku path cols column st w _ w1 ps
                  (Hsub _ (list_elem_of_here _ _)) Hc E1)
        as [Hf1 (ps1 & Ht1 & Hr1 & Hn1 & Hc1)].
      destruct (IH st1 w1 (ps ++ ps1)) with (1 := λ c Hx, Hsub c (list_elem_of_further _ _ _ Hx))
        (2 := Hc1 st1 eq_refl) (3 := E2)
        as [Hf2 (ps2 & Ht2 & Hr2 & Hn2 & Hc2)].
      split; [congruence |]. exists (ps1 ++ ps2).
      rewrite Ht2, Ht1, map_app, !app_assoc. done.
    + destruct (read_column_cached ku path cols column st w _ w' ps
                  (Hsub _ (list_elem_of_here _ _)) Hc E1)
        as [Hf1 (ps1 & Ht1 & Hr1 & Hn1 & Hc1)].
      split; [done |]. exists ps1. split; [done |].
      split; [| split; [done | done]].
      intros p Hp. apply elem_of_app in Hp as [Hp | Hp]; [| auto].
      by apply (cached_referenced _ _ _ _ Hc).
Qed.

Lemma cached_init path cols : cached path cols read_init [].
Proof.
  split; simpl.
  - intros f [v Hv]. by rewrite lookup_empty in Hv.
  - intros p Hp. by apply elem_of_nil in Hp.
  - intros p Hp. by apply elem_of_nil in Hp.
  - intros _. apply NoDup_nil_2.
Qed.

Lemma json_load_inv p w r w' :
  json_load p w = (r, w') →
  files w' = files w ∧ trace w' = trace w ++ [EOpenR p]
  ∧ ∀ v, r = Ok v → files w !! p = Some (File (CJson v)).
Proof.
  unfold json_load, open_r, bind, log, fault. simpl. intros E.
  destruct (oracle w) as [|[|] o]; simpl in E;
    try (injection E as <- <-; by repeat split);
    cbn [files oracle trace] in E;
    destruct (files w !! p) as [[|[v|a|]]|]; injection E as <- <-;
    repeat split; try done; by intros ? [= <-].
Qed.

(** What a read call opens: the manifest, then backing files of the
    requested columns. *)
Lemma read_opens ku path only w r w' :
  read ku path only w = (r, w') →
  files w' = files w
  ∧ ∃ ps, trace w' = trace w ++ EOpenR (final_manifest path) :: map EOpenR ps
      ∧ (ps = []
         ∨ ∃ bintable cols,
             files w !! final_manifest path = Some (File (CJson bintable))
             ∧ requested_columns bintable only = Ok cols
             ∧ (∀ p, p ∈ ps → referenced path cols p)
             ∧ (mask_apart cols → NoDup ps)).
Proof.
  unfold read. intros E.
  apply bind_inv in E as [(bintable & w1 & E1 & E) | (e & E1 & ->)].
  2:{ apply json_load_inv in E1 as (Hf & Ht & _). split; [done |].
      exists []. split; [done | by left]. }
  apply json_load_inv in E1 as (Hf1 & Ht1 & Hman). specialize (Hman _ eq_refl).
  assert (Hstop : ∀ w2, w2 = w1 →
            files w2 = files w
            ∧ ∃ ps, trace w2 = trace w ++ EOpenR (final_manifest path) :: map EOpenR ps
                ∧ (ps = []
                   ∨ ∃ bintable cols,
                       files w !! final_manifest path = Some (File (CJson bintable))
                       ∧ requested_columns bintable only = Ok cols
                       ∧ (∀ p, p ∈ ps → referenced path cols p)
                       ∧ (mask_apart cols → NoDup ps))).
  { intros w2 ->. split; [done |]. exists []. split; [done | by left]. }
  destruct (py_getitem bintable "meta") as [meta|e] eqn:Em;
    [rewrite (bind_lift_ok _ _ _ _ eq_refl) in E
    | rewrite (bind_lift_raise _ _ _ _ eq_refl) in E; injection E as <- <-; by apply Hstop].
  destruct (py_getitem bintable "masked") as [masked|e] eqn:Ek;
    [rewrite (bind_lift_ok _ _ _ _ eq_refl) in E
    | rewrite (bind_lift_raise _ _ _ _ eq_refl) in E; injection E as <- <-; by apply Hstop].
  destruct (requested_columns bintable only) as [cols|e] eqn:Ec;
    [rewrite (bind_lift_ok _ _ _ _ eq_refl) in E
    | rewrite (bind_lift_raise _ _ _ _ eq_refl) in E; injection E as <- <-; by apply Hstop].
  assert (Hloop : ∀ r2 w2, read_columns ku path cols read_init w1 = (r2, w2) →
            files w2 = files w
            ∧ ∃ ps, trace w2 = trace w ++ EOpenR (final_manifest path) :: map EOpenR ps
                ∧ (ps = []
                   ∨ ∃ bintable cols,
                       files w !! final_manifest path = Some (File (CJson bintable))
                       ∧ requested_columns bintable only = Ok cols
                       ∧ (∀ p, p ∈ ps → referenced path cols p)
                       ∧ (mask_apart cols → NoDup ps))).
  { intros r2 w2 E2.
    destruct (read_columns_cached ku path cols cols read_init w1 r2 w2 []
                (λ c H, H) (cached_init path cols) E2)
      as [Hf2 (ps & Ht2 & Hr & Hn & _)].
    split; [congruence |]. exists ps. rewrite Ht2, Ht1, <- app_assoc.
    split; [done |]. right. by exists bintable, cols. }
  apply bind_inv in E as [(st & w2 & E2 & E) | (e & E2 & ->)]; [| by eapply Hloop].
  apply Hloop in E2.
  destruct (new_table (names st) meta masked (data st)) as [t|e];
    [rewrite (bind_lift_ok _ _ _ _ eq_refl) in E
    | rewrite (bind_lift_raise _ _ _ _ eq_refl) in E; by injection E as <- <-].
  destruct (attach_units (names st) (units st) (rt_columns t)) as [cs|e];
    [rewrite (bind_lift_ok _ _ _ _ eq_refl) in E
    | rewrite (bind_lift_raise _ _ _ _ eq_refl) in E; by injection E as <- <-].
  by injection E as <- <-.
Qed.

(** ** A path separator in a file name *)






(** * What a successful write leaves on disk *)

Lemma fp_write_ok_inv p c w w' :
  fp_write p c w = (Ok tt, w') → files w' = <[p := File c]> (files w).
Proof.
  unfold fp_write, bind, log, fault, set_node, raise. simpl. intros E.
  destruct (oracle w) as [|[|] o]; simpl in E; try discriminate E;
    by injection E as <-.
Qed.

Lemma np_save_ok_inv p arr w w' :
  np_save p arr w = (Ok tt, w') → files w' !! p = Some (File (CNpy arr)).
Proof.
  unfold np_save. intros E.
  apply bind_inv in E as [([] & w1 & _ & E) | (e & _ & ?)]; [| done].
  destruct (forallb is_scalar arr); [| done].
  apply fp_write_ok_inv in E. by rewrite E, lookup_insert_eq.
Qed.

Lemma write_manifest_ok_inv table path cols w w' :
  write_manifest table path cols w = (Ok tt, w') →
  files w' !! tmp_manifest path = Some (File (CJson (manifest_json table cols))).
Proof.
  unfold write_manifest. intros E.
  apply bind_inv in E as [([] & w1 & _ & E) | (e & _ & ?)]; [| done].
  unfold json_dumps in E. rewrite json_image_manifest in E.
  destruct (json_ok (manifest_obj table cols)).
  - rewrite (bind_lift_ok _ _ _ _ eq_refl) in E.
    apply fp_write_ok_inv in E. by rewrite E, lookup_insert_eq.
  - by rewrite (bind_lift_raise _ _ _ _ eq_refl) in E.
Qed.

Lemma write_mask_ok_inv m cols path w w' :
  mask_cols m cols ≠ [] →
  write_mask path (map (fun c => PArr (map PBool (col_mask c))) (mask_cols m cols)) w
  = (Ok tt, w') →
  files w' !! mask_file path = Some (File (CNpy (mask_content m cols))).
Proof.
  intros Hne. unfold write_mask, mask_content.
  destruct (mask_cols m cols) as [|c0 cs]; [done |].
  assert (Hc : np_concatenate (map (λ c, PArr (map PBool (col_mask c))) (c0 :: cs))
               = Ok (concat (map (λ c, map PBool (col_mask c)) (c0 :: cs)))).
  { rewrite <- (map_map (λ c, map PBool (col_mask c)) PArr (c0 :: cs)).
    unfold np_concatenate. cbn [map]. by rewrite <- concat_arrays_PArr. }
  cbn [map] in Hc |- *. rewrite (bind_lift_ok _ _ _ _ Hc).
  apply np_save_ok_inv.
Qed.

Lemma os_rename_ok_inv src dst w w' :
  os_rename src dst w = (Ok tt, w') →
  files w' !! dst = files w !! src
  ∧ ∀ q, q ≠ src → q ≠ dst → files w' !! q = files w !! q.
Proof.
  unfold os_rename, bind, log, fault, raise. simpl. intros E.
  destruct (oracle w) as [|[|] o]; simpl in E; try done;
    cbn [files oracle trace] in E;
    destruct (files w !! src) as [[|c]|] eqn:Es; try done;
    destruct (files w !! dst) as [[|c']|] eqn:Ed; try done;
    injection E as <-; simpl;
    (split; [by rewrite lookup_insert_eq |]);
    intros q Q1 Q2; by rewrite lookup_insert_ne, lookup_delete_ne.
Qed.

(** The committed manifest and the mask file after a write that returned. *)
Lemma write_ok_inv table path w w' :
  write table path w = (Ok tt, w') →
  ∃ st, plan table = Ok st
    ∧ files w' !! final_manifest path
      = Some (File (CJson (manifest_json table (columns st))))
    ∧ (mask_cols (tbl_masked table) (tbl_columns table) ≠ [] →
       files w' !! mask_file path
       = Some (File (CNpy (mask_content (tbl_masked table) (tbl_columns table))))).
Proof.
  rewrite write_eq. destruct (plan table) as [st|] eqn:Hplan; [| done].
  pose proof (plan_planned _ _ Hplan) as Hp.
  destruct (manifest_paths_apart path) as (A1 & A2 & A3 & A4 & A5 & A6).
  destruct (planned_paths_apart _ _ _ path Hp) as (B1 & B2 & B3 & B4).
  destruct (check_directory path w) as [[[]|] w1]; [| done].
  destruct (write_files table path st w1) as [[[]|] w2] eqn:Ef; [| done].
  intros Er. exists st. split; [done |].
  unfold write_files in Ef.
  apply bind_inv in Ef as [([] & wa & Ea & Ef) | (e & _ & ?)]; [| done].
  apply bind_inv in Ef as [([] & wb & Eb & Ef) | (e & _ & ?)]; [| done].
  apply write_manifest_ok_inv in Ea.
  destruct (runs_write_mask _ _ _ _ _ Eb) as [Hfb _].
  destruct (runs_write_datafiles _ _ _ _ _ Ef) as [Hfd _].
  apply os_rename_ok_inv in Er as [Hdst Hother].
  split.
  - rewrite Hdst, Hfd by done. rewrite Hfb by set_solver. done.
  - intros Hne. rewrite Hother by done. rewrite Hfd by done.
    rewrite (planned_maskdatas _ _ _ Hp) in Eb.
    by apply (write_mask_ok_inv _ _ _ _ _ Hne Eb).
Qed.

(** ** The data files after the three writing stages *)

Lemma planned_paths_NoDup m cols st path :
  planned m cols st → NoDup (data_paths path (datafiles st)).
Proof.
  intros Hp. unfold data_paths. apply NoDup_fmap_2_strong.
  - intros [k1 d1] [k2 d2] H1 H2 E. simpl in E.
    pose proof (planned_df_name _ _ _ _ _ Hp H1) as P1.
    pose proof (planned_df_name _ _ _ _ _ Hp H2) as P2.
    apply os_path_join_inj in E;
      [| by apply data_prefix_relative | by apply data_prefix_relative].
    pose proof (planned_datafile _ _ _ _ _ Hp H1) as L1.
    pose proof (planned_datafile _ _ _ _ _ Hp H2) as L2.
    assert (k1 = k2) as ->.
    { unfold layout_datafile in *.
      destruct (key_cols k1 cols) as [|a1 l1] eqn:E1; [done |].
      destruct (key_cols k2 cols) as [|a2 l2] eqn:E2; [done |].
      injection L1 as <-. injection L2 as <-. simpl in E.
      apply default_name_inj in E. apply key_cols_head in E1, E2. congruence. }
    f_equal. congruence.
  - eapply NoDup_fmap_1. apply (planned_keys _ _ _ Hp).
Qed.

Lemma write_json_ok_inv p v w w' :
  (open_w p;; let! doc := lift (json_dumps v) in fp_write p (CJson doc)) w = (Ok tt, w') →
  ∃ doc, json_dumps v = Ok doc ∧ files w' !! p = Some (File (CJson doc)).
Proof.
  intros E. apply bind_inv in E as [([] & w1 & _ & E) | (e & _ & ?)]; [| done].
  destruct (json_dumps v) as [doc|e] eqn:Ed.
  - rewrite (bind_lift_ok _ _ _ _ eq_refl) in E. exists doc. split; [done |].
    apply fp_write_ok_inv in E. by rewrite E, lookup_insert_eq.
  - by rewrite (bind_lift_raise _ _ _ _ eq_refl) in E.
Qed.

Lemma write_datafile_ok_inv path df w w' :
  (if endswith (df_name df) ".json" then
     open_w (os_path_join path (df_name df));;
     let! doc := lift (json_dumps (PList (df_datas df))) in
     fp_write (os_path_join path (df_name df)) (CJson doc)
   else
     let! arr := lift (np_concatenate (df_datas df)) in
     np_save (os_path_join path (df_name df)) arr) w = (Ok tt, w') →
  ∃ c, df_content df = Ok c
       ∧ files w' !! os_path_join path (df_name df) = Some (File c).
Proof.
  unfold df_content. destruct (endswith (df_name df) ".json").
  - intros E. apply write_json_ok_inv in E as (doc & -> & Hf). by exists (CJson doc).
  - intros E. destruct (np_concatenate (df_datas df)) as [arr|e] eqn:Ea.
    + rewrite (bind_lift_ok _ _ _ _ eq_refl) in E. cbn [rbind].
      pose proof (np_save_ok_inv _ _ _ _ E) as Hf.
      unfold np_save in E.
      apply bind_inv in E as [([] & w1 & _ & E) | (e & _ & ?)]; [| done].
      destruct (forallb is_scalar arr); [| done]. by exists (CNpy arr).
    + by rewrite (bind_lift_raise _ _ _ _ eq_refl) in E.
Qed.

Lemma write_datafiles_ok_inv path dfs w w' :
  write_datafiles path dfs w = (Ok tt, w') → NoDup (data_paths path dfs) →
  ∀ k df, (k, df) ∈ dfs →
    ∃ c, df_content df = Ok c
         ∧ files w' !! os_path_join path (df_name df) = Some (File c).
Proof.
  revert w. induction dfs as [|[k0 df0] dfs IH]; intros w E Hnd k df Hin.
  - by apply elem_of_nil in Hin.
  - simpl in E, Hnd. apply NoDup_cons in Hnd as [Hfresh Hnd].
    apply bind_inv in E as [([] & w1 & E1 & E) | (e & _ & ?)]; [| done].
    apply elem_of_cons in Hin as [[= -> ->] | Hin].
    + destruct (write_datafile_ok_inv _ _ _ _ E1) as (c & Hc & Hf).
      exists c. split; [done |].
      destruct (runs_write_datafiles _ _ _ _ _ E) as [Hrest _].
      by rewrite Hrest.
    + by apply (IH w1 E Hnd k df).
Qed.

Lemma write_files_ok_inv table path st w w' :
  planned (tbl_masked table) (tbl_columns table) st →
  write_files table path st w = (Ok tt, w') →
  files_complete table path st (files w').
Proof.
  intros Hp Ef. destruct (planned_paths_apart _ _ _ path Hp) as (B1 & B2 & B3 & B4).
  unfold write_files in Ef.
  apply bind_inv in Ef as [([] & wa & Ea & Ef) | (e & _ & ?)]; [| done].
  apply bind_inv in Ef as [([] & wb & Eb & Ef) | (e & _ & ?)]; [| done].
  split.
  - apply (write_datafiles_ok_inv _ _ _ _ Ef), (planned_paths_NoDup _ _ _ _ Hp).
  - intros Hne. destruct (runs_write_datafiles _ _ _ _ _ Ef) as [Hfd _].
    rewrite Hfd by done. rewrite (planned_maskdatas _ _ _ Hp) in Eb.
    by apply (write_mask_ok_inv _ _ _ _ _ Hne Eb).
Qed.

Lemma write_files_ok_tmp_manifest table path st w w' :
  planned (tbl_masked table) (tbl_columns table) st →
  write_files table path st w = (Ok tt, w') →
  files w' !! tmp_manifest path = Some (File (CJson (manifest_json table (columns st)))).
Proof.
  intros Hp Ef. destruct (manifest_paths_apart path) as (A1 & A2 & A3 & A4 & A5 & A6).
  destruct (planned_paths_apart _ _ _ path Hp) as (B1 & B2 & B3 & B4).
  unfold write_files in Ef.
  apply bind_inv in Ef as [([] & wa & Ea & Ef) | (e & _ & ?)]; [| done].
  apply bind_inv in Ef as [([] & wb & Eb & Ef) | (e & _ & ?)]; [| done].
  apply write_manifest_ok_inv in Ea.
  destruct (runs_write_mask _ _ _ _ _ Eb) as [Hfb _].
  destruct (runs_write_datafiles _ _ _ _ _ Ef) as [Hfd _].
  rewrite Hfd by done. rewrite Hfb; [done |].
  intros Hq. apply list_elem_of_singleton in Hq. by symmetry in Hq.
Qed.

(** The three writing stages do not rename. *)
Lemma write_files_events_no_rename path st src dst :
  ERename src dst ∉ [EOpenW (tmp_manifest path); EWrite (tmp_manifest path)]
                    ++ mask_events path (maskdatas st)
                    ++ data_events path (datafiles st).
Proof.
  intros Hin. apply elem_of_app in Hin as [Hin | Hin].
  { apply elem_of_cons in Hin as [? | Hin]; [done |].
    by apply list_elem_of_singleton in Hin. }
  apply elem_of_app in Hin as [Hin | Hin].
  - unfold mask_events in Hin. destruct (maskdatas st); [by apply elem_of_nil in Hin |].
    apply elem_of_cons in Hin as [? | Hin]; [done |].
    by apply list_elem_of_singleton in Hin.
  - unfold data_events in Hin. apply list_elem_of_In, in_flat_map in Hin as (p & _ & Hin).
    apply list_elem_of_In in Hin.
    apply elem_of_cons in Hin as [? | Hin]; [done |].
    by apply list_elem_of_singleton in Hin.
Qed.

(** The rename leaves the files of the layout as they are. *)
Lemma files_complete_rename table path st w r w' :
  planned (tbl_masked table) (tbl_columns table) st →
  os_rename (tmp_manifest path) (final_manifest path) w = (r, w') →
  files_complete table path st (files w) → files_complete table path st (files w').
Proof.
  intros Hp Er [Hd Hm].
  destruct (manifest_paths_apart path) as (A1 & A2 & A3 & A4 & A5 & A6).
  destruct (planned_paths_apart _ _ _ path Hp) as (B1 & B2 & B3 & B4).
  destruct (runs_os_rename _ _ _ _ _ Er) as [Hf _].
  split.
  - intros k df Hin. destruct (Hd k df Hin) as (c & Hc & Hfile).
    exists c. split; [done |]. rewrite Hf; [done |].
    assert (Hp' : os_path_join path (df_name df) ∈ data_paths path (datafiles st)).
    { unfold data_paths. apply list_elem_of_fmap. by exists (k, df). }
    intros Hq. apply elem_of_cons in Hq as [Hq | Hq]; [by rewrite Hq in Hp' |].
    apply list_elem_of_singleton in Hq. by rewrite Hq in Hp'.
  - intros Hne. rewrite Hf; [by apply Hm |].
    intros Hq. apply elem_of_cons in Hq as [Hq | Hq]; [done |].
    by apply list_elem_of_singleton in Hq.
Qed.

(** ** Contiguity, in terms of the entries alone *)

Lemma layout_entry_file table st i c e :
  planned (tbl_masked table) (tbl_columns table) st →
  tbl_columns table !! i = Some c → columns st !! i = Some e →
  e = layout_entry (tbl_masked table) (take i (tbl_columns table)) c
  ∧ ce_file e = key_file (tbl_columns table) (storage_key c).
Proof.
  intros Hp Hc He. rewrite (planned_entry _ _ _ _ _ Hp Hc) in He.
  injection He as <-. split; [done |]. simpl. by apply key_file_prefix.
Qed.

Lemma file_length_layout table st c n :
  planned (tbl_masked table) (tbl_columns table) st → c ∈ tbl_columns table →
  file_length (key_file (tbl_columns table) (storage_key c)) (take n (columns st))
  = key_length (storage_key c) (take n (tbl_columns table)).
Proof.
  intros Hp Hc. induction n as [|n IH]; [done |].
  destruct (tbl_columns table !! n) as [cn|] eqn:En.
  - pose proof (planned_entry _ _ _ _ _ Hp En) as Hen.
    destruct (layout_entry_file _ _ _ _ _ Hp En Hen) as [_ Hfile].
    rewrite (take_S_r _ _ _ En), (take_S_r _ _ _ Hen).
    unfold file_length, key_length, key_cols in *.
    rewrite !filter_app, !sum_list_with_app, IH. f_equal.
    assert (Hcn : cn ∈ tbl_columns table) by by eapply list_elem_of_lookup_2.
    destruct (decide (storage_key cn = storage_key c)) as [Ek | Ek].
    + rewrite !filter_cons_True; [done | done |]. by rewrite Hfile, Ek.
    + rewrite !filter_cons_False; [done | done |].
      rewrite Hfile. intros E. by apply key_file_inj in E.
  - apply lookup_ge_None in En.
    assert (Hlen : length (columns st) = length (tbl_columns table))
      by (by rewrite (planned_columns _ _ _ Hp), layout_entries_length).
    rewrite (take_ge (columns st) (S n)), (take_ge (tbl_columns table) (S n)) by lia.
    rewrite (take_ge (columns st) n), (take_ge (tbl_columns table) n) in IH by lia.
    done.
Qed.

Lemma masks_length_layout table st n :
  planned (tbl_masked table) (tbl_columns table) st →
  masks_length (take n (columns st))
  = mask_length (tbl_masked table) (take n (tbl_columns table)).
Proof.
  intros Hp. induction n as [|n IH]; [done |].
  destruct (tbl_columns table !! n) as [cn|] eqn:En.
  - pose proof (planned_entry _ _ _ _ _ Hp En) as Hen.
    rewrite (take_S_r _ _ _ En), (take_S_r _ _ _ Hen).
    unfold masks_length, mask_length, mask_cols in *.
    rewrite !filter_app, !sum_list_with_app, IH. f_equal.
    destruct (has_invalid (tbl_masked table) cn) eqn:Ei.
    + rewrite !filter_cons_True; [done | done |]. simpl. by rewrite Ei.
    + rewrite !filter_cons_False; [done | congruence |]. simpl. rewrite Ei.
      by intros [? ?].
  - apply lookup_ge_None in En.
    assert (Hlen : length (columns st) = length (tbl_columns table))
      by (by rewrite (planned_columns _ _ _ Hp), layout_entries_length).
    rewrite (take_ge (columns st) (S n)), (take_ge (tbl_columns table) (S n)) by lia.
    rewrite (take_ge (columns st) n), (take_ge (tbl_columns table) n) in IH by lia.
    done.
Qed.

(** ** The requested columns of a written manifest *)

Lemma build_coldict_values cs d0 d n c :
  build_coldict cs d0 = Ok d → d !! n = Some c → c ∈ cs ∨ d0 !! n = Some c.
Proof.
  revert d0. induction cs as [|c0 cs IH]; intros d0 H Hd; simpl in H.
  - injection H as <-. by right.
  - destruct (py_getitem c0 "name") as [v|]; [| done]. cbn [rbind] in H.
    assert (Hskip : ∀ d1, build_coldict cs d1 = Ok d → d1 = d0 →
                          c ∈ c0 :: cs ∨ d0 !! n = Some c).
    { intros d1 H1 ->. destruct (IH _ H1 Hd) as [Hin | Hl]; [| by right].
      left. by apply list_elem_of_further. }
    destruct v as [| | | |n0| | | | |];
      try (destruct (hashable _); [by apply (Hskip d0) | done]).
    destruct (IH _ H Hd) as [Hin | Hl].
    + left. by apply list_elem_of_further.
    + destruct (decide (n0 = n)) as [-> | Hne].
      * rewrite lookup_insert_eq in Hl. injection Hl as <-. left. apply list_elem_of_here.
      * rewrite lookup_insert_ne in Hl by done. by right.
Qed.

Lemma select_columns_values d only cs c :
  select_columns d only = Ok cs → c ∈ cs → ∃ n, d !! n = Some c.
Proof.
  revert cs. induction only as [|n only IH]; intros cs H Hc; simpl in H.
  - injection H as <-. by apply elem_of_nil in Hc.
  - destruct (d !! n) as [c0|] eqn:E; [| done].
    destruct (select_columns d only) as [cs'|]; [| done]. cbn [rbind] in H.
    injection H as <-. apply elem_of_cons in Hc as [-> | Hc]; [by exists n |].
    by eapply IH.
Qed.

(** The requested columns are columns of the manifest. *)
Lemma requested_columns_sub bintable only cols all :
  requested_columns bintable only = Ok cols →
  py_getitem bintable "columns" = Ok (PList all) →
  ∀ c, c ∈ cols → c ∈ all.
Proof.
  unfold requested_columns. intros H Hg. rewrite Hg in H. cbn [rbind py_iter] in H.
  destruct only as [only|]; [| by injection H as <-].
  destruct (build_coldict all ∅) as [d|] eqn:Ed; [| done]. cbn [rbind] in H.
  intros c Hc. destruct (select_columns_values _ _ _ _ H Hc) as [n Hn].
  destruct (build_coldict_values _ _ _ _ _ Ed Hn) as [Hin | Hl]; [done |].
  by rewrite lookup_empty in Hl.
Qed.

Lemma layout_file_prefix pre c : startswith (layout_file pre c) "data." = true.
Proof.
  unfold layout_file. rewrite key_cols_snoc_eq.
  destruct (key_cols (storage_key c) pre); apply default_name_prefix.
Qed.

Lemma written_entry_file table st e :
  plan table = Ok st → e ∈ columns st →
  column_file (entry_json e) = Ok (ce_file e) ∧ startswith (ce_file e) "data." = true.
Proof.
  intros Hplan He. split; [done |].
  apply list_elem_of_lookup in He as [i Hi].
  destruct (planned_entry_inv _ _ _ _ _ (plan_planned _ _ Hplan) Hi) as (c & _ & ->).
  apply layout_file_prefix.
Qed.

(** In a written dataset no column is stored in a file named like the mask
    file or the manifest. *)
Lemma written_files_apart bintable only cols c f :
  written_manifest bintable → requested_columns bintable only = Ok cols →
  c ∈ cols → column_file c = Ok f → f ≠ "mask.npy" ∧ f ≠ "bintable.json".
Proof.
  intros (table & st & Hplan & ->) Hreq Hc Hf.
  apply (requested_columns_sub _ _ _ _ Hreq eq_refl) in Hc.
  apply list_elem_of_fmap in Hc as (e & -> & He).
  destruct (written_entry_file _ _ _ Hplan He) as [Hfile Hpre].
  rewrite Hfile in Hf. injection Hf as <-.
  by destruct (data_prefix_other _ Hpre) as (? & ? & ?).
Qed.

Lemma written_mask_apart bintable only cols :
  written_manifest bintable → requested_columns bintable only = Ok cols →
  mask_apart cols.
Proof.
  intros Hw Hreq c Hc Hf.
  by destruct (written_files_apart _ _ _ _ _ Hw Hreq Hc Hf).
Qed.

(** ** Inversions used by the statements on [read] *)

Lemma plan_columns_ok_plannable m cols st st' :
  plan_columns m cols st = Ok st' → ∀ c, c ∈ cols → plannable m c = true.
Proof.
  revert st. induction cols as [|c0 cols IH]; intros st H c Hc.
  - by apply elem_of_nil in Hc.
  - simpl in H. rewrite plan_column_eq in H.
    destruct (plannable m c0) eqn:E; [| done].
    destruct (exports m c0 st); [| done]. simpl in H.
    apply elem_of_cons in Hc as [-> | Hc]; [done | by eapply IH].
Qed.

Lemma plan_mask_length table st c :
  plan table = Ok st → c ∈ tbl_columns table →
  has_invalid (tbl_masked table) c = true → length (col_mask c) = col_length c.
Proof.
  intros Hplan Hc Hi. pose proof (plan_columns_ok_plannable _ _ _ _ Hplan c Hc) as Hpl.
  unfold plannable in Hpl. rewrite Hi in Hpl. simpl in Hpl.
  apply andb_true_iff in Hpl as [_ Hpl]. by apply Nat.eqb_eq.
Qed.

Lemma column_of_no_mask ku fs path column l :
  column_of ku fs path column = Ok l → has_maskoffset column = false →
  snd (ld_data l) = None.
Proof.
  unfold column_of, has_maskoffset. intros H Hm. inv_rbind H.
  injection H as <-. simpl.
  match goal with
  | E : (if ?b then _ else Ok (_, None)) = Ok _, Hb : ?b = false |- _ =>
      rewrite Hb in E; by injection E as <-
  end.
Qed.

Lemma table_of_inv ku fs path only R :
  table_of ku fs path only = Ok R →
  ∃ bintable cols ls,
    read_json fs (final_manifest path) = Ok bintable
    ∧ requested_columns bintable only = Ok cols
    ∧ columns_of ku fs path cols = Ok ls
    ∧ R = {| rt_columns := map rcolumn_of ls;
             rt_meta := rt_meta R; rt_masked := rt_masked R |}
    ∧ NoDup (map ld_name ls)
    ∧ (∃ meta, py_getitem bintable "meta" = Ok meta ∧ table_meta meta = Ok (rt_meta R))
    ∧ py_getitem bintable "masked" = Ok (rt_masked R)
    ∧ masked_flag_ok (rt_masked R) = true.
Proof.
  unfold table_of. intros H.
  destruct (read_json fs (final_manifest path)) as [bintable|] eqn:Eb; [| done].
  cbn [rbind] in H.
  destruct (py_getitem bintable "meta") as [meta|] eqn:Em; [| done].
  cbn [rbind] in H.
  destruct (py_getitem bintable "masked") as [masked|] eqn:Ek; [| done].
  cbn [rbind] in H.
  destruct (requested_columns bintable only) as [cols|] eqn:Ec; [| done].
  cbn [rbind] in H.
  destruct (columns_of ku fs path cols) as [ls|] eqn:El; [| done]. cbn [rbind] in H.
  rewrite assemble_table in H.
  destruct (masked_flag_ok masked) eqn:Hmf; [| done].
  destruct (bool_decide (NoDup (map ld_name ls))) eqn:Hn; [| done].
  apply bool_decide_eq_true in Hn.
  destruct (same_lengths (map ld_data ls)); [| done]. cbn [andb] in H.
  destruct (table_meta meta) as [meta'|] eqn:Hmeta; [| done]. cbn [rbind] in H.
  injection H as <-. exists bintable, cols, ls. simpl.
  repeat split; try done. by exists meta.
Qed.

Lemma read_json_inv fs p v :
  read_json fs p = Ok v ↔ fs !! p = Some (File (CJson v)).
Proof.
  unfold read_json, read_file. destruct (fs !! p) as [[|[v'|a|]]|]; simpl;
    split; try done; by intros [= ->].
Qed.

(** A requested name that is not a key of the dictionary is a [KeyError]. *)
Lemma select_columns_missing d only n :
  n ∈ only → d !! n = None → select_columns d only = Raise KeyError.
Proof.
  induction only as [|m only IH]; intros Hin Hn; [by apply elem_of_nil in Hin |].
  simpl. destruct (d !! m) as [c|] eqn:Em; [| done].
  apply elem_of_cons in Hin as [-> | Hin]; [congruence |].
  by rewrite IH.
Qed.

Lemma table_of_missing ku fs path only R n :
  table_of ku fs path None = Ok R →
  n ∈ only → n ∉ map rc_name (rt_columns R) →
  table_of ku fs path (Some only) = Raise KeyError
  ∧ ∃ bintable, fs !! final_manifest path = Some (File (CJson bintable))
                ∧ requested_columns bintable (Some only) = Raise KeyError.
Proof.
  intros HR Hin Hn.
  destruct (table_of_inv _ _ _ _ _ HR)
    as (bintable & cols & ls & Hb & Hreq & Hls & HRc & Hnd & (meta & Hmeta & _) & Hmasked & _).
  assert (Hnames : map rc_name (rt_columns R) = map ld_name ls).
  { rewrite HRc. simpl. rewrite <- list_fmap_compose. by apply map_ext. }
  rewrite Hnames in Hn.
  pose proof (proj1 (columns_of_Forall2 _ _ _ _ _) Hls) as HF.
  destruct (build_coldict_spec ku fs path cols ls ∅ HF Hnd) as (d & Hd & Hout & _).
  assert (Hsel : requested_columns bintable (Some only) = Raise KeyError).
  { unfold requested_columns in *.
    destruct (py_getitem bintable "columns") as [columns|]; [| done].
    cbn [rbind] in *. rewrite Hreq. cbn [rbind]. rewrite Hd. cbn [rbind].
    apply (select_columns_missing _ _ n); [done |].
    rewrite Hout; [apply lookup_empty | done]. }
  split.
  - unfold table_of. rewrite Hb. cbn [rbind]. rewrite Hmeta. cbn [rbind].
    rewrite Hmasked. cbn [rbind]. by rewrite Hsel.
  - exists bintable. split; [by apply read_json_inv | done].
Qed.

(** * The properties of the format *)

(** ** Endianness *)

(** C4, as the code has it: in a table whose column [c], after the
    columns [pre], is a non-text column whose dtype string contains the
    little-endian mark ["<"], [write] raises and the world (files, trace)
    is as it was: no file was produced.  The error is [AssertionError]
    when the data of every column of [pre] can be handed over as a buffer
    (the table is masked, or the column is no [datetime64] or
    [timedelta64] column); otherwise it may be the [ValueError] of such a
    column, which the loop meets first. *)
Theorem write_refuses_little_endian_marker table path w pre c post :
  tbl_columns table = pre ++ c :: post →
  is_text c = false → str_in "<" (col_dtype_str c) = true →
  (∃ e, (e = AssertionError ∨ e = ValueError) ∧ write table path w = (Raise e, w))
  ∧ ((∀ c', c' ∈ pre → buffered (tbl_masked table) c' = true) →
     write table path w = (Raise AssertionError, w)).
Proof.
  intros Hcols Ht Hs. rewrite write_eq. unfold plan. rewrite Hcols. split.
  - assert (Hc : plannable (tbl_masked table) c = false)
      by (unfold plannable; by rewrite Ht, Hs).
    destruct (plan_columns_stops (tbl_masked table) pre c post plan_init Hc)
      as (e & He & ->).
    by exists e.
  - intros Hpre. by rewrite (plan_columns_marker _ _ _ _ _ Hpre Ht Hs).
Qed.

Lemma write_refuses_little_endian_marker_witness :
  write little_endian_table "out" empty_world = (Raise AssertionError, empty_world)
  ∧ ∃ e, (e = AssertionError ∨ e = ValueError)
         ∧ write datetime_table "out" empty_world = (Raise e, empty_world).
Proof.
  split.
  - apply (write_refuses_little_endian_marker little_endian_table "out" empty_world []
             {| col_name := "n"; col_dtype_char := "i"; col_dtype_str := "<i4";
                col_data := [PInt 7]; col_mask := [false]; col_unit := None |} []).
    + reflexivity.
    + reflexivity.
    + reflexivity.
    + intros c' Hc'. by apply elem_of_nil in Hc'.
  - apply (write_refuses_little_endian_marker datetime_table "out" empty_world
             [ {| col_name := "t"; col_dtype_char := "M";
                  col_dtype_str := "datetime64[ns]";
                  col_data := [PInt 0]; col_mask := [false]; col_unit := None |} ]
             {| col_name := "n"; col_dtype_char := "i"; col_dtype_str := "<i4";
                col_data := [PInt 7]; col_mask := [false]; col_unit := None |} []).
    + reflexivity.
    + reflexivity.
    + reflexivity.
Defined.

(** A [datetime64] column before the marked one, in a table that is not
    masked: the loop stops at it, with [ValueError]. *)
Lemma datetime_column_stops_first :
  write datetime_table "out" empty_world = (Raise ValueError, empty_world).
Proof. by vm_compute. Qed.

(** C4, as stated, fails: a big-endian column carries an endianness mark
    and is written without any error. *)
Lemma big_endian_column_is_written :
  (∃ c, c ∈ tbl_columns big_endian_table ∧ is_text c = false
        ∧ endianness_marker (col_dtype_str c) = true)
  ∧ fst (write big_endian_table "out" empty_world) = Ok tt
  ∧ files (snd (write big_endian_table "out" empty_world)) !! "out/data.>i4.npy"
    = Some (File (CNpy [PInt 7])).
Proof.
  split; [| split; by vm_compute].
  eexists. split; [apply list_elem_of_here |]. by split.
Qed.

(** ** The directory check *)

(** C7, as the code has it: the directory check comes after the loop over
    the columns.  When that loop returns a layout, a target path that
    exists without the temporary manifest makes [write] raise
    [FileExistsError] and leaves the world as it was; a target path that
    does not exist is created as a directory (if the file system lets
    [mkdir] through), whatever happens afterwards. *)
Theorem write_checks_directory table path w st :
  plan table = Ok st →
  (is_Some (files w !! path) → files w !! tmp_manifest path = None →
   write table path w = (Raise FileExistsError, w))
  ∧ (files w !! path = None → head (oracle w) ≠ Some true →
     files (snd (write table path w)) !! path = Some Dir).
Proof.
  intros Hplan. pose proof (plan_planned _ _ Hplan) as Hp.
  destruct (manifest_paths_apart path) as (A1 & A2 & A3 & A4 & A5 & A6).
  destruct (planned_paths_apart _ _ _ path Hp) as (B1 & B2 & B3 & B4).
  split.
  - intros Hex Htmp. rewrite write_eq, Hplan, check_directory_existing by done.
    rewrite bool_decide_eq_false_2; [done |]. rewrite Htmp. by intros [? ?].
  - intros Hnew Hora. rewrite write_eq, Hplan, check_directory_new by done.
    destruct (os_mkdir_ok path w Hnew Hora) as (w1 & -> & F1 & _).
    assert (H1 : files w1 !! path = Some Dir) by by rewrite F1, lookup_insert_eq.
    destruct (write_files table path st w1) as [[[]|e] w2] eqn:Ef;
      destruct (runs_write_files _ _ _ _ _ _ Ef) as [Hf _].
    + destruct (os_rename _ _ w2) as [r w3] eqn:Er.
      destruct (runs_os_rename _ _ _ _ _ Er) as [Hr _]. simpl.
      rewrite Hr, Hf; [done | set_solver | set_solver].
    + simpl. rewrite Hf; [done | set_solver].
Qed.

Lemma write_checks_directory_witness :
  write example_table "out" occupied_world = (Raise FileExistsError, occupied_world)
  ∧ files (snd (write example_table "out" empty_world)) !! "out" = Some Dir.
Proof.
  destruct (write_checks_directory example_table "out" occupied_world
              (match plan example_table with Ok st => st | Raise _ => plan_init end)
              eq_refl) as [H1 _].
  destruct (write_checks_directory example_table "out" empty_world
              (match plan example_table with Ok st => st | Raise _ => plan_init end)
              eq_refl) as [_ H2].
  split.
  - apply H1; [by vm_compute; eexists | by vm_compute].
  - apply H2; [by vm_compute | by vm_compute].
Defined.

(** C7, as stated for every call, fails: a table the loop refuses never
    reaches the directory check.  On an occupied directory the error is
    the loop's, and a missing directory is not created. *)
Lemma refused_table_skips_directory_check :
  is_Some (files occupied_world !! "out")
  ∧ files occupied_world !! tmp_manifest "out" = None
  ∧ write little_endian_table "out" occupied_world
    = (Raise AssertionError, occupied_world)
  ∧ files empty_world !! "out" = None
  ∧ files (snd (write little_endian_table "out" empty_world)) !! "out" = None.
Proof.
  split; [by eexists |]. split; [reflexivity |]. split; [reflexivity |].
  split; reflexivity.
Qed.

(** ** The commit protocol *)

(** C2, as the code has it: the file-system calls of a [write], after
    the directory check, are a prefix of [write_events]: the manifest under
    its temporary name, the mask file, the data files, and last the rename
    to the committed name; they are all of [write_events] when [write]
    returns.  When the rename is among them, the files of the layout are
    complete: every data file holds its whole document or array, the mask
    file the whole mask buffer, and the manifest was written under its
    temporary name (it is under the committed name when [write] returns).
    When [write] raises, whatever the failing call, the committed name is
    as it was before the call: absent if it was absent. *)
Theorem manifest_is_committed_last table path w r w' :
  write table path w = (r, w') →
  (∀ st, plan table = Ok st →
     ∃ evs,
       trace w' = trace w ++ match files w !! path with
                             | Some _ => []
                             | None => [EMkdir path]
                             end ++ evs
       ∧ evs `prefix_of` write_events path st
       ∧ (is_ok r → evs = write_events path st)
       ∧ (ERename (tmp_manifest path) (final_manifest path) ∈ evs →
          files_complete table path st (files w')
          ∧ files w' !! match r with Ok _ => final_manifest path | Raise _ => tmp_manifest path end
            = Some (File (CJson (manifest_json table (columns st))))))
  ∧ (is_ok r → is_ok (plan table))
  ∧ (¬ is_ok r → files w' !! final_manifest path = files w !! final_manifest path)
  ∧ (¬ is_ok r → files w !! final_manifest path = None →
     files w' !! final_manifest path = None).
Proof.
  rewrite write_eq. intros E.
  assert (Hmain :
    (∀ st, plan table = Ok st →
       ∃ evs,
         trace w' = trace w ++ match files w !! path with
                               | Some _ => []
                               | None => [EMkdir path]
                               end ++ evs
         ∧ evs `prefix_of` write_events path st
         ∧ (is_ok r → evs = write_events path st)
         ∧ (ERename (tmp_manifest path) (final_manifest path) ∈ evs →
            files_complete table path st (files w')
            ∧ files w' !! match r with Ok _ => final_manifest path | Raise _ => tmp_manifest path end
              = Some (File (CJson (manifest_json table (columns st))))))
    ∧ (is_ok r → is_ok (plan table))
    ∧ (¬ is_ok r → files w' !! final_manifest path = files w !! final_manifest path)).
  { destruct (plan table) as [st|e] eqn:Hplan.
    2:{ injection E as <- <-. split; [done |]. by split. }
    pose proof (plan_planned _ _ Hplan) as Hp.
    destruct (manifest_paths_apart path) as (A1 & A2 & A3 & A4 & A5 & A6).
    destruct (planned_paths_apart _ _ _ path Hp) as (B1 & B2 & B3 & B4).
    destruct (check_directory path w) as [[[]|e] w1] eqn:Ec;
      destruct (runs_check_directory _ _ _ _ Ec) as [Hf1 Ht1].
    2:{ injection E as <- <-. split; [| split; [done |]].
        - intros st' [= <-]. exists []. rewrite app_nil_r.
          split; [done |]. split; [apply prefix_nil |]. split; [done |].
          intros Hin. by apply elem_of_nil in Hin.
        - intros _. by apply Hf1. }
    destruct (write_files table path st w1) as [[[]|e] w2] eqn:Ef;
      destruct (runs_write_files _ _ _ _ _ _ Ef) as [Hf2 (evs2 & Ht2 & Hp2 & Ho2)].
    2:{ injection E as <- <-. split; [| split; [done |]].
        - intros st' [= <-]. exists evs2. rewrite Ht2, Ht1, <- app_assoc.
          split; [done |]. split.
          { etrans; [exact Hp2 |]. unfold write_events. simpl.
            do 2 apply prefix_cons. apply prefix_app. by apply prefix_app_r. }
          split; [done |]. intros Hin.
          destruct Hp2 as [rest Hrest].
          exfalso. eapply (write_files_events_no_rename path st).
          rewrite Hrest. apply elem_of_app. left. exact Hin.
        - intros _. rewrite Hf2 by set_solver. by apply Hf1. }
    specialize (Ho2 I). subst evs2.
    pose proof (write_files_ok_inv _ _ _ _ _ Hp Ef) as Hcomplete.
    pose proof (write_files_ok_tmp_manifest _ _ _ _ _ Hp Ef) as Htmp.
    destruct (runs_os_rename _ _ _ _ _ E) as [_ (evs3 & Ht3 & Hp3 & Ho3)].
    split; [| split; [done |]].
    - intros st' [= <-]. exists (([EOpenW (tmp_manifest path); EWrite (tmp_manifest path)]
                        ++ mask_events path (maskdatas st)
                        ++ data_events path (datafiles st)) ++ evs3).
      rewrite Ht3, Ht2, Ht1, <- !app_assoc. split; [done |].
      unfold write_events. simpl. rewrite <- ?app_assoc. split; [| split].
      + do 2 apply prefix_cons. do 2 apply prefix_app. done.
      + intros Hr. by rewrite (Ho3 Hr).
      + intros _. split; [by apply (files_complete_rename _ _ _ _ _ _ Hp E) |].
        destruct r as [[]|e].
        * apply os_rename_ok_inv in E as [Hdst _]. by rewrite Hdst.
        * by rewrite (os_rename_raise _ _ _ _ _ E).
    - intros Hr. destruct r as [[]|e]; [by destruct Hr |].
      rewrite (os_rename_raise _ _ _ _ _ E).
      rewrite Hf2 by set_solver. by apply Hf1. }
  destruct Hmain as (H1 & H2 & H3). repeat split; try done.
  intros Hr Hn. by rewrite H3.
Qed.

Lemma manifest_is_committed_last_witness :
  fst (write example_table "out" failing_world) = Raise OSError
  ∧ files (snd (write example_table "out" failing_world)) !! "out/bintable.json"
    = None
  ∧ files (snd (write example_table "out" failing_world)) !! "out/bintable.json_"
    = Some (File (CJson (manifest_json example_table
          (match plan example_table with
           | Ok st => columns st
           | Raise _ => []
           end))))
  ∧ trace (snd (write example_table "out" empty_world))
    = [EMkdir "out";
       EOpenW "out/bintable.json_"; EWrite "out/bintable.json_";
       EOpenW "out/mask.npy"; EWrite "out/mask.npy";
       EOpenW "out/data.int32.npy"; EWrite "out/data.int32.npy";
       EOpenW "out/data.text.json"; EWrite "out/data.text.json";
       EOpenW "out/data.float64.npy"; EWrite "out/data.float64.npy";
       ERename "out/bintable.json_" "out/bintable.json"]
  ∧ files_complete example_table "out"
      (match plan example_table with Ok st => st | Raise _ => plan_init end)
      (files (snd (write example_table "out" empty_world))).
Proof.
  destruct (manifest_is_committed_last example_table "out" failing_world
              (fst (write example_table "out" failing_world))
              (snd (write example_table "out" failing_world)))
    as (_ & _ & _ & Hfail); [by vm_compute |].
  destruct (manifest_is_committed_last example_table "out" empty_world
              (fst (write example_table "out" empty_world))
              (snd (write example_table "out" empty_world)))
    as (Hev & _ & _ & _); [by vm_compute |].
  split; [by vm_compute |]. split.
  - apply Hfail; [by vm_compute | by vm_compute].
  - split; [by vm_compute |].
    destruct (Hev (match plan example_table with Ok st => st | Raise _ => plan_init end)
                eq_refl) as (evs & Ht & _ & Hall & Hdone).
    assert (Hevs : evs = write_events "out"
              (match plan example_table with Ok st => st | Raise _ => plan_init end))
      by (apply Hall; by vm_compute).
    split.
    + rewrite Ht, Hevs. by vm_compute.
    + apply Hdone. rewrite Hevs. clear.
      unfold write_events. rewrite !app_assoc. apply elem_of_app. right.
      apply list_elem_of_here.
Defined.

(** C2, as stated, fails in its last part: a committed manifest of an
    earlier dataset, in a directory that holds a temporary manifest, is
    still there after a [write] that fails at its first file. *)
Lemma stale_manifest_survives_failed_write :
  write example_table "out" stale_world
  = (Raise OSError,
     World (files stale_world) [] [EOpenW "out/bintable.json_"])
  ∧ files stale_world !! "out/bintable.json" = Some (File (CJson PNone)).
Proof. split; by vm_compute. Qed.

(** ** Offsets *)

(** C3: after a [write] that returned, the committed manifest lists, for
    the [i]-th column, an entry whose length is the row count and whose
    offset is the total length of the earlier columns of the same
    storage-type key, which is also the total length of the earlier
    entries with the same backing file; two entries share a file exactly
    when their columns share a key; the ranges of two entries in one file
    are disjoint.  The mask offset of a masked column is the total length of
    the earlier entries with a mask offset, and mask ranges are disjoint. *)
Theorem written_ranges_are_contiguous table path w w' :
  write table path w = (Ok tt, w') →
  ∃ st,
    files w' !! final_manifest path
      = Some (File (CJson (manifest_json table (columns st))))
    ∧ length (columns st) = length (tbl_columns table)
    ∧ (∀ i c e, tbl_columns table !! i = Some c → columns st !! i = Some e →
         ce_length e = col_length c
         ∧ ce_offset e = key_length (storage_key c) (take i (tbl_columns table))
         ∧ ce_offset e = file_length (ce_file e) (take i (columns st))
         ∧ (∀ o, ce_maskoffset e = Some o → o = masks_length (take i (columns st))))
    ∧ (∀ i j ci cj ei ej,
         tbl_columns table !! i = Some ci → tbl_columns table !! j = Some cj →
         columns st !! i = Some ei → columns st !! j = Some ej →
         (ce_file ei = ce_file ej ↔ storage_key ci = storage_key cj))
    ∧ (∀ i j ei ej, i ≠ j →
         columns st !! i = Some ei → columns st !! j = Some ej →
         ce_file ei = ce_file ej →
         ranges_disjoint (ce_offset ei) (ce_length ei) (ce_offset ej) (ce_length ej))
    ∧ (∀ i j ei ej oi oj, i ≠ j →
         columns st !! i = Some ei → columns st !! j = Some ej →
         ce_maskoffset ei = Some oi → ce_maskoffset ej = Some oj →
         ranges_disjoint oi (ce_length ei) oj (ce_length ej)).
Proof.
  intros E. destruct (write_ok_inv _ _ _ _ E) as (st & Hplan & Hman & _).
  pose proof (plan_planned _ _ Hplan) as Hp.
  exists st. split; [done |].
  assert (Hfiles : ∀ i j ci cj ei ej,
    tbl_columns table !! i = Some ci → tbl_columns table !! j = Some cj →
    columns st !! i = Some ei → columns st !! j = Some ej →
    (ce_file ei = ce_file ej ↔ storage_key ci = storage_key cj)).
  { intros i j ci cj ei ej Hci Hcj Hei Hej.
    destruct (layout_entry_file _ _ _ _ _ Hp Hci Hei) as [_ ->].
    destruct (layout_entry_file _ _ _ _ _ Hp Hcj Hej) as [_ ->].
    split; [| by intros ->].
    apply key_file_inj; by eapply list_elem_of_lookup_2. }
  split; [by rewrite (planned_columns _ _ _ Hp), layout_entries_length |].
  split; [| split; [done |]; split].
  - intros i c e Hc He.
    destruct (layout_entry_file _ _ _ _ _ Hp Hc He) as [-> Hfile].
    split; [done |]. split; [done |]. split.
    + rewrite Hfile. simpl. symmetry. apply file_length_layout; [done |].
      by eapply list_elem_of_lookup_2.
    + simpl. destruct (has_invalid (tbl_masked table) c); [| done].
      intros o [= <-]. symmetry. by apply masks_length_layout.
  - assert (Hlt : ∀ i j ei ej, (i < j)%nat →
      columns st !! i = Some ei → columns st !! j = Some ej →
      ce_file ei = ce_file ej →
      (ce_offset ei + ce_length ei ≤ ce_offset ej)%nat).
    { intros i j ei ej Hij Hei Hej Hf.
      destruct (planned_entry_inv _ _ _ _ _ Hp Hei) as (ci & Hci & Ei).
      destruct (planned_entry_inv _ _ _ _ _ Hp Hej) as (cj & Hcj & Ej).
      pose proof (proj1 (Hfiles _ _ _ _ _ _ Hci Hcj Hei Hej) Hf) as Hk.
      subst ei ej. simpl. by apply layout_disjoint. }
    intros i j ei ej Hne Hei Hej Hf. unfold ranges_disjoint.
    destruct (decide (i < j)%nat).
    + left. by eapply Hlt.
    + right. eapply (Hlt j i); [lia | done | done | done].
  - assert (Hlt : ∀ i j ei ej oi oj, (i < j)%nat →
      columns st !! i = Some ei → columns st !! j = Some ej →
      ce_maskoffset ei = Some oi → ce_maskoffset ej = Some oj →
      (oi + ce_length ei ≤ oj)%nat).
    { intros i j ei ej oi oj Hij Hei Hej Hoi Hoj.
      destruct (planned_entry_inv _ _ _ _ _ Hp Hei) as (ci & Hci & Ei).
      destruct (planned_entry_inv _ _ _ _ _ Hp Hej) as (cj & Hcj & Ej).
      subst ei ej. simpl in *.
      destruct (has_invalid (tbl_masked table) ci) eqn:Hi; [| done].
      destruct (has_invalid (tbl_masked table) cj) eqn:Hj; [| done].
      injection Hoi as <-. injection Hoj as <-. by eapply layout_mask_disjoint. }
    intros i j ei ej oi oj Hne Hei Hej Hoi Hoj. unfold ranges_disjoint.
    destruct (decide (i < j)%nat).
    + left. by eapply Hlt.
    + right. eapply (Hlt j i); [lia | done | done | done | done].
Qed.

Lemma written_ranges_are_contiguous_witness :
  write example_table "out" empty_world = (Ok tt, example_dataset)
  ∧ ∃ st,
      files example_dataset !! final_manifest "out"
        = Some (File (CJson (manifest_json example_table (columns st))))
      ∧ length (columns st) = 3.
Proof.
  assert (E : write example_table "out" empty_world = (Ok tt, example_dataset))
    by by vm_compute.
  split; [exact E |].
  destruct (written_ranges_are_contiguous example_table "out" empty_world
              example_dataset E) as (st & Hman & Hlen & _).
  exists st. by split.
Defined.

(** ** Masks *)

(** C5: after a [write] that returned, the manifest has one entry per
    column of the table, and the entry of a column has
    a mask offset exactly when the table is masked and the column's mask
    has a true entry; the range of the mask file at that offset then holds
    the whole per-row mask, one entry per row.  And a column whose entry
    has no ["maskoffset"] is read back without a mask: it has no invalid
    entry, whatever the masked flag of the dataset. *)
Theorem masks_are_written_when_needed :
  (∀ table path w w',
     write table path w = (Ok tt, w') →
     ∃ st,
       files w' !! final_manifest path
         = Some (File (CJson (manifest_json table (columns st))))
       ∧ length (columns st) = length (tbl_columns table)
       ∧ ∀ i c e, tbl_columns table !! i = Some c → columns st !! i = Some e →
           (is_Some (ce_maskoffset e) ↔
            tbl_masked table = true ∧ existsb id (col_mask c) = true)
           ∧ has_maskoffset (entry_json e) = bool_decide (is_Some (ce_maskoffset e))
           ∧ ∀ o, ce_maskoffset e = Some o →
               length (col_mask c) = col_length c
               ∧ ce_length e = col_length c
               ∧ ∃ mb, files w' !! mask_file path = Some (File (CNpy mb))
                   ∧ py_slice mb (Z.of_nat o) (Z.of_nat o + Z.of_nat (ce_length e))
                     = map PBool (col_mask c))
  ∧ (∀ ku path only w R w' bintable cols,
       oracle w = [] → read ku path only w = (Ok R, w') →
       files w !! final_manifest path = Some (File (CJson bintable)) →
       requested_columns bintable only = Ok cols →
       length (rt_columns R) = length cols
       ∧ ∀ i column rc, cols !! i = Some column → rt_columns R !! i = Some rc →
           has_maskoffset column = false →
           rc_mask rc = None ∧ Forall (λ b, b = false) (rc_invalid rc)).
Proof.
  split.
  - intros table path w w' E.
    destruct (write_ok_inv _ _ _ _ E) as (st & Hplan & Hman & Hmask).
    pose proof (plan_planned _ _ Hplan) as Hp.
    exists st. split; [done |].
    split; [by rewrite (planned_columns _ _ _ Hp), layout_entries_length |].
    intros i c e Hc He.
    destruct (layout_entry_file _ _ _ _ _ Hp Hc He) as [-> _].
    assert (Hin : c ∈ tbl_columns table) by by eapply list_elem_of_lookup_2.
    split; [| split].
    + simpl. unfold has_invalid.
      destruct (tbl_masked table), (existsb id (col_mask c)); simpl;
        split; try done; try (by intros [? ?]); by intros [? ?].
    + unfold has_maskoffset. by rewrite entry_has_maskoffset.
    + simpl. destruct (has_invalid (tbl_masked table) c) eqn:Hi; [| done].
      intros o [= <-].
      split; [by eapply plan_mask_length |]. split; [done |].
      exists (mask_content (tbl_masked table) (tbl_columns table)). split.
      * apply Hmask. intros Em.
        assert (c ∈ mask_cols (tbl_masked table) (tbl_columns table)) as X
          by (by apply list_elem_of_filter).
        rewrite Em in X. by apply elem_of_nil in X.
      * apply mask_slice; [| done | done].
        intros c' Hc' Hi'. by eapply plan_mask_length.
  - intros ku path only w R w' bintable cols Ho E Hman Hreq.
    destruct (read_quiet ku (files w) path only w) as (w2 & E2 & _); [done |].
    rewrite E in E2. injection E2 as HR _. symmetry in HR.
    destruct (table_of_inv _ _ _ _ _ HR) as (b' & cols' & ls & Hb & Hreq' & Hls & HRc & _).
    apply read_json_inv in Hb. rewrite Hman in Hb. injection Hb as <-.
    rewrite Hreq in Hreq'. injection Hreq' as <-.
    apply columns_of_Forall2 in Hls. rewrite HRc. simpl.
    split; [by rewrite length_map, (Forall2_length _ _ _ Hls) |].
    intros i column rc Hcol Hrc Hno. rewrite list_lookup_fmap in Hrc.
    destruct (ls !! i) as [l|] eqn:El; [| done]. injection Hrc as <-.
    pose proof (Forall2_lookup_lr _ _ _ _ _ _ Hls Hcol El) as Hl.
    pose proof (column_of_no_mask _ _ _ _ _ Hl Hno) as Hnone.
    unfold rc_invalid, rcolumn_of. simpl. rewrite Hnone. split; [done |].
    apply Forall_forall. intros b Hb. by apply elem_of_replicate in Hb as [-> _].
Qed.

Lemma masks_are_written_when_needed_witness :
  (∃ st,
     files example_dataset !! final_manifest "out"
       = Some (File (CJson (manifest_json example_table (columns st))))
     ∧ length (columns st) = 3)
  ∧ length (rt_columns
              (match fst (read jansky_known "out" (Some ["id"]) example_dataset) with
               | Ok R => R
               | Raise _ => {| rt_columns := []; rt_meta := PNone; rt_masked := PNone |}
               end)) = 1.
Proof.
  destruct masks_are_written_when_needed as [Hw Hr]. split.
  - destruct (Hw example_table "out" empty_world example_dataset)
      as (st & Hman & Hlen & _); [by vm_compute |].
    exists st. split; assumption.
  - destruct (Hr jansky_known "out" (Some ["id"]) example_dataset
                (match fst (read jansky_known "out" (Some ["id"]) example_dataset) with
                 | Ok R => R
                 | Raise _ => {| rt_columns := []; rt_meta := PNone; rt_masked := PNone |}
                 end)
                (snd (read jansky_known "out" (Some ["id"]) example_dataset))
                (manifest_json example_table
                   (match plan example_table with
                    | Ok st => columns st
                    | Raise _ => []
                    end))
                [entry_json {| ce_name := "id"; ce_file := "data.int32.npy";
                               ce_offset := 0; ce_length := 3;
                               ce_maskoffset := None; ce_unit := None |}])
      as [Hlen _]; [by vm_compute .. |].
    exact Hlen.
Defined.

(** ** Selective reads *)

(** C6: on a committed dataset, one whose manifest [write] produced from
    a table whose columns have names, that a full read returns as a
    table, with no outside failure, reading a duplicate-free list [only]
    of its column names returns a table whose columns are named [only],
    in that order, and each of them is a column of the full read: same
    name, values, mask and unit. *)
Theorem selective_read_projects ku path only w table st R w1 :
  oracle w = [] →
  plan table = Ok st → "" ∉ colnames table →
  files w !! final_manifest path
  = Some (File (CJson (manifest_json table (columns st)))) →
  read ku path None w = (Ok R, w1) →
  NoDup only → (∀ n, n ∈ only → n ∈ map rc_name (rt_columns R)) →
  ∃ R' w2,
    read ku path (Some only) w = (Ok R', w2)
    ∧ map rc_name (rt_columns R') = only
    ∧ (∀ c', c' ∈ rt_columns R' →
         ∃ c, c ∈ rt_columns R ∧ rc_name c = rc_name c'
              ∧ rc_values c = rc_values c' ∧ rc_mask c = rc_mask c'
              ∧ rc_unit c = rc_unit c')
    ∧ rt_meta R' = rt_meta R ∧ rt_masked R' = rt_masked R.
Proof.
  intros Ho _ _ _ E Hnd Hsub.
  destruct (read_quiet ku (files w) path None w) as (w2 & E2 & _); [done |].
  rewrite E in E2. injection E2 as HR _. symmetry in HR.
  destruct (table_of_select ku (files w) path only R HR Hnd Hsub)
    as (R' & HR' & Hn & Hin & Hm & Hk).
  destruct (read_quiet ku (files w) path (Some only) w) as (w3 & E3 & _); [done |].
  exists R', w3. rewrite E3, HR'. split; [done |]. split; [done |].
  split; [| done]. intros c' Hc'. exists c'. split; [by apply Hin | done].
Qed.

Lemma selective_read_projects_witness :
  ∃ R' w2,
    read jansky_known "out" (Some ["flux"; "id"]) example_dataset = (Ok R', w2)
    ∧ map rc_name (rt_columns R') = ["flux"; "id"].
Proof.
  destruct (selective_read_projects jansky_known "out" ["flux"; "id"] example_dataset
              example_table
              (match plan example_table with Ok st => st | Raise _ => plan_init end)
              (match fst (read jansky_known "out" None example_dataset) with
               | Ok R => R
               | Raise _ => {| rt_columns := []; rt_meta := PNone; rt_masked := PNone |}
               end)
              (snd (read jansky_known "out" None example_dataset)))
    as (R' & w2 & E & Hn & _).
  - by vm_compute.
  - by vm_compute.
  - change (colnames example_table) with ["id"; "name"; "flux"]. intros Hin.
    repeat (apply elem_of_cons in Hin as [Hin | Hin]; [discriminate Hin |]).
    by apply elem_of_nil in Hin.
  - by vm_compute.
  - by vm_compute.
  - apply NoDup_cons. split; [| apply NoDup_singleton].
    intros Hin. by apply list_elem_of_singleton in Hin.
  - intros n Hn.
    assert (Hnames : map rc_name (rt_columns
              (match fst (read jansky_known "out" None example_dataset) with
               | Ok R => R
               | Raise _ => {| rt_columns := []; rt_meta := PNone; rt_masked := PNone |}
               end)) = ["id"; "name"; "flux"]) by by vm_compute.
    rewrite Hnames. clear Hnames.
    apply elem_of_cons in Hn as [-> | Hn];
      [do 2 apply list_elem_of_further; apply list_elem_of_here |].
    apply elem_of_cons in Hn as [-> | Hn]; [apply list_elem_of_here |].
    by apply elem_of_nil in Hn.
  - exists R', w2. split; assumption.
Defined.

(** ** What a read opens *)

(** C8: a [read] leaves every file as it was.  After the manifest it opens
    only files that a requested column references (its data file, or the
    mask file when the column has a mask offset), and it opens none of them
    twice when no requested column keeps its data in the mask file; this is
    so for every manifest that [write] produces. *)
Theorem read_opens_referenced_files_once ku path only w r w' :
  read ku path only w = (r, w') →
  files w' = files w
  ∧ ∃ ps, trace w' = trace w ++ EOpenR (final_manifest path) :: map EOpenR ps
      ∧ (ps = []
         ∨ ∃ bintable cols,
             files w !! final_manifest path = Some (File (CJson bintable))
             ∧ requested_columns bintable only = Ok cols
             ∧ (∀ p, p ∈ ps → referenced path cols p)
             ∧ (mask_apart cols → NoDup ps)
             ∧ (written_manifest bintable → NoDup ps)).
Proof.
  intros E. destruct (read_opens _ _ _ _ _ _ E) as (Hf & ps & Ht & Hps).
  split; [done |]. exists ps. split; [done |].
  destruct Hps as [-> | (bintable & cols & Hman & Hreq & Href & Hnd)]; [by left |].
  right. exists bintable, cols. repeat split; try done.
  intros Hw. apply Hnd. by eapply written_mask_apart.
Qed.

Lemma read_opens_referenced_files_once_witness :
  files (snd (read jansky_known "out" None example_dataset)) = files example_dataset
  ∧ ∃ ps, trace (snd (read jansky_known "out" None example_dataset))
          = trace example_dataset ++ EOpenR (final_manifest "out") :: map EOpenR ps.
Proof.
  destruct (read_opens_referenced_files_once jansky_known "out" None example_dataset
              (fst (read jansky_known "out" None example_dataset))
              (snd (read jansky_known "out" None example_dataset)))
    as (Hf & ps & Ht & _); [by vm_compute |].
  split; [exact Hf | by exists ps].
Defined.

(** A column whose data file is the mask file makes [read] open that file
    once for the data and once for the mask. *)
Lemma mask_file_opened_twice :
  trace (snd (read jansky_known "out" None aliased_world))
  = [EOpenR "out/bintable.json"; EOpenR "out/mask.npy"; EOpenR "out/mask.npy"].
Proof. by vm_compute. Qed.

(** ** Lookup failures *)

(** C9: on a dataset that a full read accepts, with no outside failure, a
    selective read that asks for a name the dataset does not have raises
    [KeyError]: no table is returned, no file is changed, and only the
    manifest has been opened. *)
Theorem selective_read_unknown_name ku path only w R w1 n :
  oracle w = [] → read ku path None w = (Ok R, w1) →
  n ∈ only → n ∉ map rc_name (rt_columns R) →
  ∃ w2, read ku path (Some only) w = (Raise KeyError, w2)
        ∧ files w2 = files w
        ∧ trace w2 = trace w ++ [EOpenR (final_manifest path)].
Proof.
  intros Ho E Hin Hn.
  destruct (read_quiet ku (files w) path None w) as (w' & E1 & _); [done |].
  rewrite E in E1. injection E1 as HR _. symmetry in HR.
  destruct (table_of_missing ku (files w) path only R n HR Hin Hn)
    as (Ht & bintable & Hman & Hreq).
  destruct (read_quiet ku (files w) path (Some only) w) as (w2 & E2 & _); [done |].
  rewrite Ht in E2. exists w2. split; [done |].
  destruct (read_opens _ _ _ _ _ _ E2) as (Hf & ps & Htr & Hps).
  split; [done |].
  destruct Hps as [-> | (b' & cols & Hman' & Hreq' & _)]; [done |].
  rewrite Hman in Hman'. injection Hman' as <-. by rewrite Hreq in Hreq'.
Qed.

Lemma selective_read_unknown_name_witness :
  ∃ w2, read jansky_known "out" (Some ["id"; "ra"]) example_dataset
        = (Raise KeyError, w2)
        ∧ files w2 = files example_dataset.
Proof.
  destruct (selective_read_unknown_name jansky_known "out" ["id"; "ra"] example_dataset
              (match fst (read jansky_known "out" None example_dataset) with
               | Ok R => R
               | Raise _ => {| rt_columns := []; rt_meta := PNone; rt_masked := PNone |}
               end)
              (snd (read jansky_known "out" None example_dataset)) "ra")
    as (w2 & E & Hf & _).
  - by vm_compute.
  - by vm_compute.
  - apply list_elem_of_further, list_elem_of_here.
  - assert (Hnames : map rc_name (rt_columns
              (match fst (read jansky_known "out" None example_dataset) with
               | Ok R => R
               | Raise _ => {| rt_columns := []; rt_meta := PNone; rt_masked := PNone |}
               end)) = ["id"; "name"; "flux"]) by by vm_compute.
    rewrite Hnames. clear Hnames. intros Hin.
    repeat (apply elem_of_cons in Hin as [Hin | Hin]; [discriminate Hin |]).
    by apply elem_of_nil in Hin.
  - exists w2. split; assumption.
Defined.

(** ** Path separators *)



(** ** The round trip *)

(** C1, as the code has it: a well-formed table (distinct column names,
    none of them empty,
    columns of one length each with a mask of that length, no invalid
    entry unless the table is masked, text values that are strings or
    [None], numeric dtype names without ["<"] or ["/"], no column of dtype
    [object], no [datetime64] or [timedelta64] column unless the table is
    masked, and a metadata mapping
    that [json.dumps] accepts) written into a fresh directory with no
    outside failure is read back with the same column names in the same
    order, the same values, the same masks and the same units.  The
    metadata comes back as its JSON image: tuples as lists, keys as
    strings; it is the same metadata when it holds only [None], booleans,
    numbers, strings, lists and dictionaries with distinct string keys. *)
Theorem write_then_read_reproduces ku table path w :
  table_ok table → fresh path w → oracle w = [] → roundtrip ku table path w.
Proof.
  intros Hok Hfresh Ho.
  destruct (write_ok table path w Hok Hfresh Ho)
    as (st & w1 & Hplan & Hwrite & Ho1 & Hman & Hdata & Hmask).
  destruct (read_quiet ku (files w1) path None w1) as (w2 & Hread & _); [done |].
  rewrite (table_of_written ku table path (files w1) st Hok Hplan Hman Hdata Hmask)
    in Hread.
  eexists w1, _, w2. split; [exact Hwrite |]. split; [exact Hread |].
  split; simpl.
  - rewrite <- list_fmap_compose. by apply map_ext.
  - rewrite <- list_fmap_compose. by apply map_ext.
  - rewrite <- list_fmap_compose. apply map_ext_in. intros c Hc.
    apply read_back_invalid. apply (ok_columns _ Hok). by apply list_elem_of_In.
  - rewrite <- list_fmap_compose. apply map_ext. intros c. simpl.
    destruct (col_unit c) as [u|]; [| done]. simpl. unfold resolve_unit.
    by destruct (ku (unit_str u)).
  - done.
  - intros Hn. by destruct (json_native_image _ Hn) as [_ ->].
  - done.
Qed.

Lemma example_table_ok : table_ok example_table.
Proof.
  split.
  - unfold colnames, example_table. simpl.
    repeat (apply NoDup_cons; split;
            [intros Hin;
             repeat (apply elem_of_cons in Hin as [Hin | Hin]; [discriminate Hin |]);
             by apply elem_of_nil in Hin |]).
    apply NoDup_nil_2.
  - unfold colnames, example_table. simpl. intros Hin.
    repeat (apply elem_of_cons in Hin as [Hin | Hin]; [discriminate Hin |]).
    by apply elem_of_nil in Hin.
  - intros c1 c2 H1 H2. unfold example_table in H1, H2. simpl in H1, H2.
    repeat (apply elem_of_cons in H1 as [-> | H1]);
      try (by apply elem_of_nil in H1);
      repeat (apply elem_of_cons in H2 as [-> | H2]);
      try (by apply elem_of_nil in H2); reflexivity.
  - intros c Hc. unfold example_table in Hc. simpl in Hc.
    repeat (apply elem_of_cons in Hc as [-> | Hc]);
      try (by apply elem_of_nil in Hc);
      (split; [reflexivity | intros H; discriminate H | intros _; by vm_compute
              | intros H; try discriminate H; by repeat split
              | intros _; by vm_compute
              | intros _ H; discriminate H
              | intros H; discriminate H]).
  - reflexivity.
  - by eexists.
Qed.

Lemma write_then_read_reproduces_witness :
  roundtrip jansky_known example_table "out" empty_world.
Proof.
  apply write_then_read_reproduces.
  - exact example_table_ok.
  - split; [reflexivity | intros name _; apply lookup_empty].
  - reflexivity.
Defined.

(** Metadata holding a byte string is refused by [json.dumps]: the write
    raises [TypeError] after it has made the directory, and nothing can be
    read back. *)
Lemma bytes_metadata_is_not_written :
  fst (write bytes_meta_table "out" empty_world) = Raise TypeError
  ∧ ¬ roundtrip jansky_known bytes_meta_table "out" empty_world.
Proof.
  split; [by vm_compute |].
  intros (w1 & R & w2 & Hw & _).
  apply (f_equal fst) in Hw. vm_compute in Hw. discriminate Hw.
Qed.

(** Metadata with a tuple and an integer key is written, and comes back
    with a list and a string key. *)
Lemma tuple_metadata_comes_back_changed :
  ∃ w1 R w2,
    write tuple_meta_table "out" empty_world = (Ok tt, w1)
    ∧ read jansky_known "out" None w1 = (Ok R, w2)
    ∧ rt_meta R = PDict [(KStr "shape", PList [PInt 2; PInt 3]); (KStr "1", PStr "one")]
    ∧ rt_meta R ≠ tbl_meta tuple_meta_table.
Proof.
  eexists _, _, _. split; [by vm_compute |]. split; [by vm_compute |].
  split; [reflexivity |]. intros H. discriminate H.
Qed.

(** * Further properties of the writer *)

(** The four stages of [write]. *)
Lemma write_inv table path w r w' :
  write table path w = (r, w') →
  (∃ e, plan table = Raise e ∧ r = Raise e ∧ w' = w)
  ∨ ∃ st, plan table = Ok st ∧
      ((∃ e, check_directory path w = (Raise e, w') ∧ r = Raise e)
       ∨ ∃ w1, check_directory path w = (Ok tt, w1) ∧
           ((∃ e, write_files table path st w1 = (Raise e, w') ∧ r = Raise e)
            ∨ ∃ w2, write_files table path st w1 = (Ok tt, w2)
                    ∧ os_rename (tmp_manifest path) (final_manifest path) w2 = (r, w'))).
Proof.
  rewrite write_eq. intros E.
  destruct (plan table) as [st|e]; [| left; injection E as <- <-; by exists e].
  right. exists st. split; [done |].
  destruct (check_directory path w) as [[[]|e] w1];
    [| left; injection E as <- <-; by exists e].
  right. exists w1. split; [done |].
  destruct (write_files table path st w1) as [[[]|e] w2];
    [| left; injection E as <- <-; by exists e].
  right. by exists w2.
Qed.



(** What the stages after the directory check leave alone. *)
Lemma write_files_frame table path st w r w' q :
  planned (tbl_masked table) (tbl_columns table) st →
  write_files table path st w = (r, w') →
  q ≠ tmp_manifest path → q ≠ mask_file path →
  (∀ n, startswith n "data." = true → q ≠ os_path_join path n) →
  files w' !! q = files w !! q.
Proof.
  intros Hp E Q1 Q2 Q3.
  destruct (runs_write_files _ _ _ _ _ _ E) as [Hf _]. apply Hf.
  intros Hin. apply elem_of_cons in Hin as [-> | Hin]; [done |].
  apply elem_of_cons in Hin as [-> | Hin]; [done |].
  destruct (planned_data_paths _ _ _ _ _ Hp Hin) as (n & -> & Hn). by apply (Q3 n).
Qed.

Lemma write_files_keeps_directory table path st w r w' :
  planned (tbl_masked table) (tbl_columns table) st →
  write_files table path st w = (r, w') → files w' !! path = files w !! path.
Proof.
  intros Hp E. destruct (manifest_paths_apart path) as (A1 & A2 & A3 & _).
  apply (write_files_frame _ _ _ _ _ _ _ Hp E); try done.
  intros n Hn Heq. destruct (data_prefix_relative _ Hn) as [Hr Hne].
  symmetry in Heq. by apply os_path_join_neq_dir in Heq.
Qed.

(** [read] on a directory without a committed manifest. *)
Lemma read_missing_manifest ku path only w :
  files w !! final_manifest path = None →
  ∃ e w', read ku path only w = (Raise e, w')
          ∧ (e = FileNotFoundError ∨ e = OSError)
          ∧ files w' = files w
          ∧ trace w' = trace w ++ [EOpenR (final_manifest path)].
Proof.
  intros Hn. unfold read, json_load, open_r, bind, log, fault, raise. simpl.
  destruct (oracle w) as [|[|] o]; simpl; rewrite ?Hn; eauto 10.
Qed.

(** ** The footprint of a write *)

(** X1: whatever its outcome, [write] changes nothing outside the target
    directory's own names: a path other than the directory, the two
    manifest names, the mask file and the [data.*] files is left as it
    was. *)
Theorem write_stays_in_directory table path w r w' q :
  write table path w = (r, w') →
  q ≠ path → q ≠ tmp_manifest path → q ≠ final_manifest path →
  q ≠ mask_file path →
  (∀ n, startswith n "data." = true → q ≠ os_path_join path n) →
  files w' !! q = files w !! q.
Proof.
  intros E Q0 Q1 Q2 Q3 Q4.
  destruct (write_inv _ _ _ _ _ E)
    as [(e & _ & _ & ->) | (st & Hplan & [(e & Ec & _) | (w1 & Ec & H)])];
    [done | |].
  - by apply (runs_check_directory _ _ _ _ Ec).
  - pose proof (plan_planned _ _ Hplan) as Hp.
    destruct (runs_check_directory _ _ _ _ Ec) as [Hf1 _].
    destruct H as [(e & Ef & _) | (w2 & Ef & Er)].
    + rewrite (write_files_frame _ _ _ _ _ _ _ Hp Ef) by done. by apply Hf1.
    + destruct (runs_os_rename _ _ _ _ _ Er) as [Hf3 _].
      rewrite Hf3 by (intros Hin; apply elem_of_cons in Hin as [-> | Hin]; [done |];
                      by apply list_elem_of_singleton in Hin).
      rewrite (write_files_frame _ _ _ _ _ _ _ Hp Ef) by done. by apply Hf1.
Qed.

Lemma write_stays_in_directory_witness :
  files (snd (write example_table "out" occupied_world)) !! "out/notes.txt"
  = Some (File CRaw).
Proof.
  rewrite (write_stays_in_directory example_table "out" occupied_world
             (fst (write example_table "out" occupied_world))
             (snd (write example_table "out" occupied_world)) "out/notes.txt").
  - reflexivity.
  - apply surjective_pairing.
  - discriminate.
  - discriminate.
  - discriminate.
  - discriminate.
  - intros n Hn E. destruct (data_prefix_relative _ Hn) as [Hr _].
    rewrite os_path_join_relative in E by done. simpl in E.
    rewrite !str_app_cons, str_app_nil_l in E.
    destruct n as [|a n]; [discriminate Hn |].
    rewrite startswith_cons in Hn. apply andb_true_iff in Hn as [Ha _].
    apply Ascii.eqb_eq in Ha. subst a. discriminate E.
Defined.

(** ** Committed datasets are not overwritten *)



(** ** A write that failed is not a dataset *)

(** X3: when the directory held no committed manifest and [write] raised,
    a [read] of the directory raises too, [FileNotFoundError] (or
    [OSError] when the open itself fails): it opens the manifest name and
    nothing else, and returns no table. *)
Theorem failed_write_is_not_readable ku table path only w e w1 :
  write table path w = (Raise e, w1) →
  files w !! final_manifest path = None →
  ∃ e' w2, read ku path only w1 = (Raise e', w2)
           ∧ (e' = FileNotFoundError ∨ e' = OSError)
           ∧ files w2 = files w1
           ∧ trace w2 = trace w1 ++ [EOpenR (final_manifest path)].
Proof.
  intros E Hn. apply read_missing_manifest. rewrite <- Hn.
  destruct (manifest_paths_apart path) as (A1 & A2 & A3 & A4 & A5 & A6).
  destruct (write_inv _ _ _ _ _ E)
    as [(e0 & _ & _ & ->) | (st & Hplan & [(e0 & Ec & _) | (w0 & Ec & H)])];
    [done | |].
  - by apply (runs_check_directory _ _ _ _ Ec).
  - pose proof (plan_planned _ _ Hplan) as Hp.
    destruct (runs_check_directory _ _ _ _ Ec) as [Hf1 _].
    assert (Hfiles : ∀ r w', write_files table path st w0 = (r, w') →
                             files w' !! final_manifest path
                             = files w !! final_manifest path).
    { intros r w' Ef. rewrite (write_files_frame _ _ _ _ _ _ _ Hp Ef).
      - by apply Hf1.
      - done.
      - done.
      - intros n Hn' Heq. destruct (data_prefix_relative _ Hn') as [Hr _].
        destruct (data_prefix_other _ Hn') as (H1 & _).
        apply os_path_join_inj in Heq; done. }
    destruct H as [(e0 & Ef & _) | (w2 & Ef & Er)]; [by eapply Hfiles |].
    rewrite (os_rename_raise _ _ _ _ _ Er). by eapply Hfiles.
Qed.

Lemma failed_write_is_not_readable_witness :
  ∃ e' w2,
    read jansky_known "out" None (snd (write example_table "out" failing_world))
    = (Raise e', w2)
    ∧ (e' = FileNotFoundError ∨ e' = OSError).
Proof.
  destruct (failed_write_is_not_readable jansky_known example_table "out" None
              failing_world OSError (snd (write example_table "out" failing_world)))
    as (e' & w2 & E & He & _).
  - by vm_compute.
  - reflexivity.
  - exists e', w2. split; assumption.
Defined.

(** ** The errors of a write *)

Lemma raises_only_weaken {A} (m : M A) (E E' : exn → Prop) :
  raises_only m E → (∀ e, E e → E' e) → raises_only m E'.
Proof. intros H Hsub w e w' Hm. apply Hsub. by eapply H. Qed.

Lemma raises_only_ret {A} (a : A) E : raises_only (ret a) E.
Proof. by intros w e w' H. Qed.

Lemma raises_only_raise {A} (e : exn) (E : exn → Prop) :
  E e → raises_only (@raise A e) E.
Proof. intros He w e' w' H. by injection H as <- _. Qed.

Lemma raises_only_bind {A B} (m : M A) (k : A → M B) E :
  raises_only m E → (∀ a, raises_only (k a) E) → raises_only (bind m k) E.
Proof.
  intros Hm Hk w e w' H.
  apply bind_inv in H as [(a & w1 & _ & H) | (e' & H & [= ->])].
  - by eapply Hk.
  - by eapply Hm.
Qed.

Lemma raises_only_lift {A} (r : result A) (E : exn → Prop) :
  (∀ e, r = Raise e → E e) → raises_only (lift r) E.
Proof.
  intros Hr w e w' H. unfold lift in H. destruct r as [a|e0]; [done |].
  injection H as <- _. by apply Hr.
Qed.

Lemma raises_only_log_fault {A} (ev : event) (k : M A) E :
  E OSError → raises_only k E →
  raises_only (log ev;; let! f := fault in if f : bool then raise OSError else k) E.
Proof.
  intros HE Hk w e w' H. unfold bind, log, fault, raise in H. simpl in H.
  destruct (oracle w) as [|[|] o]; simpl in H.
  - by eapply Hk.
  - by injection H as <- _.
  - by eapply Hk.
Qed.

Lemma raises_only_open_w p (E : exn → Prop) : E OSError → raises_only (open_w p) E.
Proof.
  intros HE. apply raises_only_log_fault; [done |].
  intros w e w' H. unfold set_node in H.
  destruct (files w !! p) as [[|c]|]; try done. by injection H as <- _.
Qed.

Lemma raises_only_fp_write p c (E : exn → Prop) :
  E OSError → raises_only (fp_write p c) E.
Proof. intros HE. apply raises_only_log_fault; [done |]. by intros w e w' H. Qed.

Lemma raises_only_np_save p arr (E : exn → Prop) :
  E OSError → E ValueError → raises_only (np_save p arr) E.
Proof.
  intros H1 H2. apply raises_only_bind; [by apply raises_only_open_w |].
  intros _. destruct (forallb is_scalar arr);
    [by apply raises_only_fp_write | by apply raises_only_raise].
Qed.

Lemma concat_arrays_raises arrays e : concat_arrays arrays = Raise e → e = ValueError.
Proof.
  induction arrays as [|a arrays IH]; [done |]. simpl.
  destruct a; try (by intros [= <-]).
  destruct (concat_arrays arrays); [done |]. simpl. intros [= <-]. by apply IH.
Qed.

Lemma np_concatenate_raises arrays e : np_concatenate arrays = Raise e → e = ValueError.
Proof.
  unfold np_concatenate. destruct arrays; [by intros [= <-] |].
  apply concat_arrays_raises.
Qed.

Lemma json_dumps_raises v e : json_dumps v = Raise e → e = TypeError.
Proof. unfold json_dumps. destruct (json_ok v); [done | by intros [= <-]]. Qed.

Lemma raises_only_write_manifest table path cols :
  raises_only (write_manifest table path cols) io_error.
Proof.
  unfold write_manifest, io_error.
  apply raises_only_bind; [apply raises_only_open_w; auto |]. intros _.
  apply raises_only_bind.
  - apply raises_only_lift. intros e He. apply json_dumps_raises in He. auto.
  - intros doc. apply raises_only_fp_write. auto.
Qed.

Lemma raises_only_write_mask path maskdatas :
  raises_only (write_mask path maskdatas) io_error.
Proof.
  unfold write_mask, io_error. destruct maskdatas as [|m ms]; [apply raises_only_ret |].
  apply raises_only_bind.
  - apply raises_only_lift. intros e He. apply np_concatenate_raises in He. auto.
  - intros arr. apply raises_only_np_save; auto.
Qed.

Lemma raises_only_write_datafiles path dfs :
  raises_only (write_datafiles path dfs) io_error.
Proof.
  unfold io_error. induction dfs as [|[k df] dfs IH]; [apply raises_only_ret |].
  cbn [write_datafiles]. apply raises_only_bind; [| by intros _].
  destruct (endswith (df_name df) ".json").
  - apply raises_only_bind; [apply raises_only_open_w; auto |]. intros _.
    apply raises_only_bind.
    + apply raises_only_lift. intros e He. apply json_dumps_raises in He. auto.
    + intros doc. apply raises_only_fp_write. auto.
  - apply raises_only_bind.
    + apply raises_only_lift. intros e He. apply np_concatenate_raises in He. auto.
    + intros arr. apply raises_only_np_save; auto.
Qed.

Lemma raises_only_write_files table path st :
  raises_only (write_files table path st) io_error.
Proof.
  unfold write_files.
  apply raises_only_bind; [apply raises_only_write_manifest |]. intros _.
  apply raises_only_bind; [apply raises_only_write_mask |]. intros _.
  apply raises_only_write_datafiles.
Qed.

Lemma check_directory_raise_inv path w e w' :
  check_directory path w = (Raise e, w') →
  (e = FileExistsError ∧ w' = w ∧ is_Some (files w !! path)
   ∧ files w !! tmp_manifest path = None)
  ∨ (e = OSError ∧ files w !! path = None).
Proof.
  intros E. destruct (files w !! path) as [n|] eqn:Hp.
  - rewrite check_directory_existing in E by (by rewrite Hp).
    destruct (bool_decide _) eqn:Eb; [done |]. injection E as <- <-.
    left. split; [done |]. split; [done |]. split; [by eexists |].
    apply bool_decide_eq_false_1 in Eb.
    destruct (files w !! tmp_manifest path); [by destruct Eb | done].
  - rewrite check_directory_new in E by done.
    unfold os_mkdir, bind, log, os_path_exists, fault, set_node, raise in E.
    simpl in E. rewrite Hp in E.
    rewrite bool_decide_eq_false_2 in E by (by intros [? ?]).
    destruct (oracle w) as [|[|] o]; simpl in E; try done.
    injection E as <- _. by right.
Qed.

Lemma os_rename_raise_inv src dst w e w' :
  os_rename src dst w = (Raise e, w') →
  e = OSError ∨ (e = FileNotFoundError ∧ files w !! src = None).
Proof.
  unfold os_rename, bind, log, fault, raise. simpl. intros E.
  destruct (oracle w) as [|[|] o]; simpl in E;
    try (injection E as <- _; by left);
    cbn [files oracle trace] in E;
    destruct (files w !! src) as [[|c]|] eqn:Es;
    destruct (files w !! dst) as [[|c']|] eqn:Ed;
    try discriminate E; injection E as <- _; auto.
Qed.

(** The temporary manifest is in place when the files are written. *)
Lemma write_files_ok_tmp table path st w w' :
  planned (tbl_masked table) (tbl_columns table) st →
  write_files table path st w = (Ok tt, w') →
  is_Some (files w' !! tmp_manifest path).
Proof.
  intros Hp Ef. unfold write_files in Ef.
  destruct (manifest_paths_apart path) as (A1 & A2 & A3 & A4 & A5 & A6).
  destruct (planned_paths_apart _ _ _ path Hp) as (B1 & B2 & B3 & B4).
  apply bind_inv in Ef as [([] & wa & Ea & Ef) | (e & _ & ?)]; [| done].
  apply bind_inv in Ef as [([] & wb & Eb & Ef) | (e & _ & ?)]; [| done].
  apply write_manifest_ok_inv in Ea.
  destruct (runs_write_mask _ _ _ _ _ Eb) as [Hfb _].
  destruct (runs_write_datafiles _ _ _ _ _ Ef) as [Hfd _].
  rewrite Hfd by done. rewrite Hfb by set_solver. by rewrite Ea.
Qed.

Lemma plannable_refused m c : plannable m c = false ↔ refused m c.
Proof.
  unfold plannable, refused, col_length.
  destruct (is_text c), (str_in "<" (col_dtype_str c)), (has_invalid m c); simpl;
    try (split; [done | by intros [[? ?] | [? ?]]]);
    try (split; [intros _; by left | done]);
    rewrite ?Nat.eqb_neq; split; try (intros H; by right); try (by intros [[? ?] | [? ?]]);
    try (intros _; by left).
Qed.

Lemma forallb_false_elem {A} (f : A → bool) (l : list A) :
  forallb f l = false → ∃ x, x ∈ l ∧ f x = false.
Proof.
  induction l as [|a l IH]; [done |]. simpl. destruct (f a) eqn:Ea; simpl.
  - intros H. destruct (IH H) as (x & Hx & Hfx). exists x.
    split; [by apply list_elem_of_further | done].
  - intros _. exists a. split; [apply list_elem_of_here | done].
Qed.

(** X4: the errors of [write].  An [AssertionError] means that a column
    failed one of the two assertions of the loop, and a
    [FileExistsError] that the path existed without a temporary
    manifest; in both cases nothing was touched.  Any other error is an
    [OSError], a [TypeError] or a [ValueError]. *)
Theorem write_error_kinds table path w e w' :
  write table path w = (Raise e, w') →
  (e = AssertionError ∧ w' = w
   ∧ ∃ c, c ∈ tbl_columns table ∧ refused (tbl_masked table) c)
  ∨ (e = FileExistsError ∧ w' = w
     ∧ is_Some (files w !! path) ∧ files w !! tmp_manifest path = None)
  ∨ io_error e.
Proof.
  intros E.
  destruct (write_inv _ _ _ _ _ E)
    as [(e0 & Hplan & [= ->] & ->) | (st & Hplan & [(e0 & Ec & [= ->]) | (w1 & Ec & H)])].
  - destruct (plan_columns_raises _ _ _ _ Hplan) as [-> | ->].
    + left. split; [done |]. split; [done |].
      destruct (plan_columns_asserts _ _ _ Hplan) as (c & Hc & Hpl).
      exists c. split; [done |]. by apply plannable_refused.
    + right. right. right. by right.
  - apply check_directory_raise_inv in Ec as [(-> & -> & H1 & H2) | [-> _]].
    + right. left. by repeat split.
    + right. right. by left.
  - right. right. pose proof (plan_planned _ _ Hplan) as Hp.
    destruct H as [(e0 & Ef & [= ->]) | (w2 & Ef & Er)].
    + by apply (raises_only_write_files _ _ _ _ _ _ Ef).
    + apply os_rename_raise_inv in Er as [-> | [_ Hnone]]; [by left |].
      destruct (write_files_ok_tmp _ _ _ _ _ Hp Ef) as [n Hn]. congruence.
Qed.

Lemma write_error_kinds_witness :
  io_error TypeError
  ∧ fst (write bytes_meta_table "out" empty_world) = Raise TypeError.
Proof.
  destruct (write_error_kinds bytes_meta_table "out" empty_world TypeError
              (snd (write bytes_meta_table "out" empty_world)))
    as [(He & _) | [(He & _) | He]]; [by vm_compute | done | done |].
  split; [exact He | by vm_compute].
Defined.

(** X5: in a masked table, a column with an invalid entry whose mask
    has another length than its data fails the assertion on the mask's
    shape: [write] raises [AssertionError] before anything is touched,
    wherever the column stands in the table. *)
Theorem write_refuses_misshapen_mask table path w c :
  c ∈ tbl_columns table → tbl_masked table = true →
  existsb id (col_mask c) = true → length (col_mask c) ≠ length (col_data c) →
  write table path w = (Raise AssertionError, w).
Proof.
  intros Hc Hm Hany Hlen. rewrite write_eq. unfold plan.
  apply list_elem_of_split in Hc as (pre & post & ->).
  rewrite plan_columns_refused; [done | |].
  - intros c' _. unfold buffered. by rewrite Hm.
  - apply plannable_refused. right. unfold has_invalid. by rewrite Hm, Hany.
Qed.

Lemma write_refuses_misshapen_mask_witness :
  write {| tbl_columns :=
             [ {| col_name := "a"; col_dtype_char := "d"; col_dtype_str := "float64";
                  col_data := [PInt 1; PInt 2]; col_mask := [true]; col_unit := None |} ];
           tbl_masked := true; tbl_meta := PDict [] |} "out" empty_world
  = (Raise AssertionError, empty_world).
Proof.
  apply (write_refuses_misshapen_mask _ "out" empty_world
           {| col_name := "a"; col_dtype_char := "d"; col_dtype_str := "float64";
              col_data := [PInt 1; PInt 2]; col_mask := [true]; col_unit := None |}).
  - apply list_elem_of_here.
  - reflexivity.
  - reflexivity.
  - discriminate.
Defined.

(** ** The mask file *)

Lemma mask_cols_nil m cols :
  (m = false ∨ ∀ c, c ∈ cols → existsb id (col_mask c) = false) → mask_cols m cols = [].
Proof.
  intros H. unfold mask_cols. induction cols as [|c cols IH]; [done |].
  rewrite filter_cons. destruct (decide (has_invalid m c = true)) as [Hi|Hi].
  - exfalso. unfold has_invalid in Hi. destruct H as [-> | H]; [done |].
    rewrite (H c) in Hi by apply list_elem_of_here. by destruct m.
  - apply IH. destruct H as [-> | H]; [by left | right].
    intros c' Hc'. apply H. by apply list_elem_of_further.
Qed.

(** X6: when the table is not masked, or no column has an invalid entry,
    [write] neither creates nor changes [mask.npy]: in a new directory
    there is none afterwards. *)
Theorem write_without_invalid_entries_skips_mask table path w r w' :
  write table path w = (r, w') →
  (tbl_masked table = false
   ∨ ∀ c, c ∈ tbl_columns table → existsb id (col_mask c) = false) →
  files w' !! mask_file path = files w !! mask_file path.
Proof.
  intros E Hnone. apply mask_cols_nil in Hnone.
  destruct (manifest_paths_apart path) as (A1 & A2 & A3 & A4 & A5 & A6).
  destruct (write_inv _ _ _ _ _ E)
    as [(e & _ & _ & ->) | (st & Hplan & [(e & Ec & _) | (w1 & Ec & H)])];
    [done | |].
  - by apply (runs_check_directory _ _ _ _ Ec).
  - pose proof (plan_planned _ _ Hplan) as Hp.
    destruct (planned_paths_apart _ _ _ path Hp) as (B1 & B2 & B3 & B4).
    destruct (runs_check_directory _ _ _ _ Ec) as [Hf1 _].
    assert (Hfiles : ∀ r2 w2, write_files table path st w1 = (r2, w2) →
                              files w2 !! mask_file path = files w !! mask_file path).
    { intros r2 w2 Ef. rewrite <- (Hf1 (mask_file path)) by done.
      unfold write_files in Ef. rewrite (planned_maskdatas _ _ _ Hp), Hnone in Ef.
      cbn [map write_mask] in Ef.
      apply bind_inv in Ef as [([] & wa & Ea & Ef) | (e & Ea & _)].
      - destruct (runs_write_manifest _ _ _ _ _ _ Ea) as [Hfa _].
        apply bind_inv in Ef as [([] & wb & Eb & Ef) | (e & Eb & _)]; [| done].
        injection Eb as <-.
        destruct (runs_write_datafiles _ _ _ _ _ Ef) as [Hfd _].
        rewrite Hfd by done. apply Hfa. set_solver.
      - destruct (runs_write_manifest _ _ _ _ _ _ Ea) as [Hfa _].
        apply Hfa. set_solver. }
    destruct H as [(e & Ef & _) | (w2 & Ef & Er)]; [by eapply Hfiles |].
    destruct (runs_os_rename _ _ _ _ _ Er) as [Hf3 _].
    rewrite Hf3 by set_solver. by eapply Hfiles.
Qed.

Lemma write_without_invalid_entries_skips_mask_witness :
  files (snd (write big_endian_table "out" empty_world)) !! mask_file "out" = None.
Proof.
  rewrite (write_without_invalid_entries_skips_mask big_endian_table "out" empty_world
             (fst (write big_endian_table "out" empty_world))
             (snd (write big_endian_table "out" empty_world))).
  - reflexivity.
  - apply surjective_pairing.
  - by left.
Defined.

(** ** File names *)

Lemma key_file_own cols c :
  c ∈ cols →
  (∀ c', c' ∈ cols → is_text c' = false → col_dtype_str c' ≠ "text") →
  key_file cols (storage_key c) = default_name c.
Proof.
  intros Hc Hno. unfold key_file.
  destruct (key_cols (storage_key c) cols) as [|c0 cs] eqn:Ek.
  - exfalso. by eapply key_cols_elem.
  - assert (Hc0 : c0 ∈ cols ∧ storage_key c0 = storage_key c).
    { apply key_cols_sub. rewrite Ek. apply list_elem_of_here. }
    destruct Hc0 as [Hc0 Hk]. unfold default_name, storage_key in *.
    destruct (is_text c0) eqn:T0, (is_text c) eqn:T; try done.
    + exfalso. by apply (Hno c Hc T).
    + exfalso. by apply (Hno c0 Hc0 T0).
    + by rewrite Hk.
Qed.

(** X7: the manifest entry of a column carries the column's name, its
    length, its unit string when it has a unit, and a file name that
    depends on the column's own type alone: [data.text.json] for text,
    [data.<dtype>.npy] otherwise (no non-text dtype being called
    ["text"]). *)
Theorem entry_describes_its_column table st i c e :
  plan table = Ok st →
  (∀ c', c' ∈ tbl_columns table → is_text c' = false → col_dtype_str c' ≠ "text") →
  tbl_columns table !! i = Some c → columns st !! i = Some e →
  ce_name e = col_name c
  ∧ ce_file e = (if is_text c then "data.text.json"
                 else "data." +:+ col_dtype_str c +:+ ".npy")
  ∧ ce_length e = length (col_data c)
  ∧ ce_unit e = option_map unit_str (col_unit c).
Proof.
  intros Hplan Hno Hc He. pose proof (plan_planned _ _ Hplan) as Hp.
  destruct (layout_entry_file _ _ _ _ _ Hp Hc He) as [-> Hfile].
  split; [done |]. split; [| done].
  rewrite Hfile, key_file_own; [done | by eapply list_elem_of_lookup_2 | done].
Qed.

Lemma entry_describes_its_column_witness :
  ∃ st, plan example_table = Ok st
        ∧ map ce_file (columns st)
          = ["data.int32.npy"; "data.text.json"; "data.float64.npy"].
Proof.
  destruct (plan example_table) as [st|] eqn:Hplan; [| by vm_compute in Hplan].
  exists st. split; [done |].
  assert (Hno : ∀ c', c' ∈ tbl_columns example_table → is_text c' = false →
                      col_dtype_str c' ≠ "text").
  { intros c' Hc' _. unfold example_table in Hc'. simpl in Hc'.
    repeat (apply elem_of_cons in Hc' as [-> | Hc']; [discriminate |]).
    by apply elem_of_nil in Hc'. }
  assert (Hlen : length (columns st) = 3).
  { rewrite (planned_columns _ _ _ (plan_planned _ _ Hplan)).
    by rewrite layout_entries_length. }
  destruct (columns st) as [|e0 [|e1 [|e2 [|]]]] eqn:Ecols; try discriminate Hlen.
  destruct (entry_describes_its_column example_table st 0 _ e0 Hplan Hno eq_refl)
    as (_ & H0 & _); [by rewrite Ecols |].
  destruct (entry_describes_its_column example_table st 1 _ e1 Hplan Hno eq_refl)
    as (_ & H1 & _); [by rewrite Ecols |].
  destruct (entry_describes_its_column example_table st 2 _ e2 Hplan Hno eq_refl)
    as (_ & H2 & _); [by rewrite Ecols |].
  simpl. by rewrite H0, H1, H2.
Defined.

(** * Further properties of the reader *)

(** ** Writing, then reading some of the columns *)

(** X8: a well-formed table written into a fresh directory with no
    outside failure can be read back in part: for a duplicate-free list
    of its column names, [read] returns columns with these names, in this
    order, each with the values, the mask and the unit of the column of
    that name in the table, and the table's metadata as JSON gives it
    back, which is the metadata itself when it holds only [None],
    booleans, numbers, strings, lists and dictionaries with distinct
    string keys. *)
Theorem write_then_read_selected ku table path w only :
  table_ok table → fresh path w → oracle w = [] →
  NoDup only → (∀ n, n ∈ only → n ∈ colnames table) →
  ∃ w1 R w2,
    write table path w = (Ok tt, w1)
    ∧ read ku path (Some only) w1 = (Ok R, w2)
    ∧ map rc_name (rt_columns R) = only
    ∧ (∀ rc, rc ∈ rt_columns R →
         ∃ c, c ∈ tbl_columns table ∧ rc_name rc = col_name c
              ∧ rc_values rc = col_values c ∧ rc_invalid rc = col_mask c
              ∧ option_map unit_str (rc_unit rc) = option_map unit_str (col_unit c))
    ∧ rt_meta R = json_image (tbl_meta table)
    ∧ (json_native (tbl_meta table) = true → rt_meta R = tbl_meta table)
    ∧ rt_masked R = PBool (tbl_masked table).
Proof.
  intros Hok Hfresh Ho Hnd Hsub.
  destruct (write_ok table path w Hok Hfresh Ho)
    as (st & w1 & Hplan & Hwrite & Ho1 & Hman & Hdata & Hmask).
  pose proof (table_of_written ku table path (files w1) st Hok Hplan Hman Hdata Hmask)
    as Hfull.
  destruct (table_of_select ku (files w1) path only _ Hfull Hnd)
    as (R & HR & Hnames & Hin & Hmeta & Hmasked).
  { intros n Hn. simpl. rewrite <- list_fmap_compose. by apply Hsub. }
  destruct (read_quiet ku (files w1) path (Some only) w1) as (w2 & Hread & _); [done |].
  rewrite HR in Hread. simpl in Hmeta, Hmasked. exists w1, R, w2.
  split; [done |]. split; [done |]. split; [done |].
  split; [| split; [done |]; split; [| done]].
  2:{ intros Hn. rewrite Hmeta. by destruct (json_native_image _ Hn) as [_ ->]. }
  intros rc Hrc. apply Hin in Hrc. simpl in Hrc.
  apply list_elem_of_fmap in Hrc as (c & -> & Hc). exists c.
  split; [done |]. split; [done |]. split; [done |]. split.
  - apply read_back_invalid. by apply (ok_columns _ Hok).
  - simpl. destruct (col_unit c) as [u|]; [| done]. simpl. unfold resolve_unit.
    by destruct (ku (unit_str u)).
Qed.

Lemma write_then_read_selected_witness :
  ∃ w1 R w2,
    write example_table "out" empty_world = (Ok tt, w1)
    ∧ read jansky_known "out" (Some ["flux"; "id"]) w1 = (Ok R, w2)
    ∧ map rc_name (rt_columns R) = ["flux"; "id"].
Proof.
  destruct (write_then_read_selected jansky_known example_table "out" empty_world
              ["flux"; "id"]) as (w1 & R & w2 & Hw & Hr & Hn & _).
  - exact example_table_ok.
  - split; [reflexivity | intros name _; apply lookup_empty].
  - reflexivity.
  - apply NoDup_cons. split; [| apply NoDup_singleton].
    intros Hin. by apply list_elem_of_singleton in Hin.
  - intros n Hn. change (colnames example_table) with ["id"; "name"; "flux"].
    apply elem_of_cons in Hn as [-> | Hn];
      [do 2 apply list_elem_of_further; apply list_elem_of_here |].
    apply elem_of_cons in Hn as [-> | Hn]; [apply list_elem_of_here |].
    by apply elem_of_nil in Hn.
  - exists w1, R, w2. split; [assumption |]. split; assumption.
Defined.

(** ** What a read depends on *)

Lemma load_buffer_agree fs1 fs2 path f :
  (str_in "/" f = false → fs1 !! os_path_join path f = fs2 !! os_path_join path f) →
  load_buffer fs1 path f = load_buffer fs2 path f.
Proof.
  unfold load_buffer, assert, read_npy, read_json, read_file.
  destruct (str_in "/" f); simpl; [done |]. intros H. by rewrite (H eq_refl).
Qed.

Lemma column_of_agree ku fs1 fs2 path c :
  (∀ f, column_file c = Ok f → str_in "/" f = false →
        fs1 !! os_path_join path f = fs2 !! os_path_join path f) →
  (has_maskoffset c = true → fs1 !! mask_file path = fs2 !! mask_file path) →
  column_of ku fs1 path c = column_of ku fs2 path c.
Proof.
  intros Hfile Hmask. unfold column_of. unfold column_file in Hfile.
  destruct (let? v := py_getitem c "name" in as_str v) as [name|]; [| done].
  cbn [rbind].
  destruct (let? v := py_getitem c "file" in as_str v) as [f|]; [| done].
  cbn [rbind]. rewrite (load_buffer_agree fs1 fs2 path f) by auto.
  destruct (load_buffer fs2 path f) as [a|]; [| done]. cbn [rbind].
  destruct (py_getitem c "offset") as [offset|]; [| done]. cbn [rbind].
  destruct (py_getitem c "length") as [len|]; [| done]. cbn [rbind].
  destruct (as_index offset) as [lo|]; [| done]. cbn [rbind].
  destruct (as_index len) as [n|]; [| done]. cbn [rbind].
  destruct (buffer_slice a lo (lo + n)) as [a'|]; [| done]. cbn [rbind].
  unfold has_maskoffset in Hmask.
  destruct (py_haskey c "maskoffset") as [[|]|]; try done. cbn [rbind].
  unfold read_npy, read_file. by rewrite Hmask.
Qed.

Lemma columns_of_agree ku fs1 fs2 path cols rest :
  (∀ c, c ∈ rest → c ∈ cols) →
  (∀ p, referenced path cols p → fs1 !! p = fs2 !! p) →
  columns_of ku fs1 path rest = columns_of ku fs2 path rest.
Proof.
  intros Hsub Hagree. induction rest as [|c rest IH]; [done |]. simpl.
  rewrite (column_of_agree ku fs1 fs2 path c).
  - rewrite IH; [done |]. intros c' Hc'. by apply Hsub, list_elem_of_further.
  - intros f Hf Hs. apply Hagree. left. exists c, f.
    split; [apply Hsub, list_elem_of_here | done].
  - intros Hm. apply Hagree. right. split; [done |]. exists c.
    split; [apply Hsub, list_elem_of_here | done].
Qed.

(** X9: with no outside failure, the result of a [read] is a function of
    the manifest and of the files the requested columns reference (their
    data files, and the mask file for a column with a mask offset): two
    file systems that agree on these give the same table or the same
    error, whatever else the directory holds. *)
Theorem read_depends_on_referenced_files ku path only w1 w2 bintable cols :
  oracle w1 = [] → oracle w2 = [] →
  files w1 !! final_manifest path = Some (File (CJson bintable)) →
  files w2 !! final_manifest path = Some (File (CJson bintable)) →
  requested_columns bintable only = Ok cols →
  (∀ p, referenced path cols p → files w1 !! p = files w2 !! p) →
  fst (read ku path only w1) = fst (read ku path only w2).
Proof.
  intros Ho1 Ho2 H1 H2 Hreq Hagree.
  destruct (read_quiet ku (files w1) path only w1) as (w1' & -> & _); [done |].
  destruct (read_quiet ku (files w2) path only w2) as (w2' & -> & _); [done |].
  simpl. unfold table_of.
  rewrite (proj2 (read_json_inv _ _ _) H1), (proj2 (read_json_inv _ _ _) H2).
  cbn [rbind]. destruct (py_getitem bintable "meta") as [meta|]; [| done].
  cbn [rbind]. destruct (py_getitem bintable "masked") as [masked|]; [| done].
  cbn [rbind]. rewrite Hreq. cbn [rbind].
  by rewrite (columns_of_agree ku (files w1) (files w2) path cols cols).
Qed.

Lemma read_depends_on_referenced_files_witness :
  fst (read jansky_known "out" (Some ["id"]) example_dataset)
  = fst (read jansky_known "out" (Some ["id"])
           (World (delete "out/data.float64.npy" (files example_dataset)) [] [])).
Proof.
  apply (read_depends_on_referenced_files jansky_known "out" (Some ["id"])
           example_dataset
           (World (delete "out/data.float64.npy" (files example_dataset)) [] [])
           (manifest_json example_table
              (match plan example_table with
               | Ok st => columns st
               | Raise _ => []
               end))
           [entry_json {| ce_name := "id"; ce_file := "data.int32.npy";
                          ce_offset := 0; ce_length := 3;
                          ce_maskoffset := None; ce_unit := None |}]).
  - by vm_compute.
  - reflexivity.
  - by vm_compute.
  - by vm_compute.
  - by vm_compute.
  - intros p [(c & f & Hc & Hf & _ & ->) | [_ (c & Hc & Hm)]].
    + apply list_elem_of_singleton in Hc as ->. vm_compute in Hf.
      injection Hf as <-. cbn [files]. by rewrite lookup_delete_ne.
    + apply list_elem_of_singleton in Hc as ->. by vm_compute in Hm.
Defined.

(** ** Backing files of an unknown kind *)

Lemma column_of_extension ku fs path c l f :
  column_of ku fs path c = Ok l → column_file c = Ok f →
  endswith f ".npy" = true ∨ endswith f ".json" = true.
Proof.
  unfold column_of, column_file. intros H Hf. inv_rbind H.
  match goal with
  | Hl : load_buffer _ _ ?f' = Ok _ |- _ =>
      assert (f' = f) as -> by congruence; unfold load_buffer in Hl;
      destruct (assert (negb (str_in "/" f))); cbn [rbind] in Hl; [| done];
      destruct (endswith f ".npy"); [by left |];
      destruct (endswith f ".json"); [by right | done]
  end.
Qed.

(** X10: a column whose file name ends neither in [.npy] nor in [.json]
    is never loaded: the iteration that meets it first raises [KeyError]
    without opening anything, and a [read] that returns a table has met
    no such column. *)
Theorem read_needs_known_extension :
  (∀ ku path column st w name f,
     (let? v := py_getitem column "name" in as_str v) = Ok name →
     column_file column = Ok f → backing st !! f = None →
     str_in "/" f = false →
     endswith f ".npy" = false → endswith f ".json" = false →
     read_column ku path column st w = (Raise KeyError, w))
  ∧ (∀ ku path only w R w' bintable cols,
       oracle w = [] → read ku path only w = (Ok R, w') →
       files w !! final_manifest path = Some (File (CJson bintable)) →
       requested_columns bintable only = Ok cols →
       ∀ c f, c ∈ cols → column_file c = Ok f →
              endswith f ".npy" = true ∨ endswith f ".json" = true).
Proof.
  split.
  - intros ku path column st w name f Hn Hf Hb Hs H1 H2.
    unfold read_column. unfold column_file in Hf.
    rewrite (bind_lift_ok _ _ _ _ Hn), (bind_lift_ok _ _ _ _ Hf).
    assert (Hopen : open_backing path f (backing st) w = (Ok (backing st), w)).
    { unfold open_backing, assert. by rewrite Hb, Hs, H1, H2. }
    rewrite (bind_ok _ _ _ _ _ Hopen). by rewrite Hb.
  - intros ku path only w R w' bintable cols Ho E Hman Hreq c f Hc Hf.
    destruct (read_quiet ku (files w) path only w) as (w2 & E2 & _); [done |].
    rewrite E in E2. injection E2 as HR _. symmetry in HR.
    destruct (table_of_inv _ _ _ _ _ HR) as (b' & cols' & ls & Hb & Hreq' & Hls & _).
    apply read_json_inv in Hb. rewrite Hman in Hb. injection Hb as <-.
    rewrite Hreq in Hreq'. injection Hreq' as <-.
    apply columns_of_Forall2 in Hls.
    apply list_elem_of_lookup in Hc as [i Hi].
    destruct (Forall2_lookup_l _ _ _ _ _ Hls Hi) as (l & _ & Hl).
    by eapply column_of_extension.
Qed.

Lemma read_needs_known_extension_witness :
  read_column jansky_known "out"
    (PDict [(KStr "name", PStr "x"); (KStr "file", PStr "data.bin");
            (KStr "offset", PInt 0); (KStr "length", PInt 1)])
    read_init empty_world
  = (Raise KeyError, empty_world).
Proof.
  destruct read_needs_known_extension as [H _].
  apply (H jansky_known "out" _ read_init empty_world "x" "data.bin"); reflexivity.
Defined.

(** ** Units *)

Lemma column_of_unit ku fs path c l :
  column_of ku fs path c = Ok l →
  (py_haskey c "unit" = Ok false ∧ ld_unit l = None)
  ∨ ∃ s, py_haskey c "unit" = Ok true
         ∧ (let? v := py_getitem c "unit" in as_str v) = Ok s
         ∧ ld_unit l = Some (resolve_unit ku s).
Proof.
  unfold column_of. intros H. inv_rbind H. injection H as <-. simpl.
  match goal with
  | Hu : (if ?b then _ else _) = Ok ?u, Hb : py_haskey c "unit" = Ok ?b |- _ =>
      destruct b; [right | left; split; [done |]; by injection Hu as <-]
  end.
  match goal with
  | Hu : rbind ?r _ = Ok _ |- _ =>
      destruct r as [s|] eqn:Es; cbn [rbind] in Hu; [| done];
      injection Hu as <-; by exists s
  end.
Qed.

(** X11: on a dataset whose manifest [write] produced from a table whose
    columns have names, with no outside failure, the columns of the table a [read] returns are the requested
    manifest entries in order, each under the name of its entry, and the
    unit of each is decided by its entry alone: no unit when the entry has
    none; otherwise the unit the registry has for the entry's string, or
    an ad hoc unit of that name when the registry does not know it. *)
Theorem read_resolves_units ku path only w R w' table st cols :
  oracle w = [] → plan table = Ok st → "" ∉ colnames table →
  files w !! final_manifest path
  = Some (File (CJson (manifest_json table (columns st)))) →
  read ku path only w = (Ok R, w') →
  requested_columns (manifest_json table (columns st)) only = Ok cols →
  length (rt_columns R) = length cols
  ∧ ∀ i column rc, cols !! i = Some column → rt_columns R !! i = Some rc →
      ∃ e, e ∈ columns st ∧ column = entry_json e
           ∧ rc_name rc = ce_name e
           ∧ rc_unit rc
             = option_map (fun s => if ku s then UnitOf s else DefUnit s) (ce_unit e).
Proof.
  intros Ho Hplan _ Hman E Hreq.
  destruct (read_quiet ku (files w) path only w) as (w2 & E2 & _); [done |].
  rewrite E in E2. injection E2 as HR _. symmetry in HR.
  destruct (table_of_inv _ _ _ _ _ HR) as (b' & cols' & ls & Hb & Hreq' & Hls & HRc & _).
  apply read_json_inv in Hb. rewrite Hman in Hb. injection Hb as <-.
  rewrite Hreq in Hreq'. injection Hreq' as <-.
  apply columns_of_Forall2 in Hls. rewrite HRc. simpl.
  split; [by rewrite length_map, (Forall2_length _ _ _ Hls) |].
  intros i column rc Hcol Hrc. rewrite list_lookup_fmap in Hrc.
  destruct (ls !! i) as [l|] eqn:El; [| done]. injection Hrc as <-.
  pose proof (Forall2_lookup_lr _ _ _ _ _ _ Hls Hcol El) as Hl. simpl.
  assert (Hin : column ∈ map entry_json (columns st)).
  { apply (requested_columns_sub _ _ _ _ Hreq eq_refl).
    by eapply list_elem_of_lookup_2. }
  apply list_elem_of_fmap in Hin as (e & -> & He).
  exists e. split; [done |]. split; [done |].
  pose proof (column_of_name _ _ _ _ _ Hl) as Hname.
  rewrite entry_get_name in Hname. cbn [rbind as_str] in Hname.
  injection Hname as <-. split; [done |].
  destruct (column_of_unit _ _ _ _ _ Hl) as [[Hk ->] | (s & Hk & Hs & ->)];
    rewrite entry_has_unit in Hk; injection Hk as Hk.
  - apply bool_decide_eq_false_1 in Hk.
    destruct (ce_unit e) as [u|]; [| done]. destruct Hk. by eexists.
  - apply bool_decide_eq_true_1 in Hk. destruct Hk as [u Hu].
    rewrite (entry_get_unit _ _ Hu) in Hs. cbn [rbind as_str] in Hs.
    injection Hs as <-. by rewrite Hu.
Qed.

Lemma read_resolves_units_witness :
  ∃ rc, rt_columns
          (match fst (read (fun _ => false) "out" (Some ["flux"]) example_dataset) with
           | Ok R => R
           | Raise _ => {| rt_columns := []; rt_meta := PNone; rt_masked := PNone |}
           end) !! 0 = Some rc
        ∧ rc_name rc = "flux" ∧ rc_unit rc = Some (DefUnit "Jy").
Proof.
  destruct (read_resolves_units (fun _ => false) "out" (Some ["flux"]) example_dataset
              (match fst (read (fun _ => false) "out" (Some ["flux"]) example_dataset) with
               | Ok R => R
               | Raise _ => {| rt_columns := []; rt_meta := PNone; rt_masked := PNone |}
               end)
              (snd (read (fun _ => false) "out" (Some ["flux"]) example_dataset))
              example_table
              (match plan example_table with Ok st => st | Raise _ => plan_init end)
              [entry_json {| ce_name := "flux"; ce_file := "data.float64.npy";
                             ce_offset := 0; ce_length := 3;
                             ce_maskoffset := Some 0; ce_unit := Some "Jy" |}])
    as [Hlen Hall].
  - by vm_compute.
  - by vm_compute.
  - change (colnames example_table) with ["id"; "name"; "flux"]. intros Hin.
    repeat (apply elem_of_cons in Hin as [Hin | Hin]; [discriminate Hin |]).
    by apply elem_of_nil in Hin.
  - by vm_compute.
  - by vm_compute.
  - by vm_compute.
  - destruct (rt_columns _) as [|rc [|]]; try discriminate Hlen. clear Hlen.
    exists rc. split; [reflexivity |].
    destruct (Hall 0 _ rc eq_refl eq_refl) as (e & _ & He & Hn & Hu).
    assert (He' : e = {| ce_name := "flux"; ce_file := "data.float64.npy";
                         ce_offset := 0; ce_length := 3;
                         ce_maskoffset := Some 0; ce_unit := Some "Jy" |}).
    { clear -He. destruct e as [n f o len mo u]. unfold entry_json in He. simpl in He.
      destruct mo as [mo|], u as [u|]; simpl in He; try discriminate He.
      injection He as <- <- Ho Hl Hm <-.
      apply (inj Z.of_nat 0) in Ho. apply (inj Z.of_nat 3) in Hl.
      apply (inj Z.of_nat 0) in Hm. by subst. }
    subst e. split; [exact Hn | exact Hu].
Defined.

(** ** Asking twice for a column *)

Lemma table_of_select_twice ku fs path only R :
  table_of ku fs path None = Ok R →
  ¬ NoDup only → (∀ n, n ∈ only → n ∈ map rc_name (rt_columns R)) →
  table_of ku fs path (Some only) = Raise ValueError.
Proof.
  unfold table_of. intros H Hnd Hsub.
  destruct (read_json fs (final_manifest path)) as [bintable|]; [| done].
  cbn [rbind] in *.
  destruct (py_getitem bintable "meta") as [meta|]; [| done]. cbn [rbind] in *.
  destruct (py_getitem bintable "masked") as [masked|]; [| done]. cbn [rbind] in *.
  unfold requested_columns in *.
  destruct (py_getitem bintable "columns") as [columns|]; [| done]. cbn [rbind] in *.
  destruct (py_iter columns) as [cols|]; [| done]. cbn [rbind] in *.
  destruct (columns_of ku fs path cols) as [ls|] eqn:Hls; [| done]. cbn [rbind] in *.
  rewrite assemble_table in H.
  destruct (masked_flag_ok masked) eqn:Hmf; [| done].
  destruct (bool_decide (NoDup (map ld_name ls))) eqn:Hn; [| done].
  apply bool_decide_eq_true in Hn.
  destruct (same_lengths (map ld_data ls)) eqn:Hsl; [| done].
  cbn [andb] in H. destruct (table_meta meta) as [meta'|] eqn:Hmeta; [| done].
  cbn [rbind] in H. injection H as <-. simpl in *.
  apply columns_of_Forall2 in Hls.
  destruct (build_coldict_spec ku fs path cols ls ∅ Hls Hn) as (d & -> & _ & HB).
  cbn [rbind].
  destruct (select_columns_spec ku fs path d ls only) as (cs & ls' & -> & Hcs & Hns & Hin).
  { intros n Hin. apply Hsub in Hin. rewrite map_map in Hin. simpl in Hin.
    apply list_elem_of_fmap in Hin as (l & -> & Hl).
    apply list_elem_of_lookup in Hl as [i Hi].
    destruct (Forall2_lookup_r _ _ _ _ _ Hls Hi) as (c & Hc & Hcol).
    exists c, l. repeat split; try done.
    - by eapply HB.
    - by eapply list_elem_of_lookup_2. }
  cbn [rbind]. rewrite Hcs. cbn [rbind]. rewrite assemble_table.
  rewrite Hns, bool_decide_eq_false_2 by done. by rewrite andb_false_r.
Qed.

(** X12: on a dataset whose manifest [write] produced from a table whose
    columns have names, and that a full read returns as a table, with no
    outside failure, a selective read that names one of its columns twice
    fails: the table constructor refuses the duplicate with [ValueError],
    after the columns' files have been loaded; no file is changed. *)
Theorem selective_read_duplicate_name ku path only w table st R w1 :
  oracle w = [] →
  plan table = Ok st → "" ∉ colnames table →
  files w !! final_manifest path
  = Some (File (CJson (manifest_json table (columns st)))) →
  read ku path None w = (Ok R, w1) →
  ¬ NoDup only → (∀ n, n ∈ only → n ∈ map rc_name (rt_columns R)) →
  ∃ w2, read ku path (Some only) w = (Raise ValueError, w2) ∧ files w2 = files w.
Proof.
  intros Ho _ _ _ E Hnd Hsub.
  destruct (read_quiet ku (files w) path None w) as (w' & E1 & _); [done |].
  rewrite E in E1. injection E1 as HR _. symmetry in HR.
  destruct (read_quiet ku (files w) path (Some only) w) as (w2 & E2 & [_ Hf]); [done |].
  rewrite (table_of_select_twice ku (files w) path only R HR Hnd Hsub) in E2.
  by exists w2.
Qed.

Lemma selective_read_duplicate_name_witness :
  ∃ w2, read jansky_known "out" (Some ["id"; "id"]) example_dataset
        = (Raise ValueError, w2).
Proof.
  destruct (selective_read_duplicate_name jansky_known "out" ["id"; "id"] example_dataset
              example_table
              (match plan example_table with Ok st => st | Raise _ => plan_init end)
              (match fst (read jansky_known "out" None example_dataset) with
               | Ok R => R
               | Raise _ => {| rt_columns := []; rt_meta := PNone; rt_masked := PNone |}
               end)
              (snd (read jansky_known "out" None example_dataset)))
    as (w2 & E & _).
  - by vm_compute.
  - by vm_compute.
  - change (colnames example_table) with ["id"; "name"; "flux"]. intros Hin.
    repeat (apply elem_of_cons in Hin as [Hin | Hin]; [discriminate Hin |]).
    by apply elem_of_nil in Hin.
  - by vm_compute.
  - by vm_compute.
  - intros Hnd. apply NoDup_cons in Hnd as [Hnd _]. apply Hnd, list_elem_of_here.
  - intros n Hn.
    assert (Hnames : map rc_name (rt_columns
              (match fst (read jansky_known "out" None example_dataset) with
               | Ok R => R
               | Raise _ => {| rt_columns := []; rt_meta := PNone; rt_masked := PNone |}
               end)) = ["id"; "name"; "flux"]) by by vm_compute.
    rewrite Hnames. clear Hnames.
    repeat (apply elem_of_cons in Hn as [-> | Hn]; [apply list_elem_of_here |]).
    by apply elem_of_nil in Hn.
  - exists w2. assumption.
Defined.

(** * Truncating a VOTable *)

Lemma rfind_spec sub data :
  match rfind sub data with
  | Some i => (i ≤ length data)%nat ∧ sub `prefix_of` drop i data
              ∧ ∀ j, (i < j)%nat → (j ≤ length data)%nat → ¬ sub `prefix_of` drop j data
  | None => ∀ j, (j ≤ length data)%nat → ¬ sub `prefix_of` drop j data
  end.
Proof.
  induction data as [|b rest IH]; simpl.
  - destruct (bool_decide (sub `prefix_of` [])) eqn:E.
    + apply bool_decide_eq_true in E. split; [lia |]. split; [done |]. intros j. lia.
    + apply bool_decide_eq_false in E. intros j Hj. by replace j with 0%nat by lia.
  - destruct (rfind sub rest) as [i|].
    + destruct IH as (Hi & Hp & Hlast). split; [lia |]. split; [done |].
      intros [|j] H1 H2; [lia |]. simpl. apply Hlast; lia.
    + destruct (bool_decide (sub `prefix_of` b :: rest)) eqn:E.
      * apply bool_decide_eq_true in E. split; [lia |]. split; [done |].
        intros [|j] H1 H2; [lia |]. simpl. apply IH. lia.
      * apply bool_decide_eq_false in E. intros [|j] Hj; [done |]. simpl. apply IH. lia.
Qed.

Lemma rfind_app sub s1 s2 k :
  rfind sub s2 = Some k → rfind sub (s1 ++ s2) = Some (length s1 + k)%nat.
Proof.
  intros H. induction s1 as [|a s1 IH]; [done |]. simpl. by rewrite IH.
Qed.

Lemma occurs_drop (sub data : list Byte.byte) :
  (∃ pre post, data = pre ++ sub ++ post)
  ↔ ∃ j, (j ≤ length data)%nat ∧ sub `prefix_of` drop j data.
Proof.
  split.
  - intros (pre & post & ->). exists (length pre). split.
    + rewrite length_app. lia.
    + rewrite drop_app_length. by exists post.
  - intros (j & _ & [post Hpost]). exists (take j data), post.
    by rewrite <- Hpost, take_drop.
Qed.

Lemma take_row_end (data : list Byte.byte) i :
  row_end `prefix_of` drop i data →
  take (i + 5) data = take i data ++ row_end ∧ (i + 5 ≤ length data)%nat.
Proof.
  intros [post Hpost].
  assert (Hd : data = take i data ++ row_end ++ post) by (by rewrite <- Hpost, take_drop).
  assert (Hlen : (i ≤ length data)%nat).
  { destruct (decide (i ≤ length data)%nat) as [|Hn]; [done |].
    rewrite drop_ge in Hpost by lia. vm_compute in Hpost. discriminate Hpost. }
  assert (Hi : length (take i data) = i) by (rewrite length_take; lia).
  split.
  - rewrite <- take_take_drop, Hpost. by rewrite (take_app_length' row_end post 5).
  - rewrite Hd, !length_app, Hi. change (length row_end) with 5%nat. lia.
Qed.

Lemma read_partial_vot_inv disk filename bytes out :
  _read_partial_vot disk filename bytes = Ok out →
  ∃ content data i,
    disk !! filename = Some content ∧ fp_read content bytes = Ok data
    ∧ rfind row_end data = Some i ∧ out = take i data ++ vot_closer.
Proof.
  unfold _read_partial_vot, rindex. intros H.
  destruct (disk !! filename) as [content|]; [| done]. cbn [rbind] in H.
  destruct (fp_read content bytes) as [data|] eqn:Er; [| done]. cbn [rbind] in H.
  destruct (rfind row_end data) as [i|] eqn:Ei; [| done]. cbn [rbind] in H.
  injection H as <-. by exists content, data, i.
Qed.

(** X13: what [_read_partial_vot] returns is the longest part of the
    bytes it read that ends with a row end ["</TR>"], followed by the
    closing tags of the table: whole rows are kept, the row that was cut
    is dropped. *)
Theorem read_partial_vot_keeps_whole_rows disk filename bytes out :
  _read_partial_vot disk filename bytes = Ok out →
  ∃ content data keep,
    disk !! filename = Some content
    ∧ fp_read content bytes = Ok data
    ∧ out = keep ++ vot_tail
    ∧ keep `prefix_of` data
    ∧ row_end `suffix_of` keep
    ∧ ∀ keep', keep' `prefix_of` data → row_end `suffix_of` keep' →
               (length keep' ≤ length keep)%nat.
Proof.
  intros H. destruct (read_partial_vot_inv _ _ _ _ H) as (content & data & i & Hd & Hr & Hi & ->).
  pose proof (rfind_spec row_end data) as Hspec. rewrite Hi in Hspec.
  destruct Hspec as (Hle & Hp & Hlast).
  destruct (take_row_end data i Hp) as [Htake Hlen].
  exists content, data, (take (i + 5) data). repeat split; try done.
  - rewrite Htake, <- app_assoc. done.
  - apply prefix_take.
  - rewrite Htake. by exists (take i data).
  - intros keep' [post Hpost] [pre Hpre].
    rewrite length_take, Nat.min_l by lia.
    destruct (decide (length keep' ≤ i + 5)%nat) as [|Hgt]; [done |]. exfalso.
    apply (Hlast (length pre)).
    + assert (length keep' = length pre + 5)%nat
        by (by rewrite Hpre, length_app). lia.
    + rewrite Hpost, Hpre, !length_app. lia.
    + rewrite Hpost, Hpre, <- !app_assoc, drop_app_length. by exists post.
Qed.

Lemma read_partial_vot_keeps_whole_rows_witness :
  _read_partial_vot {["t.vot" := partial_vot]} "t.vot" 80
  = Ok (String.list_byte_of_string
          "<VOTABLE><RESOURCE><TABLE><DATA><TABLEDATA><TR><TD>1</TD></TR></TABLEDATA></DATA></TABLE></RESOURCE></VOTABLE>").
Proof.
  destruct (read_partial_vot_keeps_whole_rows {["t.vot" := partial_vot]} "t.vot" 80
              (String.list_byte_of_string
                 "<VOTABLE><RESOURCE><TABLE><DATA><TABLEDATA><TR><TD>1</TD></TR></TABLEDATA></DATA></TABLE></RESOURCE></VOTABLE>"))
    as (content & _); by vm_compute.
Defined.

(** X14: [_read_partial_vot] succeeds exactly when the bytes it read hold
    a row end; without one it raises [ValueError]. *)
Theorem read_partial_vot_needs_a_row disk filename bytes content data :
  disk !! filename = Some content → fp_read content bytes = Ok data →
  ((∃ pre post, data = pre ++ row_end ++ post) →
   is_ok (_read_partial_vot disk filename bytes))
  ∧ (¬ (∃ pre post, data = pre ++ row_end ++ post) →
     _read_partial_vot disk filename bytes = Raise ValueError).
Proof.
  intros Hd Hr. unfold _read_partial_vot, rindex. rewrite Hd. cbn [rbind].
  rewrite Hr. cbn [rbind].
  pose proof (rfind_spec row_end data) as Hspec.
  destruct (rfind row_end data) as [i|]; cbn [rbind].
  - split; [done |]. intros Hno. exfalso. apply Hno. apply occurs_drop.
    exists i. by destruct Hspec as (? & ? & _).
  - split; [| done]. intros Hocc. apply occurs_drop in Hocc as (j & Hj & Hp).
    by destruct (Hspec j Hj).
Qed.

Lemma read_partial_vot_needs_a_row_witness :
  _read_partial_vot {["t.vot" := partial_vot]} "t.vot" 40 = Raise ValueError.
Proof.
  destruct (read_partial_vot_needs_a_row {["t.vot" := partial_vot]} "t.vot" 40
              partial_vot (take 40 partial_vot)) as [_ H]; [reflexivity .. |].
  apply H. intros Hocc. apply occurs_drop in Hocc as (j & Hj & Hp).
  pose proof (rfind_spec row_end (take 40 partial_vot)) as Hspec.
  assert (Hnone : rfind row_end (take 40 partial_vot) = None) by by vm_compute.
  rewrite Hnone in Hspec. by apply (Hspec j).
Defined.

(** X15: the result of [_read_partial_vot] is left as it is by a second
    truncation that reads the whole of it (a byte count of [-1]). *)
Theorem read_partial_vot_idempotent disk filename bytes out other :
  _read_partial_vot disk filename bytes = Ok out →
  _read_partial_vot (<[other := out]> disk) other (-1) = Ok out.
Proof.
  intros H. destruct (read_partial_vot_inv _ _ _ _ H) as (content & data & i & _ & _ & Hi & ->).
  pose proof (rfind_spec row_end data) as Hspec. rewrite Hi in Hspec.
  destruct Hspec as (Hle & _ & _).
  unfold _read_partial_vot, rindex. rewrite lookup_insert_eq. cbn [rbind].
  assert (Hread : fp_read (take i data ++ vot_closer) (-1)
                  = Ok (take i data ++ vot_closer)) by done.
  rewrite Hread. cbn [rbind].
  rewrite (rfind_app row_end (take i data) vot_closer 0) by by vm_compute.
  cbn [rbind]. rewrite Nat.add_0_r, take_app_length. done.
Qed.

Lemma read_partial_vot_idempotent_witness :
  ∃ out, _read_partial_vot {["t.vot" := partial_vot]} "t.vot" 80 = Ok out
         ∧ _read_partial_vot {["cut.vot" := out]} "cut.vot" (-1) = Ok out.
Proof.
  destruct (_read_partial_vot {["t.vot" := partial_vot]} "t.vot" 80) as [out|] eqn:E;
    [| by vm_compute in E].
  exists out. split; [reflexivity |].
  pose proof (read_partial_vot_idempotent {["t.vot" := partial_vot]} "t.vot" 80 out
                "cut.vot" E) as H.
  unfold _read_partial_vot in H |- *.
  rewrite lookup_insert_eq in H. by rewrite lookup_singleton_eq.
Defined.

(** * The command line *)

Lemma str_split_cons sep c s :
  str_split sep (String c s) =
  if Ascii.eqb c sep then EmptyString :: str_split sep s
  else match str_split sep s with
       | [] => [String c EmptyString]
       | h :: t => String c h :: t
       end.
Proof. reflexivity. Qed.

Lemma str_split_nonempty sep s : str_split sep s ≠ [].
Proof.
  destruct s as [|c s]; [done |]. rewrite str_split_cons.
  destruct (Ascii.eqb c sep); [done |]. by destruct (str_split sep s).
Qed.

Lemma str_split_no_sep sep s n : n ∈ str_split sep s → str_in sep n = false.
Proof.
  revert n. induction s as [|c s IH]; intros n Hn.
  - apply list_elem_of_singleton in Hn as ->. done.
  - rewrite str_split_cons in Hn. destruct (Ascii.eqb c sep) eqn:Ec.
    + apply elem_of_cons in Hn as [-> | Hn]; [done | by apply IH].
    + destruct (str_split sep s) as [|h t].
      * apply list_elem_of_singleton in Hn as ->. rewrite str_in_cons, Ec. done.
      * apply elem_of_cons in Hn as [-> | Hn].
        -- rewrite str_in_cons, Ec. apply IH, list_elem_of_here.
        -- by apply IH, list_elem_of_further.
Qed.

Lemma str_join_cons sep s rest :
  str_join sep (s :: rest) =
  match rest with
  | [] => s
  | _ :: _ => s +:+ sep +:+ str_join sep rest
  end.
Proof. reflexivity. Qed.

Lemma str_join_split sep s :
  str_join (String sep EmptyString) (str_split sep s) = s.
Proof.
  induction s as [|c s IH]; [done |]. rewrite str_split_cons.
  pose proof (str_split_nonempty sep s) as Hne.
  destruct (Ascii.eqb c sep) eqn:Ec.
  - apply Ascii.eqb_eq in Ec as ->. rewrite str_join_cons.
    destruct (str_split sep s) as [|h t]; [done |].
    by rewrite IH, str_app_nil_l, str_app_cons, str_app_nil_l.
  - destruct (str_split sep s) as [|h t]; [done |].
    rewrite str_join_cons in IH |- *. destruct t as [|h' t].
    + by rewrite IH.
    + by rewrite str_app_cons, IH.
Qed.

(** X16: the column selection [main] hands to [read] comes from
    [--input-columns] by splitting at the commas: it is never empty, no
    name in it holds a comma, and joining it with commas gives the option
    back.  In particular an empty option value selects the one column
    named by the empty string, not all columns. *)
Theorem main_selects_columns_by_commas args w path only :
  main_input args w = Some (FromBintable path (Some only)) →
  ∃ s, args_input_columns args = Some s
       ∧ only ≠ []
       ∧ (∀ n, n ∈ only → str_in "," n = false)
       ∧ str_join "," only = s
       ∧ (s = "" → only = [""]).
Proof.
  unfold main_input. intros H.
  destruct (args_input_type args); [done |].
  destruct (endswith (args_input args) ".vot" && os_path_isfile (args_input args) w);
    [done |].
  destruct (os_path_isdir (args_input args) w
            && os_path_isfile (os_path_join (args_input args) "bintable.json") w);
    [| done].
  destruct (args_input_columns args) as [s|]; [| done].
  injection H as _ <-. exists s. split; [done |].
  split; [apply str_split_nonempty |]. split; [apply str_split_no_sep |].
  split; [apply str_join_split | by intros ->].
Qed.

Lemma main_selects_columns_by_commas_witness :
  main_input {| args_input := "out"; args_input_type := None;
                args_input_truncate := None; args_input_columns := Some "flux,id";
                args_output := None; args_output_type := None |} example_dataset
  = Some (FromBintable "out" (Some ["flux"; "id"]))
  ∧ str_join "," ["flux"; "id"] = "flux,id".
Proof.
  split; [by vm_compute |].
  destruct (main_selects_columns_by_commas
              {| args_input := "out"; args_input_type := None;
                 args_input_truncate := None; args_input_columns := Some "flux,id";
                 args_output := None; args_output_type := None |} example_dataset
              "out" ["flux"; "id"]) as (s & Hs & _ & _ & Hj & _); [by vm_compute |].
  injection Hs as <-. exact Hj.
Defined.

(** X17: a dataset that [write] has made in a new directory is what
    [main] takes for a bintable input: without [--input-type], it calls
    [read] on the directory, whatever the directory is called. *)
Theorem main_recognises_written_dataset table args w w1 :
  files w !! args_input args = None →
  write table (args_input args) w = (Ok tt, w1) →
  args_input_type args = None →
  main_input args w1
  = Some (FromBintable (args_input args)
            (option_map (str_split ",") (args_input_columns args))).
Proof.
  intros Hnew E Hty. set (path := args_input args) in *.
  destruct (write_inv _ _ _ _ _ E)
    as [(e & _ & He & _) | (st & Hplan & [(e & _ & He) | (w0 & Ec & H)])];
    [done | done |].
  destruct H as [(e & _ & He) | (w2 & Ef & Er)]; [done |].
  pose proof (plan_planned _ _ Hplan) as Hp.
  destruct (manifest_paths_apart path) as (A1 & A2 & A3 & A4 & A5 & A6).
  assert (Hdir : files w1 !! path = Some Dir).
  { destruct (os_rename_ok_inv _ _ _ _ Er) as [_ Hf]. rewrite Hf by done.
    rewrite (write_files_keeps_directory _ _ _ _ _ _ Hp Ef).
    rewrite check_directory_new in Ec by done.
    destruct (os_mkdir_ok path w Hnew) as (w0' & Em & Hfiles & _).
    { intros Hh. unfold os_mkdir, bind, log, os_path_exists, fault, raise in Ec.
      simpl in Ec. rewrite Hnew in Ec.
      rewrite bool_decide_eq_false_2 in Ec by (by intros [? ?]).
      destruct (oracle w) as [|[|] o]; simpl in *; done. }
    rewrite Em in Ec. injection Ec as <-. by rewrite Hfiles, lookup_insert_eq. }
  destruct (write_ok_inv _ _ _ _ E) as (st' & _ & Hman & _).
  unfold main_input. rewrite Hty. fold path.
  unfold os_path_isfile, os_path_isdir. rewrite Hdir.
  rewrite andb_false_r. simpl. unfold final_manifest in Hman. by rewrite Hman.
Qed.

Lemma main_recognises_written_dataset_witness :
  main_input {| args_input := "night.vot"; args_input_type := None;
                args_input_truncate := None; args_input_columns := None;
                args_output := None; args_output_type := None |}
    (snd (write example_table "night.vot" empty_world))
  = Some (FromBintable "night.vot" None).
Proof.
  apply (main_recognises_written_dataset example_table
           {| args_input := "night.vot"; args_input_type := None;
              args_input_truncate := None; args_input_columns := None;
              args_output := None; args_output_type := None |}
           empty_world (snd (write example_table "night.vot" empty_world))).
  - reflexivity.
  - by vm_compute.
  - reflexivity.
Defined.






(** * Edge cases *)

(** ** A table without columns *)

(** X19: a table without columns, with metadata [json.dumps] accepts, is
    written into a fresh directory, with no outside failure, as a
    directory that holds the manifest and nothing else: no data file, no
    mask file, no temporary manifest left.  The manifest holds the
    metadata as its JSON image, the masked flag and an empty list of
    columns. *)
Theorem write_empty_table table path w :
  tbl_columns table = [] → json_ok (tbl_meta table) = true →
  fresh path w → oracle w = [] →
  ∃ w1, write table path w = (Ok tt, w1)
        ∧ files w1
          = <[final_manifest path :=
                File (CJson (PDict [(KStr "meta", json_image (tbl_meta table));
                                    (KStr "masked", PBool (tbl_masked table));
                                    (KStr "columns", PList [])]))]>
              (<[path := Dir]> (files w)).
Proof.
  intros Hcols Hmeta [Hpath Hnames] Ho.
  destruct (manifest_paths_apart path) as (A1 & A2 & A3 & A4 & A5 & A6).
  assert (Hplan : plan table = Ok plan_init) by (unfold plan; by rewrite Hcols).
  rewrite write_eq, Hplan, check_directory_new by done.
  destruct (os_mkdir_ok path w Hpath) as (w0 & -> & Hf0 & Ho0); [by rewrite Ho |].
  rewrite Ho in Ho0. simpl in Ho0.
  destruct (write_json_ok (tmp_manifest path) (manifest_obj table []) w0 Ho0)
    as (w2 & E2 & Ho2 & Hf2).
  { rewrite Hf0, lookup_insert_ne by done. unfold tmp_manifest. by rewrite Hnames. }
  { by rewrite json_ok_manifest. }
  rewrite json_image_manifest in Hf2.
  assert (Ef : write_files table path plan_init w0 = (Ok tt, w2)).
  { change (write_manifest table path [] w0 = (Ok tt, w2)) in E2.
    unfold write_files. cbn [columns maskdatas datafiles plan_init].
    by rewrite (bind_ok _ _ _ _ _ E2). }
  rewrite Ef.
  destruct (os_rename_ok (tmp_manifest path) (final_manifest path)
              (CJson (manifest_json table [])) w2 Ho2) as (w3 & -> & _ & Hf3).
  { by rewrite Hf2, lookup_insert_eq. }
  { rewrite Hf2, lookup_insert_ne, Hf0, lookup_insert_ne by done.
    unfold final_manifest. by rewrite Hnames. }
  exists w3. split; [done |]. rewrite Hf3, Hf2, Hf0. apply map_eq. intros q.
  destruct (decide (q = final_manifest path)) as [-> | Hq1].
  - by rewrite !lookup_insert_eq.
  - rewrite !(lookup_insert_ne _ (final_manifest path)) by done.
    destruct (decide (q = tmp_manifest path)) as [-> | Hq2].
    + rewrite lookup_delete_eq, lookup_insert_ne by done.
      unfold tmp_manifest. by rewrite Hnames.
    + by rewrite lookup_delete_ne, lookup_insert_ne.
Qed.

Lemma write_empty_table_witness :
  ∃ w1, write {| tbl_columns := []; tbl_masked := false;
                 tbl_meta := PDict [(KStr "origin", PStr "survey")] |} "out" empty_world
        = (Ok tt, w1)
        ∧ files w1 !! mask_file "out" = None.
Proof.
  destruct (write_empty_table
              {| tbl_columns := []; tbl_masked := false;
                 tbl_meta := PDict [(KStr "origin", PStr "survey")] |} "out" empty_world)
    as (w1 & E & Hf).
  - reflexivity.
  - reflexivity.
  - split; [reflexivity | intros name _; apply lookup_empty].
  - reflexivity.
  - exists w1. split; [exact E |]. rewrite Hf. by vm_compute.
Defined.

(** ** Slices *)

Lemma py_slice_length {A} (a : list A) lo len :
  (0 ≤ len)%Z → (length (py_slice a lo (lo + len)) ≤ Z.to_nat len)%nat.
Proof.
  intros Hlen. unfold py_slice, slice_bound. rewrite length_take.
  destruct (lo <? 0)%Z eqn:E1, (lo + len <? 0)%Z eqn:E2;
    rewrite ?Z.ltb_lt, ?Z.ltb_ge in E1, E2; lia.
Qed.

Lemma load_buffer_items fs path f buf a lo hi :
  load_buffer fs path f = Ok buf → buffer_slice buf lo hi = Ok a →
  ∃ c l, fs !! os_path_join path f = Some (File c) ∧ file_items c = Some l
         ∧ a = py_slice l lo hi.
Proof.
  unfold load_buffer, read_npy, read_json, read_file, buffer_slice. intros Hb Hs.
  destruct (assert (negb (str_in "/" f))); cbn [rbind] in Hb; [| done].
  destruct (endswith f ".npy").
  - destruct (fs !! os_path_join path f) as [[|c]|]; cbn [rbind] in Hb; try done.
    destruct c as [v|l|]; try done. injection Hb as <-. injection Hs as <-.
    by exists (CNpy l), l.
  - destruct (endswith f ".json"); [| done].
    destruct (fs !! os_path_join path f) as [[|c]|]; cbn [rbind] in Hb; try done.
    destruct c as [v|l|]; try done. injection Hb as <-.
    destruct v; try done; injection Hs as <-; by eexists _, _.
Qed.

Lemma masked_array_fst a m ma : masked_array a m = Ok ma → fst ma = a.
Proof.
  unfold masked_array. destruct (length m =? length a)%nat; [by intros [= <-] |].
  destruct m as [|b [|]]; try done. by intros [= <-].
Qed.

Lemma column_of_slice ku fs path c l :
  column_of ku fs path c = Ok l →
  ∃ f content items lo len,
    column_file c = Ok f
    ∧ fs !! os_path_join path f = Some (File content)
    ∧ file_items content = Some items
    ∧ (let? v := py_getitem c "offset" in as_index v) = Ok lo
    ∧ (let? v := py_getitem c "length" in as_index v) = Ok len
    ∧ fst (ld_data l) = py_slice items lo (lo + len).
Proof.
  unfold column_of, column_file. intros H. inv_rbind H. injection H as <-. simpl.
  match goal with
  | Hb : load_buffer _ _ ?f = Ok ?buf, Hs : buffer_slice ?buf ?lo ?hi = Ok ?a |- _ =>
      destruct (load_buffer_items _ _ _ _ _ _ _ Hb Hs) as (content & items & Hc & Hi & ->);
      exists f, content, items
  end.
  match goal with
  | Ho : as_index _ = Ok ?lo, Hl : as_index _ = Ok ?len |- _ => exists lo, len
  end.
  repeat split; try done.
  match goal with
  | Hd : (if ?b then _ else _) = Ok ?d |- fst ?d = _ =>
      destruct b; [| by injection Hd as <-]
  end.
  match goal with
  | Hd : rbind _ _ = Ok _ |- _ => inv_rbind Hd; injection Hd as <-; simpl
  end.
  by eapply masked_array_fst.
Qed.

(** X20: with no outside failure, each column of the table a [read]
    returns is the Python slice [offset : offset + length] of the
    sequence its backing file holds.  The bounds are not checked: a range
    that runs past the end of the file gives a shorter column, never an
    error, and with a length that is not negative a column is never
    longer than its entry says. *)
Theorem read_slices_backing_files ku path only w R w' bintable cols :
  oracle w = [] → read ku path only w = (Ok R, w') →
  files w !! final_manifest path = Some (File (CJson bintable)) →
  requested_columns bintable only = Ok cols →
  ∀ i column rc, cols !! i = Some column → rt_columns R !! i = Some rc →
    ∃ f content items lo len,
      column_file column = Ok f
      ∧ files w !! os_path_join path f = Some (File content)
      ∧ file_items content = Some items
      ∧ (let? v := py_getitem column "offset" in as_index v) = Ok lo
      ∧ (let? v := py_getitem column "length" in as_index v) = Ok len
      ∧ rc_values rc = py_slice items lo (lo + len)
      ∧ ((0 ≤ len)%Z → (length (rc_values rc) ≤ Z.to_nat len)%nat).
Proof.
  intros Ho E Hman Hreq i column rc Hcol Hrc.
  destruct (read_quiet ku (files w) path only w) as (w2 & E2 & _); [done |].
  rewrite E in E2. injection E2 as HR _. symmetry in HR.
  destruct (table_of_inv _ _ _ _ _ HR) as (b' & cols' & ls & Hb & Hreq' & Hls & HRc & _).
  apply read_json_inv in Hb. rewrite Hman in Hb. injection Hb as <-.
  rewrite Hreq in Hreq'. injection Hreq' as <-.
  apply columns_of_Forall2 in Hls. rewrite HRc in Hrc. simpl in Hrc.
  rewrite list_lookup_fmap in Hrc.
  destruct (ls !! i) as [l|] eqn:El; [| done]. injection Hrc as <-.
  pose proof (Forall2_lookup_lr _ _ _ _ _ _ Hls Hcol El) as Hl.
  destruct (column_of_slice _ _ _ _ _ Hl)
    as (f & content & items & lo & len & H1 & H2 & H3 & H4 & H5 & H6).
  exists f, content, items, lo, len. simpl. repeat split; try done.
  intros Hlen. rewrite H6. by apply py_slice_length.
Qed.

Lemma read_slices_backing_files_witness :
  ∃ rc, rt_columns
          (match fst (read jansky_known "out" (Some ["id"])
                        (World (<["out/data.int32.npy" := File (CNpy [PInt 1; PInt 2])]>
                                  (files example_dataset)) [] [])) with
           | Ok R => R
           | Raise _ => {| rt_columns := []; rt_meta := PNone; rt_masked := PNone |}
           end) !! 0 = Some rc
        ∧ (length (rc_values rc) ≤ 3)%nat.
Proof.
  pose proof (read_slices_backing_files jansky_known "out" (Some ["id"])
                (World (<["out/data.int32.npy" := File (CNpy [PInt 1; PInt 2])]>
                          (files example_dataset)) [] [])
                (match fst (read jansky_known "out" (Some ["id"])
                              (World (<["out/data.int32.npy" :=
                                          File (CNpy [PInt 1; PInt 2])]>
                                        (files example_dataset)) [] [])) with
                 | Ok R => R
                 | Raise _ => {| rt_columns := []; rt_meta := PNone; rt_masked := PNone |}
                 end)
                (snd (read jansky_known "out" (Some ["id"])
                        (World (<["out/data.int32.npy" := File (CNpy [PInt 1; PInt 2])]>
                                  (files example_dataset)) [] [])))
                (manifest_json example_table
                   (match plan example_table with
                    | Ok st => columns st
                    | Raise _ => []
                    end))
                [entry_json {| ce_name := "id"; ce_file := "data.int32.npy";
                               ce_offset := 0; ce_length := 3;
                               ce_maskoffset := None; ce_unit := None |}]) as H.
  destruct (rt_columns _) as [|rc rest] eqn:Ecols; [by vm_compute in Ecols |].
  clear Ecols. exists rc. split; [reflexivity |].
  assert (Hall := H eq_refl ltac:(by vm_compute) ltac:(by vm_compute)
                    ltac:(by vm_compute)).
  clear H.
  destruct (Hall 0%nat _ rc eq_refl eq_refl)
    as (f & content & items & lo & len & _ & _ & _ & _ & Hlen & _ & Hle).
  vm_compute in Hlen. injection Hlen as <-. apply Hle. lia.
Defined.
